(** * Order placement and stock reconciliation

    A shallow embedding of the order functions of the store client
    ([lib/supabase.ts], imported by the pages as [@/lib/supabase]; in the
    sources it follows the revenue hook in [src/hooks/useRevenueData.ts]):
    [isValidUUID], [ensureUUID], [fetchCustomerById], [updateCustomer],
    [deleteCustomer], [fetchOrderById], [createOrder], [updateOrder],
    [deleteOrder]; and of the two order forms ([pages/orders/OrderNew.tsx],
    [pages/orders/OrderEdit.tsx]).

    The hosted store is a collaborator of the code, not part of it.  It is
    modelled as keyed tables; every remote call may fail, which is driven by
    a fault schedule carried in the world, and every call is recorded with
    its outcome.  Random identifiers and clock readings are drawn from
    streams carried in the world.

    Numbers: quantities and stock counts are integers ([Z]).  Prices and
    totals are JavaScript numbers, which the store and the functions mostly
    carry from one place to another; they are carried here as integers
    ([Z]).  The two places that add and multiply them, [calculateTotal] of
    the forms and the figures of the dashboard, do so in a fixed order from
    left to right; statements about such sums keep the operations and their
    order, so that they read the same on the doubles of the sources, where
    the result of a sum depends on the order.  Times are in milliseconds. *)

From Stdlib Require Import ZArith String Ascii List Bool Lia DecimalString.
From stdpp Require Import gmap strings list fin_maps.
Import ListNotations.

Local Open Scope Z_scope.
Local Open Scope string_scope.

(** ** JavaScript idioms used by the sources *)

Module JS.

(** Truthiness of a string-valued expression: [""], like [null] and
    [undefined] (both represented by [""]), is falsy. *)
Definition truthy (s : string) : bool :=
  match s with EmptyString => false | String _ _ => true end.

(** [s || d] on strings. *)
Definition or_str (s d : string) : string := if truthy s then s else d.

(** [x || d] on numbers: [0] is falsy. *)
Definition or_num (x d : Z) : Z := if Z.eqb x 0 then d else x.

(** [parseInt(String(n))] on an integer and [parseFloat(String(x))] on a
    number print and re-read the same number. *)
Definition parseInt (n : Z) : Z := n.
Definition parseFloat (x : Z) : Z := x.

(** [new Date(d.toUTCString())], and [Date.UTC] of the year, month, day,
    hours, minutes and seconds of a date: the time with its milliseconds
    dropped. *)
Definition whole_seconds (t : Z) : Z := 1000 * (t / 1000).

(** A [Map<string, V>]: keys in order of first insertion, the last value
    written for a key wins. *)
Section MapOf.
Context {V : Type}.

Fixpoint set (k : string) (v : V) (m : list (string * V)) : list (string * V) :=
  match m with
  | [] => [(k, v)]
  | (k', v') :: m' =>
      if String.eqb k k' then (k', v) :: m' else (k', v') :: set k v m'
  end.

(** [new Map(entries)] *)
Definition of_entries (entries : list (string * V)) : list (string * V) :=
  fold_left (fun m kv => set (fst kv) (snd kv) m) entries [].

Fixpoint get (k : string) (m : list (string * V)) : option V :=
  match m with
  | [] => None
  | (k', v) :: m' => if String.eqb k k' then Some v else get k m'
  end.

Definition has (k : string) (m : list (string * V)) : bool :=
  match get k m with Some _ => true | None => false end.
End MapOf.

End JS.

(** ** UUID format check *)

Module UUID.

Definition between (lo hi c : ascii) : bool :=
  (Ascii.leb lo c && Ascii.leb c hi)%bool.

(** [[0-9a-f]] under the [i] flag *)
Definition is_hex (c : ascii) : bool :=
  (between "0" "9" c || between "a" "f" c || between "A" "F" c)%bool.

(** [[89ab]] under the [i] flag *)
Definition is_variant (c : ascii) : bool :=
  (between "8" "9" c || between "a" "b" c || between "A" "B" c)%bool.

(** One character satisfying [p], then the rest. *)
Definition one (p : ascii -> bool) (s : string) : option string :=
  match s with
  | String c s' => if p c then Some s' else None
  | EmptyString => None
  end.

(** [p{n}] *)
Fixpoint rep (n : nat) (p : ascii -> bool) (s : string) : option string :=
  match n with
  | O => Some s
  | S n' => match one p s with Some s' => rep n' p s' | None => None end
  end.

Definition lit (c : ascii) : string -> option string := one (Ascii.eqb c).

Definition andThen (f g : string -> option string) (s : string) : option string :=
  match f s with Some s' => g s' | None => None end.

Definition at_end (s : string) : bool :=
  match s with EmptyString => true | String _ _ => false end.

(** [/^[0-9a-f]{8}-[0-9a-f]{4}-4[0-9a-f]{3}-[89ab][0-9a-f]{3}-[0-9a-f]{12}$/i] *)
Definition isValidUUID (uuid : string) : bool :=
  match
    andThen (rep 8 is_hex)
   (andThen (lit "-")
   (andThen (rep 4 is_hex)
   (andThen (lit "-")
   (andThen (lit "4")
   (andThen (rep 3 is_hex)
   (andThen (lit "-")
   (andThen (one is_variant)
   (andThen (rep 3 is_hex)
   (andThen (lit "-")
            (rep 12 is_hex)))))))))) uuid
  with
  | Some rest => at_end rest
  | None => false
  end.

End UUID.

(** ** Application data ([Order], [OrderItem] of [lib/types]) *)

Record OrderItem := mkItem {
  item_id : string;
  productId : string;
  productName : string;
  quantity : Z;
  price : Z
}.

Record Order := mkOrder {
  order_id : string;
  customerId : string;
  customerName : string;
  employeeId : string;
  employeeName : string;
  status : option string;
  items : list OrderItem;
  total : Z;
  createdAt : Z
}.

(** [Omit<Order, "id" | "createdAt">], the argument of [createOrder] *)
Record OrderDraft := mkDraft {
  draft_customerId : string;
  draft_customerName : string;
  draft_employeeId : string;
  draft_employeeName : string;
  draft_items : list OrderItem;
  draft_total : Z
}.

(** [Partial<Order>], the argument of [updateOrder]: [None] is an absent
    field. *)
Record OrderPatch := mkPatch {
  patch_customerId : option string;
  patch_customerName : option string;
  patch_employeeId : option string;
  patch_employeeName : option string;
  patch_total : option Z;
  patch_items : option (list OrderItem)
}.

Record Customer := mkCustomer {
  cust_id : string;
  cust_name : string;
  cust_email : string;
  cust_phone : string;
  cust_address : string;
  cust_createdAt : Z
}.

(** [Partial<Customer>] as far as [updateCustomer] writes it *)
Record CustomerPatch := mkCustomerPatch {
  cpatch_name : option string;
  cpatch_email : option string;
  cpatch_phone : option string;
  cpatch_address : option string
}.

(** ** The store *)

(** A row of [customers]; the key of the table is the [id] column. *)
Record CustomerRow := mkCustomerRow {
  c_name : string;
  c_email : string;
  c_phone : string;
  c_address : string;
  c_created_at : option Z
}.

(** A row of [orders]; the key of the table is the [id] column.  A [null]
    text column is [""], a [null] timestamp is [None]. *)
Record OrderRow := mkOrderRow {
  customer_id : string;
  customer_name : string;
  employee_id : string;
  employee_name : string;
  row_status : string;
  row_total : Z;
  created_at : option Z
}.

(** A row of [order_items]. *)
Record ItemRow := mkItemRow {
  row_id : string;
  order_ref : string;        (* order_id *)
  product_id : string;
  product_name : string;
  row_quantity : Z;
  row_price : Z
}.

(** The tables.  [products] is projected on its [stock] column, the only
    one the order functions read or write. *)
Record Database := mkDatabase {
  customers : gmap string CustomerRow;
  products : gmap string Z;
  orders : gmap string OrderRow;
  order_items : list ItemRow
}.

Inductive Op := Select | Insert | Update | Delete | Rpc.

(** A remote call: table (or procedure), operation, value of the filter or
    key. *)
Record Call := mkCall { call_table : string; call_op : Op; call_key : string }.

(** A call together with whether it returned an error. *)
Definition Event : Type := Call * bool.

Record World := mkWorld {
  db : Database;
  faults : list bool;        (* outcome of the coming remote calls: [true] fails *)
  entropy : nat -> string;   (* successive outputs of uuidv4 / crypto.randomUUID *)
  clock : nat -> Z;          (* successive readings of [new Date()] *)
  ticks : nat;               (* draws made so far *)
  log : list Event
}.

Definition with_db (d : Database) (w : World) : World :=
  mkWorld d (faults w) (entropy w) (clock w) (ticks w) (log w).
Definition with_faults (f : list bool) (w : World) : World :=
  mkWorld (db w) f (entropy w) (clock w) (ticks w) (log w).
Definition with_ticks (n : nat) (w : World) : World :=
  mkWorld (db w) (faults w) (entropy w) (clock w) n (log w).
Definition with_log (l : list Event) (w : World) : World :=
  mkWorld (db w) (faults w) (entropy w) (clock w) (ticks w) l.

Definition with_customers (t : gmap string CustomerRow) (d : Database) : Database :=
  mkDatabase t (products d) (orders d) (order_items d).
Definition with_products (t : gmap string Z) (d : Database) : Database :=
  mkDatabase (customers d) t (orders d) (order_items d).
Definition with_orders (t : gmap string OrderRow) (d : Database) : Database :=
  mkDatabase (customers d) (products d) t (order_items d).
Definition with_order_items (t : list ItemRow) (d : Database) : Database :=
  mkDatabase (customers d) (products d) (orders d) t.

(** ** Errors thrown by the order functions *)

Inductive Err :=
| StockCheckFailed (pid : string)
| InsufficientStock (additional : bool) (name : string) (available requested : Z)
| StockUpdateFailed (name : string)
| StockGetFailed (pid : string)
| RemovedStockUpdateFailed (pid : string)
| OrderItemsUpdateFailed
| TypeError
| Raised (text : string).

Definition show (n : Z) : string :=
  NilZero.string_of_int (Z.to_int n).

(** The text of the [Error] *)
Definition message (e : Err) : string :=
  match e with
  | StockCheckFailed pid => "Failed to check stock for product " +:+ pid
  | InsufficientStock additional name available requested =>
      "Insufficient stock for product " +:+ name +:+ ". Available: "
      +:+ show available
      +:+ (if additional then ", Additional requested: " else ", Requested: ")
      +:+ show requested
  | StockUpdateFailed name => "Failed to update stock for product " +:+ name
  | StockGetFailed pid => "Failed to get stock for product " +:+ pid
  | RemovedStockUpdateFailed pid =>
      "Failed to update stock for removed product " +:+ pid
  | OrderItemsUpdateFailed => "Failed to update order items"
  | TypeError => "Cannot read properties of null"
  | Raised text => text
  end.

(** ** Computations: state passing over the world, with exceptions *)

Inductive Result (A : Type) :=
| Ok (a : A)
| Throw (e : Err).
Arguments Ok {A} a.
Arguments Throw {A} e.

Definition M (A : Type) : Type := World -> Result A * World.

Definition ret {A} (a : A) : M A := fun w => (Ok a, w).
Definition throw {A} (e : Err) : M A := fun w => (Throw e, w).
Definition bind {A B} (c : M A) (k : A -> M B) : M B :=
  fun w =>
    match c w with
    | (Ok a, w') => k a w'
    | (Throw e, w') => (Throw e, w')
    end.

Notation "x <- c ;; k" := (bind c (fun x => k))
  (at level 100, c at next level, right associativity).
Notation "c ;;; k" := (bind c (fun _ => k))
  (at level 100, right associativity).

(** [for (const x of l) body] *)
Fixpoint for_each {A} (l : list A) (body : A -> M unit) : M unit :=
  match l with
  | [] => ret tt
  | x :: l' => body x ;;; for_each l' body
  end.

(** [l.map(f)] for an [f] that draws *)
Fixpoint map_m {A B} (f : A -> M B) (l : list A) : M (list B) :=
  match l with
  | [] => ret []
  | x :: l' => y <- f x ;; ys <- map_m f l' ;; ret (y :: ys)
  end.

Definition read_db : M Database := fun w => (Ok (db w), w).
Definition write_db (d : Database) : M unit := fun w => (Ok tt, with_db d w).

(** The next entry of the fault schedule; an exhausted schedule means no
    further fault. *)
Definition next_fault : M bool :=
  fun w =>
    match faults w with
    | [] => (Ok false, w)
    | b :: f => (Ok b, with_faults f w)
    end.

Definition record (c : Call) (failed : bool) : M unit :=
  fun w => (Ok tt, with_log (log w ++ [(c, failed)]) w).

Definition draw : M nat :=
  fun w => (Ok (ticks w), with_ticks (S (ticks w)) w).

(** [uuidv4()] *)
Definition uuidv4 : M string :=
  fun w => (Ok (entropy w (ticks w)), with_ticks (S (ticks w)) w).

(** [crypto.randomUUID()] *)
Definition randomUUID : M string := uuidv4.

(** [new Date()] *)
Definition now : M Z :=
  fun w => (Ok (clock w (ticks w)), with_ticks (S (ticks w)) w).

(** What a query resolves to: [{ data, error }]; [error] carries the error
    code of the store. *)
Record Response (A : Type) := mkResponse { data : option A; error : option string }.
Arguments mkResponse {A} data error.
Arguments data {A} r.
Arguments error {A} r.

Definition errored {A} (r : Response A) : bool :=
  match error r with Some _ => true | None => false end.

Definition failed {A} (code : string) : Response A := mkResponse None (Some code).
Definition found {A} (a : A) : Response A := mkResponse (Some a) None.
Definition nothing {A} : Response A := mkResponse None None.

(** [.single()]: exactly one row, else an error *)
Definition single {A} (row : option A) : Response A :=
  match row with Some a => found a | None => failed "PGRST116" end.

(** [.maybeSingle()]: no row is not an error *)
Definition maybeSingle {A} (row : option A) : Response A :=
  match row with Some a => found a | None => nothing end.

(** A remote call: consult the fault schedule, run the query when the call
    goes through, record the call and its outcome.  A call that fails in
    transit carries no error code and leaves the tables as they are. *)
Definition remote {A} (c : Call) (run : Database -> Response A * Database) : M (Response A) :=
  fault <- next_fault ;;
  d <- read_db ;;
  let '(r, d') := if fault : bool then (failed "", d) else run d in
  write_db d' ;;;
  record c (errored r) ;;;
  ret r.

(** ** Queries issued by the sources *)

Module Query.

(** The number of rows a filter on the key matches *)
Definition rows_matching {A} (row : option A) : nat :=
  match row with Some _ => 1%nat | None => 0%nat end.

(** [from("customers").select("*", { count: "exact", head: true }).eq("id", id)] *)
Definition count_customers (id : string) : M (Response nat) :=
  remote (mkCall "customers" Select id)
    (fun d => (found (rows_matching (customers d !! id)), d)).

(** [from("customers").select(...).eq("id", id).limit(1).maybeSingle()] *)
Definition select_customer (id : string) : M (Response CustomerRow) :=
  remote (mkCall "customers" Select id)
    (fun d => (maybeSingle (customers d !! id), d)).

Definition patch_customer (p : CustomerPatch) (r : CustomerRow) : CustomerRow :=
  mkCustomerRow (default (c_name r) (cpatch_name p))
                (default (c_email r) (cpatch_email p))
                (default (c_phone r) (cpatch_phone p))
                (default (c_address r) (cpatch_address p))
                (c_created_at r).

(** [from("customers").update(customer).eq("id", id).select().single()] *)
Definition update_customer (id : string) (p : CustomerPatch) : M (Response CustomerRow) :=
  remote (mkCall "customers" Update id)
    (fun d =>
       match customers d !! id with
       | Some r =>
           let r' := patch_customer p r in
           (found r', with_customers (<[id := r']> (customers d)) d)
       | None => (failed "PGRST116", d)
       end).

(** [from("customers").delete().eq("id", id)] *)
Definition delete_customer (id : string) : M (Response unit) :=
  remote (mkCall "customers" Delete id)
    (fun d => (nothing, with_customers (delete id (customers d)) d)).

(** [from("products").select("stock").eq("id", pid).single()] *)
Definition select_stock (pid : string) : M (Response Z) :=
  remote (mkCall "products" Select pid)
    (fun d => (single (products d !! pid), d)).

(** [from("products").update({ stock }).eq("id", pid)] *)
Definition update_stock (pid : string) (stock : Z) : M (Response unit) :=
  remote (mkCall "products" Update pid)
    (fun d => (nothing, with_products (alter (fun _ => stock) pid (products d)) d)).

(** Modelled from the spec: the stored procedure [decrease_stock], called
    through [rpc], is not among the sources.  Section 4.3: the reconciler
    reads the current stock, computes [newStock = currentStock - delta]
    and writes it back. *)
Definition decrease_stock (pid : string) (qty : Z) : M (Response unit) :=
  remote (mkCall "decrease_stock" Rpc pid)
    (fun d =>
       match products d !! pid with
       | Some stock => (nothing, with_products (<[pid := stock - qty]> (products d)) d)
       | None => (failed "P0002", d)
       end).

(** The embedded [order_items ( ... )] of an order, in table order *)
Definition items_of (id : string) (d : Database) : list ItemRow :=
  List.filter (fun r => String.eqb (order_ref r) id) (order_items d).

Definition order_with_items (id : string) (d : Database) : option (OrderRow * list ItemRow) :=
  match orders d !! id with
  | Some h => Some (h, items_of id d)
  | None => None
  end.

(** [from("orders").select("*", { count: "exact", head: true }).eq("id", id)] *)
Definition count_orders (id : string) : M (Response nat) :=
  remote (mkCall "orders" Select id)
    (fun d => (found (rows_matching (orders d !! id)), d)).

(** [from("orders").select(`*, order_items (...)`).eq("id", id).maybeSingle()] *)
Definition select_order_maybe (id : string) : M (Response (OrderRow * list ItemRow)) :=
  remote (mkCall "orders" Select id)
    (fun d => (maybeSingle (order_with_items id d), d)).

(** [from("orders").select(`*, order_items (...)`).eq("id", id).single()] *)
Definition select_order (id : string) : M (Response (OrderRow * list ItemRow)) :=
  remote (mkCall "orders" Select id)
    (fun d => (single (order_with_items id d), d)).

(** [from("orders").insert([row]).select().single()]; [id] is the
    primary key. *)
Definition insert_order (id : string) (row : OrderRow) : M (Response OrderRow) :=
  remote (mkCall "orders" Insert id)
    (fun d =>
       match orders d !! id with
       | Some _ => (failed "23505", d)
       | None => (found row, with_orders (<[id := row]> (orders d)) d)
       end).

(** [cleanedData]: the columns an update writes *)
Record HeaderPatch := mkHeaderPatch {
  set_customer_id : option string;
  set_customer_name : option string;
  set_employee_id : option string;
  set_employee_name : option string;
  set_total : option Z
}.

Definition patch_header (p : HeaderPatch) (h : OrderRow) : OrderRow :=
  mkOrderRow (default (customer_id h) (set_customer_id p))
             (default (customer_name h) (set_customer_name p))
             (default (employee_id h) (set_employee_id p))
             (default (employee_name h) (set_employee_name p))
             (row_status h)
             (default (row_total h) (set_total p))
             (created_at h).

(** [from("orders").update(cleanedData).eq("id", id).select().single()] *)
Definition update_order (id : string) (p : HeaderPatch) : M (Response OrderRow) :=
  remote (mkCall "orders" Update id)
    (fun d =>
       match orders d !! id with
       | Some h =>
           let h' := patch_header p h in
           (found h', with_orders (<[id := h']> (orders d)) d)
       | None => (failed "PGRST116", d)
       end).

(** [from("orders").delete().eq("id", id)]; deletes the header row only *)
Definition delete_order (id : string) : M (Response unit) :=
  remote (mkCall "orders" Delete id)
    (fun d => (nothing, with_orders (delete id (orders d)) d)).

(** A new row clashes when its [id] is already in the table or occurs
    twice among the new rows. *)
Definition clashes (existing new : list ItemRow) : bool :=
  negb (bool_decide (NoDup (row_id <$> new)))
  || existsb (fun r => bool_decide (row_id r ∈ (row_id <$> existing))) new.

(** [from("order_items").insert(rows)] (with or without [.select()]) *)
Definition insert_items (oid : string) (rows : list ItemRow) : M (Response (list ItemRow)) :=
  remote (mkCall "order_items" Insert oid)
    (fun d =>
       if clashes (order_items d) rows then (failed "23505", d)
       else (found rows, with_order_items (order_items d ++ rows) d)).

(** [from("order_items").delete().eq("order_id", oid)] *)
Definition delete_items (oid : string) : M (Response unit) :=
  remote (mkCall "order_items" Delete oid)
    (fun d =>
       (nothing,
        with_order_items
          (List.filter (fun r => negb (String.eqb (order_ref r) oid)) (order_items d)) d)).

End Query.

(** ** [src/lib/supabase.ts] *)

Module Supabase.
Import Query.

Definition isValidUUID := UUID.isValidUUID.

(** Both branches of the [try] return [uuidv4()]. *)
Definition ensureUUID (id : string) : M string :=
  if isValidUUID id then ret id else uuidv4.

(** [stamp ? new Date(stamp) : new Date()] *)
Definition date_or_now (stamp : option Z) : M Z :=
  match stamp with Some t => ret t | None => now end.

(** *** Customers *)

Definition fetchCustomerById (id : string) : M (option Customer) :=
  if negb (JS.truthy id) then ret None else
  if negb (isValidUUID id) then ret None else
  rc <- count_customers id ;;
  if errored rc then ret None else
  match data rc with
  | None | Some O => ret None
  | Some (S _) =>
      r <- select_customer id ;;
      if errored r then ret None else
      match data r with
      | None => ret None
      | Some row =>
          created <- date_or_now (JS.whole_seconds <$> c_created_at row) ;;
          ret (Some (mkCustomer id (c_name row) (c_email row) (c_phone row)
                                (c_address row) created))
      end
  end.

(** The row read back has no [createdAt] column, so the result always
    takes [new Date()]; reading a field of a [null] row raises inside the
    [try], whose [catch] returns [null]. *)
Definition updateCustomer (id : string) (customer : CustomerPatch) : M (option Customer) :=
  uuid <- ensureUUID id ;;
  r <- update_customer uuid customer ;;
  if errored r then ret None else
  match data r with
  | None => ret None
  | Some row =>
      created <- now ;;
      ret (Some (mkCustomer uuid (c_name row) (c_email row) (c_phone row)
                            (c_address row) created))
  end.

Definition deleteCustomer (id : string) : M bool :=
  uuid <- ensureUUID id ;;
  r <- delete_customer uuid ;;
  if errored r then ret false else ret true.

(** *** Orders *)

Definition fetchOrderById (id : string) : M (option Order) :=
  if negb (JS.truthy id) then ret None else
  uuid <- ensureUUID id ;;
  rc <- count_orders uuid ;;
  if errored rc then ret None else
  match data rc with
  | None | Some O => ret None
  | Some (S _) =>
      r <- select_order_maybe uuid ;;
      if errored r then ret None else
      match data r with
      | None => ret None
      | Some (h, rows) =>
          oid <- ensureUUID uuid ;;
          cid <- ensureUUID (customer_id h) ;;
          eid <- ensureUUID (employee_id h) ;;
          its <- map_m
                   (fun row =>
                      iid <- (if JS.truthy (row_id row) then ret (row_id row)
                              else randomUUID) ;;
                      pid <- ensureUUID (product_id row) ;;
                      ret (mkItem iid pid
                                  (JS.or_str (product_name row) "Unknown Product")
                                  (JS.or_num (JS.parseInt (row_quantity row)) 1)
                                  (JS.or_num (JS.parseFloat (row_price row)) 0)))
                   rows ;;
          created <- date_or_now (created_at h) ;;
          ret (Some (mkOrder oid cid (JS.or_str (customer_name h) "")
                             eid (JS.or_str (employee_name h) "")
                             (Some (JS.or_str (row_status h) "pending"))
                             its
                             (JS.or_num (JS.parseFloat (row_total h)) 0)
                             created))
      end
  end.

(** The stock check of one line of a new order *)
Definition check_stock (item : OrderItem) : M unit :=
  r <- select_stock (productId item) ;;
  if errored r then throw (StockCheckFailed (productId item)) else
  match data r with
  | None =>
      throw (InsufficientStock false (productName item) 0 (quantity item))
  | Some stock =>
      if Z.ltb stock (quantity item)
      then throw (InsufficientStock false (productName item)
                                    (JS.or_num stock 0) (quantity item))
      else ret tt
  end.

(** The row written for one line of order [oid] *)
Definition item_row (oid : string) (item : OrderItem) : M ItemRow :=
  iid <- (if JS.truthy (item_id item) then ret (item_id item) else randomUUID) ;;
  pid <- ensureUUID (productId item) ;;
  ret (mkItemRow iid oid pid (productName item)
                 (JS.or_num (JS.parseInt (quantity item)) 1)
                 (JS.or_num (JS.parseFloat (price item)) 0)).

(** The order returned by [createOrder], read back from the store *)
Definition read_back (newId : string) : M (option Order) :=
  r <- select_order newId ;;
  if errored r then ret None else
  match data r with
  | None => throw TypeError
  | Some (h, rows) =>
      oid <- ensureUUID newId ;;
      cid <- ensureUUID (customer_id h) ;;
      eid <- ensureUUID (employee_id h) ;;
      its <- map_m
               (fun row =>
                  pid <- ensureUUID (product_id row) ;;
                  ret (mkItem (row_id row) pid (product_name row)
                              (JS.or_num (JS.parseInt (row_quantity row)) 1)
                              (JS.or_num (JS.parseFloat (row_price row)) 0)))
               rows ;;
      created <- date_or_now (created_at h) ;;
      ret (Some (mkOrder oid cid (JS.or_str (customer_name h) "")
                         eid (JS.or_str (employee_name h) "")
                         None its
                         (JS.or_num (JS.parseFloat (row_total h)) 0)
                         created))
  end.

(** The stock decrement of one line of a new order *)
Definition take_stock (newId : string) (item : OrderItem) : M unit :=
  r <- decrease_stock (productId item) (quantity item) ;;
  if errored r
  then delete_order newId ;;; throw (StockUpdateFailed (productName item))
  else ret tt.

(** What [createOrder] does once the header row is in: insert the lines,
    take the stock, read the order back. *)
Definition after_header (newId : string) (l : list OrderItem) : M (option Order) :=
  if Nat.ltb 0 (length l) then
    orderItems <- map_m (item_row newId) l ;;
    ri <- insert_items newId orderItems ;;
    if errored ri then delete_order newId ;;; ret None else
    for_each l (take_stock newId) ;;;
    read_back newId
  else read_back newId.

Definition createOrder (order : OrderDraft) : M (option Order) :=
  for_each (draft_items order) check_stock ;;;
  newId <- uuidv4 ;;
  cid <- ensureUUID (draft_customerId order) ;;
  eid <- ensureUUID (draft_employeeId order) ;;
  stamp <- now ;;
  let orderData :=
    mkOrderRow cid (draft_customerName order) eid (draft_employeeName order) ""
               (JS.or_num (JS.parseFloat (draft_total order)) 0) (Some stamp) in
  r <- insert_order newId orderData ;;
  if errored r then ret None else after_header newId (draft_items order).

(** [order.customerId ? ensureUUID(order.customerId) : undefined] *)
Definition ensured (field : option string) : M (option string) :=
  match field with
  | Some s => if JS.truthy s then u <- ensureUUID s ;; ret (Some u) else ret None
  | None => ret None
  end.

(** [order.customerName || undefined] *)
Definition provided (field : option string) : option string :=
  match field with
  | Some s => if JS.truthy s then Some s else None
  | None => None
  end.

(** The entry of [originalItems] / [newItems]: [{ quantity, id }] *)
Definition OrderItemMap : Type := Z * string.

(** Returning the stock of a line that is no longer in the order *)
Definition restock_removed (newItems : list (string * OrderItemMap))
           (entry : string * OrderItemMap) : M unit :=
  let '(pid, originalItem) := entry in
  if JS.has pid newItems then ret tt else
  r <- select_stock pid ;;
  if errored r then throw (StockGetFailed pid) else
  let newStock := JS.or_num (default 0 (data r)) 0 + fst originalItem in
  ru <- update_stock pid newStock ;;
  if errored ru then throw (RemovedStockUpdateFailed pid) else ret tt.

(** [originalItem ? originalItem.quantity : 0] *)
Definition original_quantity (originalItems : list (string * OrderItemMap))
           (pid : string) : Z :=
  match JS.get pid originalItems with
  | Some originalItem => fst originalItem
  | None => 0
  end.

(** One line of the new item list: check the increase, then move the
    stock by the difference *)
Definition adjust_stock (originalItems : list (string * OrderItemMap))
           (item : OrderItem) : M unit :=
  let originalQuantity := original_quantity originalItems (productId item) in
  let newQuantity := JS.or_num (JS.parseInt (quantity item)) 0 in
  let quantityDiff := newQuantity - originalQuantity in
  (if Z.ltb 0 quantityDiff then
     r <- select_stock (productId item) ;;
     if errored r then throw (StockCheckFailed (productId item)) else
     match data r with
     | None =>
         throw (InsufficientStock true (productName item) 0 quantityDiff)
     | Some stock =>
         if Z.ltb stock quantityDiff
         then throw (InsufficientStock true (productName item)
                                       (JS.or_num stock 0) quantityDiff)
         else ret tt
     end
   else ret tt) ;;;
  if negb (Z.eqb quantityDiff 0) then
    r <- select_stock (productId item) ;;
    if errored r then throw (StockGetFailed (productId item)) else
    let currentStock := JS.or_num (default 0 (data r)) 0 in
    let newStock :=
      if Z.ltb 0 quantityDiff
      then currentStock - Z.abs quantityDiff
      else currentStock + Z.abs quantityDiff in
    ru <- update_stock (productId item) newStock ;;
    if errored ru then throw (StockUpdateFailed (productName item)) else ret tt
  else ret tt.

Definition original_entry (row : ItemRow) : string * OrderItemMap :=
  (product_id row, (JS.or_num (JS.parseInt (row_quantity row)) 0, row_id row)).

Definition new_entry (item : OrderItem) : string * OrderItemMap :=
  (productId item, (JS.or_num (JS.parseInt (quantity item)) 0, item_id item)).

(** The [if (Array.isArray(order.items))] block *)
Definition replace_items (uuid : string) (originalRows : list ItemRow)
           (newList : list OrderItem) : M (list OrderItem) :=
  let originalItems := JS.of_entries (map original_entry originalRows) in
  let newItems := JS.of_entries (map new_entry newList) in
  for_each originalItems (restock_removed newItems) ;;;
  for_each newList (adjust_stock originalItems) ;;;
  delete_items uuid ;;;
  rows <- map_m (item_row uuid) newList ;;
  ri <- insert_items uuid rows ;;
  if errored ri then throw OrderItemsUpdateFailed else
  match data ri with
  | None => throw TypeError
  | Some itemsData =>
      ret (map (fun row => mkItem (row_id row) (product_id row) (product_name row)
                                  (row_quantity row) (row_price row))
               itemsData)
  end.

(** The order [updateOrder] returns: the header read back from the update
    and the lines just written *)
Definition assemble (orderData : OrderRow) (uuid : string) (its : list OrderItem)
  : M (option Order) :=
  oid <- ensureUUID uuid ;;
  ocid <- ensureUUID (customer_id orderData) ;;
  oeid <- ensureUUID (employee_id orderData) ;;
  created <- date_or_now (created_at orderData) ;;
  ret (Some (mkOrder oid ocid (JS.or_str (customer_name orderData) "")
                     oeid (JS.or_str (employee_name orderData) "")
                     None its
                     (JS.or_num (JS.parseFloat (row_total orderData)) 0)
                     created)).

(** [let items = []; if (Array.isArray(order.items)) { ... }] *)
Definition handle_items (uuid : string) (originalOrder : option (OrderRow * list ItemRow))
           (newList : option (list OrderItem)) : M (list OrderItem) :=
  match newList with
  | Some l =>
      match originalOrder with
      | None => throw TypeError
      | Some (_, originalRows) => replace_items uuid originalRows l
      end
  | None => ret []
  end.

Definition updateOrder (id : string) (order : OrderPatch) : M (option Order) :=
  uuid <- ensureUUID id ;;
  r0 <- select_order uuid ;;
  if errored r0 then ret None else
  cid <- ensured (patch_customerId order) ;;
  eid <- ensured (patch_employeeId order) ;;
  let cleanedData :=
    mkHeaderPatch cid (provided (patch_customerName order))
                  eid (provided (patch_employeeName order))
                  (patch_total order) in
  r1 <- update_order uuid cleanedData ;;
  if errored r1 then ret None else
  match data r1 with
  | None => ret None
  | Some orderData =>
      its <- handle_items uuid (data r0) (patch_items order) ;;
      assemble orderData uuid its
  end.

(** [{ success, error? }] *)
Record Outcome := mkOutcome { success : bool; reason : option string }.

Definition deleteOrder (id : string) : M Outcome :=
  uuid <- ensureUUID id ;;
  ri <- delete_items uuid ;;
  if errored ri
  then ret (mkOutcome false (Some "Failed to delete order items")) else
  ro <- delete_order uuid ;;
  match error ro with
  | Some code =>
      if String.eqb code "23503"
      then ret (mkOutcome false
                  (Some "Cannot delete order: There are related records that must be deleted first"))
      else ret (mkOutcome false (Some "Failed to delete order"))
  | None => ret (mkOutcome true None)
  end.

End Supabase.

(** ** The order forms *)

Record Employee := mkEmployee { emp_id : string; emp_name : string }.

(** What the forms hold: the line items being edited, the selections, and
    the customers and employees fetched for the selects. *)
Record Form := mkForm {
  form_items : list OrderItem;
  form_customerId : string;
  form_employeeId : string;
  isSubmitting : bool;
  form_customers : list Customer;
  form_employees : list Employee
}.

(** What a submission ends in: a silent return, a validation toast, the
    success toast, or the failure toast with its description. *)
Inductive Submission :=
| Ignored
| Refused (title : string)
| Done (o : Order)
| Failed (description : string).

(** [try { c } catch (error) { handler(error) }] *)
Definition try_catch {A} (c : M A) (handler : Err -> M A) : M A :=
  fun w =>
    match c w with
    | (Ok a, w') => (Ok a, w')
    | (Throw e, w') => handler e w'
    end.

(** The object literal both forms pass for a line *)
Definition submitted_item (item : OrderItem) : OrderItem :=
  mkItem (item_id item) (productId item)
         (JS.or_str (productName item) "")
         (JS.or_num (quantity item) 1)
         (JS.or_num (price item) 0).

Definition find_customer (id : string) (l : list Customer) : option Customer :=
  List.find (fun c => String.eqb (cust_id c) id) l.

Definition find_employee (id : string) (l : list Employee) : option Employee :=
  List.find (fun e => String.eqb (emp_id e) id) l.

(** [items.length === 0 || items.some((item) => !item.productId)] *)
Definition lacks_products (l : list OrderItem) : bool :=
  Nat.eqb (length l) 0 || existsb (fun item => negb (JS.truthy (productId item))) l.

Module OrderNew.

(** The new list of lines; [None] when the removal is refused with the
    toast "Cannot remove item". *)
Definition removeItem (id : string) (l : list OrderItem) : option (list OrderItem) :=
  if Nat.ltb 1 (length l)
  then Some (List.filter (fun item => negb (String.eqb (item_id item) id)) l)
  else None.

Definition calculateTotal (l : list OrderItem) : Z :=
  fold_left
    (fun sum item =>
       if negb (JS.truthy (productId item)) then sum
       else sum + JS.or_num (price item) 0 * JS.or_num (quantity item) 1)
    l 0.

Definition handleSubmit (f : Form) : M Submission :=
  if isSubmitting f then ret Ignored else
  if negb (JS.truthy (form_customerId f)) then ret (Refused "Customer required") else
  if negb (JS.truthy (form_employeeId f)) then ret (Refused "Employee required") else
  if lacks_products (form_items f) then ret (Refused "Products required") else
  let total := calculateTotal (form_items f) in
  match find_customer (form_customerId f) (form_customers f),
        find_employee (form_employeeId f) (form_employees f) with
  | Some customer, Some employee =>
      try_catch
        (newOrder <- Supabase.createOrder
                       (mkDraft (form_customerId f) (cust_name customer)
                                (form_employeeId f) (emp_name employee)
                                (map submitted_item (form_items f)) total) ;;
         match newOrder with
         | Some o => ret (Done o)
         | None => ret (Failed "Failed to create order")
         end)
        (fun e => ret (Failed (message e)))
  | _, _ => ret (Failed "Customer or employee not found")
  end.

End OrderNew.

Module OrderEdit.

(** [itemToDelete] is [""] when no line is selected for deletion. *)
Definition confirmDelete (itemToDelete : string) (l : list OrderItem)
  : option (list OrderItem) :=
  if JS.truthy itemToDelete && Nat.ltb 1 (length l)
  then Some (List.filter (fun item => negb (String.eqb (item_id item) itemToDelete)) l)
  else None.

Definition calculateTotal (l : list OrderItem) : Z :=
  fold_left
    (fun sum item =>
       if negb (JS.truthy (productId item)) then sum
       else sum + JS.or_num (price item) 0 * JS.or_num (quantity item) 1)
    l 0.

(** [id] is the route parameter. *)
Definition confirmUpdate (id : string) (f : Form) : M Submission :=
  if negb (JS.truthy id) || isSubmitting f then ret Ignored else
  if negb (JS.truthy (form_customerId f)) then ret (Refused "Customer required") else
  if negb (JS.truthy (form_employeeId f)) then ret (Refused "Employee required") else
  if lacks_products (form_items f) then ret (Refused "Products required") else
  match find_customer (form_customerId f) (form_customers f) with
  | None => ret (Refused "Error")
  | Some customer =>
      match find_employee (form_employeeId f) (form_employees f) with
      | None => ret (Refused "Error")
      | Some employee =>
          let total := calculateTotal (form_items f) in
          try_catch
            (updatedOrder <- Supabase.updateOrder id
                               (mkPatch (Some (form_customerId f))
                                        (Some (cust_name customer))
                                        (Some (form_employeeId f))
                                        (Some (emp_name employee))
                                        (Some total)
                                        (Some (map submitted_item (form_items f)))) ;;
             match updatedOrder with
             | Some o => ret (Done o)
             | None => throw (Raised "Failed to update order")
             end)
            (fun _ => ret (Failed "There was a problem updating the order. Please try again."))
      end
  end.

End OrderEdit.

(** ** Reading the tables *)

(** The stock of a product, when it is in the table *)
Definition stock_of (w : World) (pid : string) : option Z := products (db w) !! pid.

(** The sum of [price * quantity] over stored lines, taken from the first
    line to the last as [reduce] takes it *)
Definition lines_total (rows : list ItemRow) : Z :=
  fold_left (fun sum r => sum + row_price r * row_quantity r) rows 0.

(** The events a run added to the log *)
Definition new_events (before after : World) : list Event :=
  drop (length (log before)) (log after).

(** ** Sample data *)

Module Sample.

Definition hex (n : nat) : ascii :=
  nth n ["0"; "1"; "2"; "3"; "4"; "5"; "6"; "7"; "8"; "9"; "a"; "b"; "c"; "d"; "e"; "f"]%char
      "0"%char.

(** A generator of well-formed identifiers, the draw number in the last
    two digits *)
Definition uuid_of (n : nat) : string :=
  "00000000-0000-4000-8000-0000000000"
  +:+ String (hex (Nat.div n 16)) (String (hex (Nat.modulo n 16)) EmptyString).

Definition P : string := "aaaaaaaa-aaaa-4aaa-8aaa-aaaaaaaaaaaa".
Definition Q : string := "bbbbbbbb-bbbb-4bbb-9bbb-bbbbbbbbbbbb".
Definition C : string := "cccccccc-cccc-4ccc-accc-cccccccccccc".
Definition E : string := "eeeeeeee-eeee-4eee-beee-eeeeeeeeeeee".
Definition O1 : string := "12345678-1234-4234-8234-123456789abc".
Definition L1 : string := "11111111-2222-4333-8444-555555555555".
Definition L2 : string := "66666666-7777-4888-9999-aaaaaaaaaaaa".

Definition world (d : Database) (f : list bool) : World :=
  mkWorld d f uuid_of (fun n => 1000 + Z.of_nat n) 0 [].

Definition ann : CustomerRow := mkCustomerRow "Ann" "ann@example.com" "555-0100" "1 Main St" (Some 900).

(** One product [P] with [stock] units, one customer, no orders *)
Definition shop (stock : Z) : Database :=
  mkDatabase (<[C := ann]> ∅) (<[P := stock]> ∅) ∅ [].

Definition phone (line : string) (qty : Z) : OrderItem := mkItem line P "Phone" qty 50.

(** Two lines of three units each for the same product *)
Definition twice : OrderDraft :=
  mkDraft C "Ann" E "Bob" [phone L1 3; phone L2 3] 300.

(** One line of five units *)
Definition five : OrderDraft := mkDraft C "Ann" E "Bob" [phone L1 5] 250.

(** Two units at 50, passed with a total of 0 *)
Definition mispriced : OrderDraft := mkDraft C "Ann" E "Bob" [phone L1 2] 0.

(** No line at all *)
Definition empty : OrderDraft := mkDraft C "Ann" E "Bob" [] 0.

Definition header : OrderRow := mkOrderRow C "Ann" E "Bob" "" 100 (Some 900).

(** Order [O1] holding two units of [P], with [stock] units left *)
Definition stocked (stock : Z) : Database :=
  mkDatabase (<[C := ann]> ∅) (<[P := stock]> ∅) (<[O1 := header]> ∅)
             [mkItemRow L1 O1 P "Phone" 2 50].

(** Raising [O1] to five units, with the matching total *)
Definition grow : OrderPatch :=
  mkPatch None None None None (Some 250) (Some [phone L1 5]).

(** Order [O1] holding the product [P] on two lines, of [first] and
    [second] units, with [stock] units left *)
Definition doubled (first second stock : Z) : Database :=
  mkDatabase (<[C := ann]> ∅) (<[P := stock]> ∅) (<[O1 := header]> ∅)
             [mkItemRow L1 O1 P "Phone" first 50; mkItemRow L2 O1 P "Phone" second 50].

(** The lines of [O1] set to the given ones, the header left as it is *)
Definition lines (l : list OrderItem) : OrderPatch :=
  mkPatch None None None None None (Some l).

(** A product identifier that is a UUID, but not of version 4 *)
Definition V1 : string := "11111111-1111-1111-1111-111111111111".

(** Order [O1] with a line whose product identifier is [V1] *)
Definition legacy : Database :=
  mkDatabase (<[C := ann]> ∅) (<[V1 := 4]> ∅) (<[O1 := header]> ∅)
             [mkItemRow L1 O1 V1 "Cable" 1 10].

Definition form (l : list OrderItem) : Form :=
  mkForm l C E false [mkCustomer C "Ann" "ann@example.com" "555-0100" "1 Main St" 900]
         [mkEmployee E "Bob"].

End Sample.

(** ** Vocabulary of the statements *)

Local Open Scope list_scope.

(** The world after a remote call that left the tables as [d] *)
Definition after_call (w : World) (d : Database) (c : Call) (err : bool) : World :=
  mkWorld d (tl (faults w)) (entropy w) (clock w) (ticks w) (log w ++ [(c, err)]).

(** The first [n] coming remote calls do not fail in transit. *)
Definition calm (n : nat) (w : World) : Prop :=
  Forall (fun b => b = false) (take n (faults w)).

(** The event is a read of the [products] table. *)
Definition reads_stock (ev : Event) : Prop :=
  call_table (fst ev) = "products" /\ call_op (fst ev) = Select.

(** The product of the line is in the table with enough stock for it. *)
Definition in_stock (d : Database) (item : OrderItem) : Prop :=
  exists s, products d !! productId item = Some s /\ quantity item <= s.

(** The identifier an operation works with: the one passed when it is well
    formed, else the next output of the generator. *)
Definition resolve (id : string) (w : World) : string :=
  if UUID.isValidUUID id then id else entropy w (ticks w).

(** The errors of a stock check or a stock write *)
Definition stock_failure (e : Err) : bool :=
  match e with
  | StockCheckFailed _ | InsufficientStock _ _ _ _ | StockUpdateFailed _
  | StockGetFailed _ | RemovedStockUpdateFailed _ => true
  | OrderItemsUpdateFailed | TypeError | Raised _ => false
  end.

(** The quantity a list of lines holds for a product, [0] when it has no
    line for it. *)
Definition quantity_of (pid : string) (lines : list (string * Z)) : Z :=
  match List.find (fun kv => String.eqb (fst kv) pid) lines with
  | Some kv => snd kv
  | None => 0
  end.

Definition stored_lines (rows : list ItemRow) : list (string * Z) :=
  map (fun r => (product_id r, row_quantity r)) rows.

Definition requested_lines (l : list OrderItem) : list (string * Z) :=
  map (fun item => (productId item, quantity item)) l.

(** What a run may change besides the tables [K] lets it change: the
    generators stay, draws and the log only grow. *)
Definition frame (K : Database -> Database -> Prop) (w w' : World) : Prop :=
  K (db w) (db w')
  /\ entropy w' = entropy w /\ clock w' = clock w
  /\ (ticks w <= ticks w')%nat
  /\ exists evs, log w' = log w ++ evs.

Definition preserves {A} (R : World -> World -> Prop) (c : M A) : Prop :=
  forall w r w', c w = (r, w') -> R w w'.

(** A computation that only draws: it returns, and changes nothing but the
    number of draws. *)
Definition draws_only {A} (c : M A) : Prop :=
  forall w, exists a n, c w = (Ok a, with_ticks n w) /\ (ticks w <= n)%nat.

Definition same_products (d d' : Database) : Prop := products d' = products d.

Definition same_orders (d d' : Database) : Prop :=
  orders d' = orders d /\ order_items d' = order_items d
  /\ customers d' = customers d.

(** The [originalItems] map [updateOrder] builds for the order [uuid] *)
Definition original_items (uuid : string) (w : World) : list (string * Supabase.OrderItemMap) :=
  JS.of_entries (map Supabase.original_entry (Query.items_of uuid (db w))).

(** Every stock count moved by [d], and no product appeared or vanished. *)
Definition shifted (d : string -> Z) (w w' : World) : Prop :=
  forall p, stock_of w' p = (fun s => s + d p) <$> stock_of w p.

(** What [restock_removed] returns to product [p] for one entry *)
Definition restock_shift (newItems : list (string * Supabase.OrderItemMap))
           (entry : string * Supabase.OrderItemMap) (p : string) : Z :=
  if JS.has (fst entry) newItems then 0
  else if String.eqb p (fst entry) then fst (snd entry) else 0.

(** What [adjust_stock] moves for product [p] for one line *)
Definition adjust_shift (originalItems : list (string * Supabase.OrderItemMap))
           (item : OrderItem) (p : string) : Z :=
  if String.eqb p (productId item)
  then - (quantity item - Supabase.original_quantity originalItems (productId item))
  else 0.

Definition sum_shifts {A} (d : A -> string -> Z) (l : list A) (p : string) : Z :=
  fold_right (fun x acc => d x p + acc) 0 l.

(** The events a run adds all satisfy [P]. *)
Definition logs (P : Event -> Prop) (w w' : World) : Prop :=
  exists evs, log w' = log w ++ evs /\ Forall P evs.

(** The identifier the next [uuidv4()] returns *)
Definition next_id (w : World) : string := entropy w (ticks w).

(** The event is a read of [products] or the insertion of the header [id]
    with outcome [err]. *)
Definition validates_or_inserts (id : string) (err : bool) (ev : Event) : Prop :=
  reads_stock ev \/ ev = (mkCall "orders" Insert id, err).

(** The event does not touch [order_items]. *)
Definition off_lines (ev : Event) : Prop := call_table (fst ev) <> "order_items".

(** The row is the one [item_row] writes for the line, up to the
    identifiers it draws. *)
Definition written_as (oid : string) (item : OrderItem) (r : ItemRow) : Prop :=
  order_ref r = oid
  /\ row_quantity r = JS.or_num (quantity item) 1
  /\ row_price r = JS.or_num (price item) 0
  /\ product_name r = productName item.

(** The lines an update leaves of the former ones: all when the delete
    failed, else those of other orders. *)
Definition kept_lines (err : bool) (uuid : string) (rows : list ItemRow) : list ItemRow :=
  if err then rows
  else List.filter (fun r => negb (String.eqb (order_ref r) uuid)) rows.

(** Every stored line belongs to a stored order. *)
Definition lines_owned (d : Database) : Prop :=
  forall r, In r (order_items d) -> exists h, orders d !! order_ref r = Some h.

(** A run that left orders and lines as they were *)
Definition keeps_orders (w w' : World) : Prop :=
  orders (db w') = orders (db w) /\ order_items (db w') = order_items (db w).

(** What an update leaves in a text column of the header: the text passed,
    unless none or an empty one is passed. *)
Definition written_text (old : string) (field : option string) : string :=
  match field with
  | Some (String c s) => String c s
  | Some EmptyString | None => old
  end.

(** What an update that starts in [w] leaves in an identifier column of the
    header: the identifier passed when it is well formed, an identifier of
    the generator when it is malformed, the former identifier when none or
    an empty one is passed. *)
Definition written_id (w : World) (old : string) (field : option string)
           (new : string) : Prop :=
  match field with
  | Some (String c s) =>
      if UUID.isValidUUID (String c s) then new = String c s
      else exists n, new = entropy w n
  | Some EmptyString | None => new = old
  end.

(** The header [h'] is [h] patched with the scalar fields of [order] by an
    update that starts in [w]: a total passed is written, whatever its
    value; status and creation time stay. *)
Definition header_patched (w : World) (order : OrderPatch) (h h' : OrderRow) : Prop :=
  row_total h' = match patch_total order with Some t => t | None => row_total h end
  /\ customer_name h' = written_text (customer_name h) (patch_customerName order)
  /\ employee_name h' = written_text (employee_name h) (patch_employeeName order)
  /\ written_id w (customer_id h) (patch_customerId order) (customer_id h')
  /\ written_id w (employee_id h) (patch_employeeId order) (employee_id h')
  /\ row_status h' = row_status h
  /\ created_at h' = created_at h.

(** The submission was turned down by the form itself. *)
Definition turned_down (s : Submission) : Prop :=
  match s with
  | Ignored | Refused _ => True
  | Done _ | Failed _ => False
  end.

(** The stored header and lines need no substitute on reading. *)
Definition canonical_header (h : OrderRow) : Prop :=
  UUID.isValidUUID (customer_id h) = true
  /\ UUID.isValidUUID (employee_id h) = true
  /\ created_at h <> None.

Definition canonical_line (r : ItemRow) : Prop :=
  JS.truthy (row_id r) = true /\ UUID.isValidUUID (product_id r) = true.

Definition canonical_order (id : string) (d : Database) : Prop :=
  forall h, orders d !! id = Some h ->
    canonical_header h /\ Forall canonical_line (Query.items_of id d).

(** The order [fetchOrderById] shows for a stored header and its lines when
    nothing has to be substituted *)
Definition shown_line (r : ItemRow) : OrderItem :=
  mkItem (row_id r) (product_id r)
         (JS.or_str (product_name r) "Unknown Product")
         (JS.or_num (JS.parseInt (row_quantity r)) 1)
         (JS.or_num (JS.parseFloat (row_price r)) 0).

Definition shown (id : string) (h : OrderRow) (rows : list ItemRow) : Order :=
  mkOrder id (customer_id h) (JS.or_str (customer_name h) "")
          (employee_id h) (JS.or_str (employee_name h) "")
          (Some (JS.or_str (row_status h) "pending"))
          (map shown_line rows)
          (JS.or_num (JS.parseFloat (row_total h)) 0)
          (default 0 (created_at h)).

(** * Further functions of the sources *)

(** ** Further queries *)

Module Lookup.

(** The rows of [orders], in the order the store lists them *)
Definition header_rows (d : Database) : list OrderRow :=
  map snd (map_to_list (orders d)).

(** [.eq("customer_id", id)] *)
Definition orders_of_customer (id : string) (d : Database) : list OrderRow :=
  List.filter (fun h => String.eqb (customer_id h) id) (header_rows d).

(** [.eq("employee_id", id)] *)
Definition orders_of_employee (id : string) (d : Database) : list OrderRow :=
  List.filter (fun h => String.eqb (employee_id h) id) (header_rows d).

(** [from("orders").select("*", { count: "exact", head: true }).eq("customer_id", id)] *)
Definition count_orders_of_customer (id : string) : M (Response nat) :=
  remote (mkCall "orders" Select id)
    (fun d => (found (length (orders_of_customer id d)), d)).

(** [from("orders").select("*", { count: "exact", head: true }).eq("employee_id", id)] *)
Definition count_orders_of_employee (id : string) : M (Response nat) :=
  remote (mkCall "orders" Select id)
    (fun d => (found (length (orders_of_employee id d)), d)).

(** [from("orders").select("total").eq("employee_id", id)] *)
Definition select_totals_of_employee (id : string) : M (Response (list Z)) :=
  remote (mkCall "orders" Select id)
    (fun d => (found (map row_total (orders_of_employee id d)), d)).

(** [from("customers").insert([row]).select().single()]; [id] is the
    primary key. *)
Definition insert_customer (id : string) (row : CustomerRow) : M (Response CustomerRow) :=
  remote (mkCall "customers" Insert id)
    (fun d =>
       match customers d !! id with
       | Some _ => (failed "23505", d)
       | None => (found row, with_customers (<[id := row]> (customers d)) d)
       end).

(** [from("products").delete().eq("id", id)] *)
Definition delete_product (id : string) : M (Response unit) :=
  remote (mkCall "products" Delete id)
    (fun d => (nothing, with_products (delete id (products d)) d)).

End Lookup.

(** ** Customers, products and figures *)

(** [Omit<Customer, "id" | "createdAt">] *)
Record CustomerDraft := mkCustomerDraft {
  new_name : string;
  new_email : string;
  new_phone : string;
  new_address : string
}.

Module Customers.
Import Lookup.

(** The [catch] of the function returns [null]. *)
Definition createCustomer (customer : CustomerDraft) : M (option Customer) :=
  newId <- uuidv4 ;;
  t <- now ;;
  let utcDate := JS.whole_seconds t in
  r <- insert_customer newId
         (mkCustomerRow (new_name customer) (new_email customer)
                        (new_phone customer) (new_address customer)
                        (Some utcDate)) ;;
  if errored r then ret None else
  match data r with
  | None => ret None
  | Some row =>
      ret (Some (mkCustomer newId (c_name row) (c_email row) (c_phone row)
                            (c_address row)
                            (match c_created_at row with
                             | Some stamp => JS.whole_seconds stamp
                             | None => utcDate
                             end)))
  end.

End Customers.

Module Products.
Import Lookup.

Definition deleteProduct (id : string) : M bool :=
  uuid <- Supabase.ensureUUID id ;;
  r <- delete_product uuid ;;
  if errored r then ret false else ret true.

End Products.

Module Metrics.
Import Lookup.

Definition getCustomerPurchaseCount (customerId : string) : M nat :=
  if negb (JS.truthy customerId) then ret 0%nat else
  if negb (Supabase.isValidUUID customerId) then ret 0%nat else
  rc <- Query.count_customers customerId ;;
  if errored rc then ret 0%nat else
  match data rc with
  | None | Some O => ret 0%nat
  | Some (S _) =>
      r <- count_orders_of_customer customerId ;;
      if errored r then ret 0%nat else ret (default 0%nat (data r))
  end.

(** [{ count, amount }] *)
Record SalesMetrics := mkSalesMetrics { sales_count : nat; sales_amount : Z }.

(** [data.reduce((sum, order) => sum + order.total, 0)] *)
Definition totalAmount (totals : list Z) : Z :=
  fold_left (fun sum t => sum + t) totals 0.

(** The [catch] of the function returns zero figures. *)
Definition getEmployeeSalesMetrics (employeeId : string) : M SalesMetrics :=
  rc <- count_orders_of_employee employeeId ;;
  if errored rc then ret (mkSalesMetrics 0 0) else
  r <- select_totals_of_employee employeeId ;;
  if errored r then ret (mkSalesMetrics 0 0) else
  match data r with
  | None => ret (mkSalesMetrics 0 0)
  | Some totals => ret (mkSalesMetrics (default 0%nat (data rc)) (totalAmount totals))
  end.

End Metrics.

(** ** The revenue hook ([hooks/useRevenueData.ts]) *)

Module Revenue.

Record RevenueData := mkRevenueData {
  revenue : Z;
  orderCount : nat;
  dateRange : string
}.

Record TimeFrameData := mkTimeFrameData {
  today : RevenueData;
  thisWeek : RevenueData;
  thisMonth : RevenueData;
  older : RevenueData
}.

(** [frame.revenue += total; frame.orderCount++] *)
Definition count_in (amount : Z) (frame : RevenueData) : RevenueData :=
  mkRevenueData (revenue frame + amount) (S (orderCount frame)) (dateRange frame).

Definition initial : TimeFrameData :=
  mkTimeFrameData (mkRevenueData 0 0 "March 9, 2025")
                  (mkRevenueData 0 0 "Mar 3 - Mar 9, 2025")
                  (mkRevenueData 0 0 "Mar 1 - Mar 9, 2025")
                  (mkRevenueData 0 0 "Before Mar 1, 2025").

Section Instants.
(** The four instants the hook builds from the local dates March 9
    (start and end of day), March 3 and March 1, 2025: their values
    depend on the time zone of the browser. *)
Variables startOfDay endOfDay startOfWeek startOfMonth : Z.

(** The body of [orders.forEach] *)
Definition place (timeFrames : TimeFrameData) (order : Order) : TimeFrameData :=
  let orderDate := createdAt order in
  let amount := total order in
  if Z.leb startOfDay orderDate && Z.leb orderDate endOfDay then
    mkTimeFrameData (count_in amount (today timeFrames))
                    (count_in amount (thisWeek timeFrames))
                    (count_in amount (thisMonth timeFrames))
                    (older timeFrames)
  else if Z.leb startOfWeek orderDate && Z.ltb orderDate startOfDay then
    mkTimeFrameData (today timeFrames)
                    (count_in amount (thisWeek timeFrames))
                    (count_in amount (thisMonth timeFrames))
                    (older timeFrames)
  else if Z.leb startOfMonth orderDate && Z.ltb orderDate startOfWeek then
    mkTimeFrameData (today timeFrames)
                    (thisWeek timeFrames)
                    (count_in amount (thisMonth timeFrames))
                    (older timeFrames)
  else if Z.ltb orderDate startOfMonth then
    mkTimeFrameData (today timeFrames)
                    (thisWeek timeFrames)
                    (thisMonth timeFrames)
                    (count_in amount (older timeFrames))
  else timeFrames.

(** What the query function returns for the fetched orders *)
Definition timeFrames (orders : list Order) : TimeFrameData :=
  fold_left place orders initial.
End Instants.

End Revenue.

(** ** The dashboard ([pages/Index.tsx]) *)

Module Dashboard.

(** [orders.reduce((sum, order) => sum + order.total, 0)] *)
Definition totalRevenue (orders : list Order) : Z :=
  fold_left (fun sum order => sum + total order) orders 0.

(** [sort] with the comparator [(a, b) => time(b) - time(a)] is stable:
    an order goes in front of the first one that is not more recent than
    it. *)
Fixpoint insert_recent (o : Order) (sorted : list Order) : list Order :=
  match sorted with
  | [] => [o]
  | x :: rest =>
      if Z.leb (createdAt x) (createdAt o) then o :: x :: rest
      else x :: insert_recent o rest
  end.

Definition sort_recent (orders : list Order) : list Order :=
  fold_right insert_recent [] orders.

(** [[...orders].sort(...).slice(0, 5)] *)
Definition recentOrders (orders : list Order) : list Order :=
  take 5 (sort_recent orders).

End Dashboard.

(** ** Line editing in the order forms *)

(** [Product] of [lib/types], as far as the forms read it *)
Record Product := mkProduct {
  prod_id : string;
  prod_name : string;
  prod_price : Z;
  prod_stock : Z;
  prod_status : string
}.

(** What a handler of the form does: set the lines, show a toast, or
    nothing *)
Inductive LineEdit :=
| SetItems (l : list OrderItem)
| Toast (title : string)
| NoChange.

(** [products.find((p) => p.id === productId)] *)
Definition find_product (productId : string) (products : list Product) : option Product :=
  List.find (fun p => String.eqb (prod_id p) productId) products.

(** The line [addItem] appends *)
Definition blank_line (id : string) : OrderItem := mkItem id "" "" 1 0.

Module NewOrderLines.

(** [products.filter((product) => product.stock > 0 && product.status === "available")] *)
Definition availableProducts (products : list Product) : list Product :=
  List.filter (fun p => Z.ltb 0 (prod_stock p) && String.eqb (prod_status p) "available")
              products.

Definition addItem (l : list OrderItem) : M (list OrderItem) :=
  id <- randomUUID ;;
  ret (l ++ [blank_line id]).

Definition updateItemPrice (products : list Product) (id productId : string)
           (l : list OrderItem) : LineEdit :=
  match find_product productId products with
  | Some product =>
      SetItems
        (map (fun item =>
                if String.eqb (item_id item) id
                then mkItem (item_id item) productId (prod_name product) 1
                            (prod_price product)
                else item) l)
  | None => NoChange
  end.

(** [quantity] is an integer here, so [Math.floor] leaves it. *)
Definition updateItemQuantity (products : list Product) (id : string) (qty : Z)
           (l : list OrderItem) : LineEdit :=
  let product :=
    match List.find (fun i => String.eqb (item_id i) id) l with
    | Some item => find_product (productId item) products
    | None => None
    end in
  match product with
  | None => Toast "Error"
  | Some product =>
      if Z.ltb (prod_stock product) qty then Toast "Invalid quantity"
      else
        SetItems
          (map (fun item =>
                  if String.eqb (item_id item) id
                  then mkItem (item_id item) (productId item) (productName item)
                              (Z.max 1 qty) (price item)
                  else item) l)
  end.

End NewOrderLines.

Module EditOrderLines.

Definition addItem (l : list OrderItem) : M (list OrderItem) :=
  id <- randomUUID ;;
  ret (l ++ [blank_line id]).

Definition updateItemPrice (products : list Product) (id productId : string)
           (l : list OrderItem) : LineEdit :=
  match find_product productId products with
  | Some product =>
      SetItems
        (map (fun item =>
                if String.eqb (item_id item) id
                then mkItem (item_id item) (prod_id product) (prod_name product) 1
                            (prod_price product)
                else item) l)
  | None => NoChange
  end.

(** No stock check here. *)
Definition updateItemQuantity (id : string) (qty : Z) (l : list OrderItem) : LineEdit :=
  let validQuantity := Z.max 1 qty in
  SetItems
    (map (fun item =>
            if String.eqb (item_id item) id
            then mkItem (item_id item) (productId item) (productName item)
                        validQuantity (price item)
            else item) l).

End EditOrderLines.

(** ** The customer form ([pages/customers/CustomerNew.tsx]) *)

Module CustomerNew.

(** [customers] is the array of [@/lib/data] the page falls back to; the
    result is the description of the toast shown and the array after the
    submission. *)
Definition handleSubmit (formData : CustomerDraft) (customers : list Customer)
  : M (string * list Customer) :=
  try_catch
    (newCustomer <- Customers.createCustomer formData ;;
     match newCustomer with
     | Some _ => ret ("The customer has been successfully created.", customers)
     | None =>
         id <- uuidv4 ;;
         createdAt <- now ;;
         let fallbackCustomer :=
           mkCustomer id (new_name formData) (new_email formData)
                      (new_phone formData) (new_address formData) createdAt in
         ret ("The customer has been successfully created (local only).",
              fallbackCustomer :: customers)
     end)
    (fun _ => ret ("There was a problem creating the customer.", customers)).

End CustomerNew.

(** ** Vocabulary of the further statements *)

(** No product has a negative stock. *)
Definition stock_nonneg (w : World) : Prop :=
  forall pid s, stock_of w pid = Some s -> 0 <= s.

(** The event is a read of [orders] under the key [id]. *)
Definition reads_order (id : string) (ev : Event) : Prop :=
  fst ev = mkCall "orders" Select id.

(** The orders dated from [lo] to [hi], both included *)
Definition dated (lo hi : Z) (orders : list Order) : list Order :=
  List.filter (fun o => Z.leb lo (createdAt o) && Z.leb (createdAt o) hi) orders.

(** The orders dated before [t] *)
Definition dated_before (t : Z) (orders : list Order) : list Order :=
  List.filter (fun o => Z.ltb (createdAt o) t) orders.

(** The orders dated after [t] *)
Definition dated_after (t : Z) (orders : list Order) : list Order :=
  List.filter (fun o => Z.ltb t (createdAt o)) orders.

(** The frame holds the revenue and the number of the orders [l]. *)
Definition figures_of (l : list Order) (b : Revenue.RevenueData) : Prop :=
  Revenue.revenue b = Dashboard.totalRevenue l
  /\ Revenue.orderCount b = length l.

(** No order of the list is older than one that follows it. *)
Definition most_recent_first (l : list Order) : Prop :=
  forall i j a b, (i < j)%nat -> l !! i = Some a -> l !! j = Some b ->
    createdAt b <= createdAt a.

(** Every line has a quantity of at least one. *)
Definition positive_quantities (l : list OrderItem) : Prop :=
  Forall (fun item => 1 <= quantity item) l.

(** Every line of a product with stock holds at least one unit and no more
    than the stock. *)
Definition within_stock (products : list Product) (l : list OrderItem) : Prop :=
  Forall (fun item =>
            forall p, find_product (productId item) products = Some p ->
                      0 < prod_stock p -> 1 <= quantity item <= prod_stock p) l.

(** Every line with a product carries the name and the price the catalogue
    has for it. *)
Definition catalogue_priced (products : list Product) (l : list OrderItem) : Prop :=
  Forall (fun item =>
            JS.truthy (productId item) = true ->
            exists p, find_product (productId item) products = Some p
                      /\ price item = prod_price p
                      /\ productName item = prod_name p) l.

(** A run that leaves no stock negative when none was *)
Definition keeps_stock_nonneg (w w' : World) : Prop :=
  stock_nonneg w -> stock_nonneg w'.

(** The customer carries the fields of the draft. *)
Definition filled_from (formData : CustomerDraft) (c : Customer) : Prop :=
  cust_name c = new_name formData /\ cust_email c = new_email formData
  /\ cust_phone c = new_phone formData /\ cust_address c = new_address formData.

(** The order as [fetchOrderById] shows it, against the order [createOrder]
    returned: the same but for the status and the naming of unnamed
    products *)
Definition same_order_read (o o' : Order) : Prop :=
  order_id o' = order_id o
  /\ customerId o' = customerId o /\ customerName o' = customerName o
  /\ employeeId o' = employeeId o /\ employeeName o' = employeeName o
  /\ total o' = total o /\ createdAt o' = createdAt o
  /\ items o'
     = map (fun i => mkItem (item_id i) (productId i)
                            (JS.or_str (productName i) "Unknown Product")
                            (quantity i) (price i))
           (items o).

(** The table of order headers is the same. *)
Definition same_headers (d d' : Database) : Prop := orders d' = orders d.

(** * Properties *)

Lemma or_num_zero x : JS.or_num x 0 = x.
Proof. unfold JS.or_num. destruct (Z.eqb_spec x 0); congruence. Qed.

Lemma remote_eq {A} (c : Call) (run : Database -> Response A * Database) w :
  remote c run w =
    let rd := if hd false (faults w) then (failed "", db w) else run (db w) in
    (Ok (fst rd), after_call w (snd rd) c (errored (fst rd))).
Proof.
  unfold remote, bind, next_fault, read_db, write_db, record, ret, after_call.
  destruct w as [d f en cl t lg]; simpl.
  destruct f as [|[] f]; simpl; try reflexivity; destruct (run d); reflexivity.
Qed.

Lemma select_stock_eq pid w :
  Query.select_stock pid w =
    let r := if hd false (faults w) then failed "" else single (products (db w) !! pid) in
    (Ok r, after_call w (db w) (mkCall "products" Select pid) (errored r)).
Proof.
  unfold Query.select_stock. rewrite remote_eq.
  destruct (hd false (faults w)); reflexivity.
Qed.

Lemma check_stock_eq item w :
  exists r err,
    Supabase.check_stock item w =
      (r, after_call w (db w) (mkCall "products" Select (productId item)) err)
    /\ (r = Ok tt -> exists s, products (db w) !! productId item = Some s /\ quantity item <= s)
    /\ (hd false (faults w) = false ->
        forall s, products (db w) !! productId item = Some s ->
          r = if Z.ltb s (quantity item)
              then Throw (InsufficientStock false (productName item) s (quantity item))
              else Ok tt).
Proof.
  unfold Supabase.check_stock, bind. rewrite select_stock_eq. simpl.
  destruct (hd false (faults w)); simpl.
  - eexists _, _. split; [reflexivity|]. split; [discriminate|discriminate].
  - destruct (products (db w) !! productId item) as [s|] eqn:E; simpl.
    + destruct (Z.ltb_spec s (quantity item)).
      * eexists _, _. split; [reflexivity|]. split; [discriminate|].
        intros _ s' [= <-]. rewrite or_num_zero.
        destruct (Z.ltb_spec s (quantity item)); [reflexivity|lia].
      * eexists _, _. split; [reflexivity|]. split.
        -- intros _. exists s. split; [reflexivity|lia].
        -- intros _ s' [= <-]. destruct (Z.ltb_spec s (quantity item)); [lia|reflexivity].
    + eexists _, _. split; [reflexivity|]. split; [discriminate|]. intros _ s' [=].
Qed.

Lemma calm_hd n w : calm (S n) w -> hd false (faults w) = false.
Proof.
  unfold calm. destruct (faults w) as [|b f]; simpl; [reflexivity|].
  intros H. inversion H; assumption.
Qed.

Lemma calm_after_call n w d c err : calm (S n) w -> calm n (after_call w d c err).
Proof.
  unfold calm. simpl. destruct (faults w) as [|b f]; simpl.
  - intros _. rewrite take_nil. constructor.
  - intros H. inversion H; assumption.
Qed.

Lemma check_loop l :
  forall w, exists r w',
    for_each l Supabase.check_stock w = (r, w')
    /\ db w' = db w /\ ticks w' = ticks w
    /\ entropy w' = entropy w /\ clock w' = clock w
    /\ (exists evs, log w' = log w ++ evs /\ Forall reads_stock evs)
    /\ (r = Ok tt -> Forall (in_stock (db w)) l).
Proof.
  induction l as [|item l IH]; intros w; simpl.
  - exists (Ok tt), w. unfold ret. repeat split; try reflexivity.
    + exists []. rewrite app_nil_r. split; [reflexivity|constructor].
    + intros _. constructor.
  - unfold bind.
    destruct (check_stock_eq item w) as (r & err & E & Hok & _). rewrite E.
    destruct r as [[]|e].
    + set (w1 := after_call w (db w) _ err).
      destruct (IH w1) as (r' & w' & E' & Hdb & Ht & He & Hc & (evs & Hl & Hev) & Hok').
      exists r', w'. rewrite E'. repeat split; try assumption.
      * exists ((mkCall "products" Select (productId item), err) :: evs).
        rewrite Hl. simpl. rewrite <- app_assoc. split; [reflexivity|].
        constructor; [split; reflexivity|assumption].
      * intros ->. constructor; [apply Hok; reflexivity|]. apply Hok'. reflexivity.
    + eexists _, _. split; [reflexivity|]. repeat split; try reflexivity.
      * eexists [_]. split; [reflexivity|]. constructor; [split; reflexivity|constructor].
      * discriminate.
Qed.

Lemma check_loop_first_short before :
  forall w item after s,
    calm (S (length before)) w ->
    Forall (in_stock (db w)) before ->
    products (db w) !! productId item = Some s ->
    s < quantity item ->
    exists w', for_each (before ++ item :: after) Supabase.check_stock w
               = (Throw (InsufficientStock false (productName item) s (quantity item)), w').
Proof.
  induction before as [|x before IH]; intros w item after s Hcalm Hall Hs Hlt; simpl.
  - unfold bind.
    destruct (check_stock_eq item w) as (r & err & E & _ & Hr). rewrite E.
    rewrite (Hr (calm_hd _ _ Hcalm) s Hs).
    destruct (Z.ltb_spec s (quantity item)); [|lia]. eexists; reflexivity.
  - unfold bind.
    destruct (check_stock_eq x w) as (r & err & E & _ & Hr). rewrite E.
    inversion Hall as [|? ? (sx & Hsx & Hle) Hall']; subst.
    rewrite (Hr (calm_hd _ _ Hcalm) sx Hsx).
    destruct (Z.ltb_spec sx (quantity x)); [lia|].
    apply IH; try assumption.
    apply calm_after_call. exact Hcalm.
Qed.

(** Claim C5.  When some line of a [createOrder] request asks for more than
    the current stock of its product, the call raises, no table is written
    (the only remote calls made are reads of [products]), so neither a header
    nor a line is stored; and when the lines before it pass the check and
    the reads do not fail, the error is the insufficient-stock error carrying
    the name of the product, the available and the requested quantity. *)
Theorem createOrder_rejects_short_stock (w : World) (order : OrderDraft)
        (before after : list OrderItem) (item : OrderItem) (stock : Z) :
  draft_items order = before ++ item :: after ->
  stock_of w (productId item) = Some stock ->
  stock < quantity item ->
  exists e w',
    Supabase.createOrder order w = (Throw e, w')
    /\ db w' = db w
    /\ Forall reads_stock (new_events w w')
    /\ (calm (S (length before)) w ->
        Forall (in_stock (db w)) before ->
        e = InsufficientStock false (productName item) stock (quantity item)).
Proof.
  intros Hitems Hs Hlt. unfold Supabase.createOrder, bind.
  destruct (check_loop (draft_items order) w)
    as (r & w' & E & Hdb & _ & _ & _ & (evs & Hl & Hev) & Hok).
  rewrite E. destruct r as [[]|e].
  - exfalso. specialize (Hok eq_refl). rewrite Hitems in Hok.
    apply Forall_app in Hok as [_ Hok]. inversion Hok as [|? ? (s & Hs' & Hle) _]; subst.
    unfold stock_of in Hs. rewrite Hs in Hs'. injection Hs' as <-. lia.
  - exists e, w'. split; [reflexivity|]. split; [assumption|]. split.
    + unfold new_events. rewrite Hl. rewrite drop_app_length. assumption.
    + intros Hcalm Hall.
      destruct (check_loop_first_short before w item after stock Hcalm Hall Hs Hlt) as (w'' & E').
      rewrite Hitems in E. rewrite E' in E. congruence.
Qed.

(** ** Relations every step of a run preserves *)

Section Preserved.
Context (R : World -> World -> Prop).
Hypothesis R_refl : forall w, R w w.
Hypothesis R_trans : forall a b c, R a b -> R b c -> R a c.

Lemma preserves_ret {A} (a : A) : preserves R (ret a).
Proof. intros w r w' [= <- <-]. apply R_refl. Qed.

Lemma preserves_throw {A} e : preserves R (@throw A e).
Proof. intros w r w' [= <- <-]. apply R_refl. Qed.

Lemma preserves_bind {A B} (c : M A) (k : A -> M B) :
  preserves R c -> (forall a, preserves R (k a)) -> preserves R (bind c k).
Proof.
  intros Hc Hk w r w'. unfold bind.
  destruct (c w) as [[a|e] w1] eqn:E.
  - intros E'. eapply R_trans; [eapply Hc; eassumption|eapply Hk; eassumption].
  - intros [= <- <-]. eapply Hc; eassumption.
Qed.

Lemma preserves_for_each {A} (body : A -> M unit) l :
  (forall x, preserves R (body x)) -> preserves R (for_each l body).
Proof.
  intros Hb. induction l as [|x l IH]; simpl.
  - apply preserves_ret.
  - apply preserves_bind; [apply Hb|intros _; exact IH].
Qed.

Lemma preserves_try_catch {A} (c : M A) handler :
  preserves R c -> (forall e, preserves R (handler e)) ->
  preserves R (try_catch c handler).
Proof.
  intros Hc Hh w r w'. unfold try_catch.
  destruct (c w) as [[a|e] w1] eqn:E.
  - intros [= <- <-]. eapply Hc; eassumption.
  - intros E'. eapply R_trans; [eapply Hc; eassumption|eapply Hh; eassumption].
Qed.
End Preserved.

(** ** Frames *)

Section Frames.
Context (K : Database -> Database -> Prop).
Hypothesis K_refl : forall d, K d d.
Hypothesis K_trans : forall a b c, K a b -> K b c -> K a c.

Lemma frame_refl w : frame K w w.
Proof.
  unfold frame. repeat split; auto. exists []. symmetry. apply app_nil_r.
Qed.

Lemma frame_trans w1 w2 w3 : frame K w1 w2 -> frame K w2 w3 -> frame K w1 w3.
Proof.
  intros (Hk & He & Hc & Ht & evs & Hl) (Hk' & He' & Hc' & Ht' & evs' & Hl').
  unfold frame. repeat split.
  - eapply K_trans; eassumption.
  - congruence.
  - congruence.
  - lia.
  - exists (evs ++ evs'). rewrite Hl', Hl. symmetry. apply app_assoc.
Qed.

Lemma frame_remote {A} c (run : Database -> Response A * Database) :
  (forall d, K d (snd (run d))) -> preserves (frame K) (remote c run).
Proof.
  intros Hrun w r w'. rewrite remote_eq. simpl. intros [= <- <-].
  unfold frame. simpl. repeat split; auto.
  - destruct (hd false (faults w)); simpl; auto.
  - eexists; reflexivity.
Qed.

Lemma frame_draws {A} (c : M A) : draws_only c -> preserves (frame K) c.
Proof.
  intros Hd w r w' E. destruct (Hd w) as (a & n & E' & Hn).
  rewrite E' in E. injection E as <- <-.
  unfold frame. simpl. repeat split; auto. exists []. symmetry. apply app_nil_r.
Qed.
End Frames.

(** ** Events a run may add *)

Section Logs.
Context (P : Event -> Prop).

Lemma logs_refl w : logs P w w.
Proof. exists []. split; [symmetry; apply app_nil_r|constructor]. Qed.

Lemma logs_trans w1 w2 w3 : logs P w1 w2 -> logs P w2 w3 -> logs P w1 w3.
Proof.
  intros (evs & Hl & Hp) (evs' & Hl' & Hp').
  exists (evs ++ evs'). split.
  - rewrite Hl', Hl. symmetry. apply app_assoc.
  - apply Forall_app. split; assumption.
Qed.

Lemma logs_remote {A} c (run : Database -> Response A * Database) :
  (forall b, P (c, b)) -> preserves (logs P) (remote c run).
Proof.
  intros Hc w r w'. rewrite remote_eq. simpl. intros [= <- <-].
  eexists. split; [reflexivity|]. constructor; [apply Hc|constructor].
Qed.

Lemma logs_draws {A} (c : M A) : draws_only c -> preserves (logs P) c.
Proof.
  intros Hd w r w' E. destruct (Hd w) as (a & n & E' & Hn).
  rewrite E' in E. injection E as <- <-.
  exists []. split; [symmetry; apply app_nil_r|constructor].
Qed.

Lemma logs_new_events w w' : logs P w w' -> Forall P (new_events w w').
Proof.
  intros (evs & Hl & Hp). unfold new_events. rewrite Hl, drop_app_length. exact Hp.
Qed.
End Logs.

(** ** Computations that only draw *)

Lemma with_ticks_same w : with_ticks (ticks w) w = w.
Proof. destruct w; reflexivity. Qed.

Lemma draws_ret {A} (a : A) : draws_only (ret a).
Proof. intros w. exists a, (ticks w). rewrite with_ticks_same. split; [reflexivity|lia]. Qed.

Lemma draws_bind {A B} (c : M A) (k : A -> M B) :
  draws_only c -> (forall a, draws_only (k a)) -> draws_only (bind c k).
Proof.
  intros Hc Hk w. unfold bind.
  destruct (Hc w) as (a & n & E & Hn). rewrite E.
  destruct (Hk a (with_ticks n w)) as (b & m & E' & Hm). rewrite E'.
  exists b, m. simpl in *. split; [reflexivity|lia].
Qed.

Lemma draws_uuidv4 : draws_only uuidv4.
Proof. intros w. exists (entropy w (ticks w)), (S (ticks w)). split; [reflexivity|lia]. Qed.

Lemma draws_now : draws_only now.
Proof. intros w. exists (clock w (ticks w)), (S (ticks w)). split; [reflexivity|lia]. Qed.

Lemma draws_ensureUUID id : draws_only (Supabase.ensureUUID id).
Proof.
  unfold Supabase.ensureUUID. destruct (Supabase.isValidUUID id);
    [apply draws_ret|apply draws_uuidv4].
Qed.

Lemma draws_date_or_now stamp : draws_only (Supabase.date_or_now stamp).
Proof. destruct stamp; [apply draws_ret|apply draws_now]. Qed.

Lemma draws_ensured field : draws_only (Supabase.ensured field).
Proof.
  destruct field as [s|]; simpl; [|apply draws_ret].
  destruct (JS.truthy s); [|apply draws_ret].
  apply draws_bind; [apply draws_ensureUUID|intros; apply draws_ret].
Qed.

Lemma draws_map_m {A B} (f : A -> M B) l :
  (forall x, draws_only (f x)) -> draws_only (map_m f l).
Proof.
  intros Hf. induction l as [|x l IH]; simpl.
  - apply draws_ret.
  - apply draws_bind; [apply Hf|]. intros y.
    apply draws_bind; [exact IH|]. intros ys. apply draws_ret.
Qed.

Lemma draws_item_row oid item : draws_only (Supabase.item_row oid item).
Proof.
  unfold Supabase.item_row.
  apply draws_bind.
  - destruct (JS.truthy (item_id item)); [apply draws_ret|apply draws_uuidv4].
  - intros iid. apply draws_bind; [apply draws_ensureUUID|intros; apply draws_ret].
Qed.

Lemma ensureUUID_resolve id w :
  Supabase.ensureUUID id w
  = (Ok (resolve id w),
     if UUID.isValidUUID id then w else with_ticks (S (ticks w)) w).
Proof.
  unfold Supabase.ensureUUID, Supabase.isValidUUID, resolve.
  destruct (UUID.isValidUUID id); reflexivity.
Qed.

Lemma ensureUUID_run id w :
  exists n, Supabase.ensureUUID id w = (Ok (resolve id w), with_ticks n w)
            /\ (ticks w <= n)%nat.
Proof.
  rewrite ensureUUID_resolve. destruct (UUID.isValidUUID id).
  - exists (ticks w). rewrite with_ticks_same. split; [reflexivity|lia].
  - exists (S (ticks w)). split; [reflexivity|lia].
Qed.

Lemma same_orders_refl d : same_orders d d.
Proof. repeat split. Qed.

Lemma same_orders_trans a b c : same_orders a b -> same_orders b c -> same_orders a c.
Proof. unfold same_orders. intros (? & ? & ?) (? & ? & ?). repeat split; congruence. Qed.

Lemma same_products_refl d : same_products d d.
Proof. reflexivity. Qed.

Lemma same_products_trans a b c : same_products a b -> same_products b c -> same_products a c.
Proof. unfold same_products. congruence. Qed.

Create HintDb frames.

#[local] Hint Resolve same_orders_refl same_orders_trans
  same_products_refl same_products_trans : frames.

(** ** The stock loops of [updateOrder] keep orders and lines *)

Lemma select_stock_keeps (K : Database -> Database -> Prop) pid :
  (forall d, K d d) -> preserves (frame K) (Query.select_stock pid).
Proof. intros H. apply frame_remote; auto. Qed.

Lemma update_stock_keeps_orders pid v :
  preserves (frame same_orders) (Query.update_stock pid v).
Proof. apply frame_remote; auto with frames. intros d. repeat split. Qed.

Ltac frame_steps R T :=
  repeat first
    [ apply preserves_ret; apply frame_refl; exact R
    | apply preserves_throw; apply frame_refl; exact R
    | apply select_stock_keeps; exact R
    | apply update_stock_keeps_orders
    | apply preserves_bind; [apply frame_trans; exact T| |intros]
    | match goal with
      | |- preserves _ (if ?b then _ else _) => destruct b
      | |- preserves _ (match ?x with _ => _ end) => destruct x
      end ].

Lemma restock_removed_keeps_orders newItems entry :
  preserves (frame same_orders) (Supabase.restock_removed newItems entry).
Proof.
  destruct entry as [pid [q iid]]. unfold Supabase.restock_removed.
  frame_steps same_orders_refl same_orders_trans.
Qed.

Lemma adjust_stock_keeps_orders originalItems item :
  preserves (frame same_orders) (Supabase.adjust_stock originalItems item).
Proof.
  unfold Supabase.adjust_stock. frame_steps same_orders_refl same_orders_trans.
Qed.

Lemma restock_removed_errors newItems entry w e w' :
  Supabase.restock_removed newItems entry w = (Throw e, w') ->
  stock_failure e = true /\ forall a n x y, e <> InsufficientStock a n x y.
Proof.
  destruct entry as [pid [q iid]]. unfold Supabase.restock_removed, bind, ret, throw.
  destruct (JS.has pid newItems); [discriminate|].
  rewrite select_stock_eq. simpl.
  destruct (errored _); [intros [= <- <-]; split; [reflexivity|discriminate]|].
  unfold Query.update_stock. rewrite remote_eq. simpl.
  destruct (errored _); [intros [= <- <-]; split; [reflexivity|discriminate]|discriminate].
Qed.

Lemma for_each_throw {A} (body : A -> M unit) l :
  forall w e w', for_each l body w = (Throw e, w') ->
    exists x w1 , In x l /\ body x w1 = (Throw e, w').
Proof.
  induction l as [|x l IH]; simpl; intros w e w'.
  - discriminate.
  - unfold bind. destruct (body x w) as [[[]|e1] w1] eqn:E.
    + intros E'. destruct (IH _ _ _ E') as (y & w2 & Hin & Hy).
      exists y, w2. split; [right; assumption|assumption].
    + intros [= <- <-]. exists x, w. split; [left; reflexivity|assumption].
Qed.

Lemma single_errored {A} (o : option A) :
  errored (single o) = false -> exists a, o = Some a /\ data (single o) = Some a.
Proof. destruct o as [a|]; simpl; [eauto|discriminate]. Qed.

(** Where [adjust_stock] reports a shortfall *)
Lemma adjust_stock_insufficient originalItems item w add name avail req w' :
  Supabase.adjust_stock originalItems item w
  = (Throw (InsufficientStock add name avail req), w') ->
  add = true /\ name = productName item
  /\ req = quantity item - Supabase.original_quantity originalItems (productId item)
  /\ 0 < req /\ avail < req
  /\ stock_of w (productId item) = Some avail.
Proof.
  unfold Supabase.adjust_stock, bind, ret, throw, JS.parseInt.
  rewrite or_num_zero.
  set (diff := quantity item - _).
  destruct (Z.ltb_spec 0 diff) as [Hpos|Hneg].
  - rewrite select_stock_eq. simpl.
    destruct (hd false (faults w)); simpl; [discriminate|].
    destruct (products (db w) !! productId item) as [s|] eqn:Hs; simpl; [|discriminate].
    rewrite or_num_zero.
    destruct (Z.ltb_spec s diff) as [Hlt|Hge].
    + intros [= <- <- <- <- <-]. repeat split; try assumption.
    + destruct (Z.eqb_spec diff 0); simpl; [discriminate|].
      rewrite select_stock_eq. simpl.
      destruct (hd false _); simpl; [discriminate|].
      destruct (products (db w) !! productId item); simpl; [|discriminate].
      unfold Query.update_stock. rewrite remote_eq. simpl.
      destruct (hd false _); simpl; discriminate.
  - destruct (Z.eqb_spec diff 0); simpl; [discriminate|].
    rewrite select_stock_eq. simpl.
    destruct (hd false _); simpl; [discriminate|].
    destruct (products (db w) !! productId item); simpl; [|discriminate].
    unfold Query.update_stock. rewrite remote_eq. simpl.
    destruct (hd false _); simpl; discriminate.
Qed.

Lemma map_m_item_row_run uuid l w :
  exists rows n, map_m (Supabase.item_row uuid) l w = (Ok rows, with_ticks n w)
                 /\ (ticks w <= n)%nat.
Proof. apply draws_map_m. intros x. apply draws_item_row. Qed.

(** A stock failure of the item replacement comes out of one of the two
    stock loops, before any line is deleted or written. *)
Lemma replace_items_stock_failure uuid rows newList w e w' :
  Supabase.replace_items uuid rows newList w = (Throw e, w') ->
  stock_failure e = true ->
  frame same_orders w w'
  /\ forall add name avail req, e = InsufficientStock add name avail req ->
       exists item w1,
         In item newList
         /\ Supabase.adjust_stock
              (JS.of_entries (map Supabase.original_entry rows)) item w1
            = (Throw e, w').
Proof.
  unfold Supabase.replace_items, bind.
  set (originalItems := JS.of_entries _).
  set (newItems := JS.of_entries _).
  destruct (for_each originalItems _ w) as [[[]|e1] w1] eqn:E1.
  - pose proof (preserves_for_each _ (frame_refl _ same_orders_refl) (frame_trans _ same_orders_trans) _ _
                  (restock_removed_keeps_orders newItems) _ _ _ E1) as F1.
    destruct (for_each newList _ w1) as [[[]|e2] w2] eqn:E2.
    + unfold Query.delete_items. rewrite remote_eq.
      destruct (hd false (faults w2)); simpl;
        match goal with |- context [map_m _ _ ?w0] =>
          destruct (map_m_item_row_run uuid newList w0) as (rws & n & E3 & _)
        end;
        rewrite E3; unfold Query.insert_items; rewrite remote_eq; simpl;
        (destruct (hd false _); simpl; [intros [= <- <-]; discriminate|]);
        (destruct (Query.clashes _ _); simpl; [intros [= <- <-]; discriminate|]);
        discriminate.
    + intros [= <- <-] Hsf. split.
      * eapply (frame_trans same_orders same_orders_trans); [exact F1|].
        eapply (preserves_for_each _ (frame_refl _ same_orders_refl) (frame_trans _ same_orders_trans));
          [|exact E2]. intros x. apply adjust_stock_keeps_orders.
      * intros add name avail req ->.
        destruct (for_each_throw _ _ _ _ _ E2) as (item & w3 & Hin & Hthrow).
        exists item, w3. split; assumption.
  - intros [= <- <-] Hsf. split.
    + eapply (preserves_for_each _ (frame_refl _ same_orders_refl) (frame_trans _ same_orders_trans));
        [|exact E1]. intros x. apply restock_removed_keeps_orders.
    + intros add name avail req ->.
      destruct (for_each_throw _ _ _ _ _ E1) as (entry & w3 & Hin & Hthrow).
      apply restock_removed_errors in Hthrow as [_ Hne].
      exfalso. eapply Hne. reflexivity.
Qed.

Lemma draws_assemble orderData uuid its :
  draws_only (Supabase.assemble orderData uuid its).
Proof.
  unfold Supabase.assemble.
  repeat (apply draws_bind; [first [apply draws_ensureUUID|apply draws_date_or_now]|intros]).
  apply draws_ret.
Qed.

Lemma assemble_run orderData uuid its w :
  exists o n, Supabase.assemble orderData uuid its w = (Ok (Some o), with_ticks n w)
              /\ items o = its /\ (ticks w <= n)%nat.
Proof.
  unfold Supabase.assemble, bind.
  destruct (ensureUUID_run uuid w) as (n1 & -> & H1).
  destruct (ensureUUID_run (customer_id orderData) (with_ticks n1 w)) as (n2 & -> & H2).
  destruct (ensureUUID_run (employee_id orderData) (with_ticks n2 (with_ticks n1 w)))
    as (n3 & -> & H3).
  destruct (draws_date_or_now (created_at orderData)
              (with_ticks n3 (with_ticks n2 (with_ticks n1 w)))) as (t & n4 & -> & H4).
  eexists _, n4. split; [reflexivity|]. simpl in *. split; [reflexivity|lia].
Qed.

(** How [updateOrder] runs: it gives up before any write, or it patches the
    header and then handles the lines. *)
Lemma updateOrder_cases id order w :
  (exists w', Supabase.updateOrder id order w = (Ok None, w') /\ db w' = db w)
  \/ exists h cleaned w4,
       orders (db w) !! resolve id w = Some h
       /\ Query.set_total cleaned = patch_total order
       /\ Query.set_customer_name cleaned = Supabase.provided (patch_customerName order)
       /\ Query.set_employee_name cleaned = Supabase.provided (patch_employeeName order)
       /\ db w4 = with_orders (<[resolve id w := Query.patch_header cleaned h]> (orders (db w))) (db w)
       /\ entropy w4 = entropy w /\ clock w4 = clock w
       /\ (exists evs, log w4 = log w ++ evs)
       /\ Supabase.updateOrder id order w
          = bind (Supabase.handle_items (resolve id w)
                    (Some (h, Query.items_of (resolve id w) (db w)))
                    (patch_items order))
                 (Supabase.assemble (Query.patch_header cleaned h) (resolve id w)) w4.
Proof.
  remember (Supabase.updateOrder id order w) as res eqn:E.
  unfold Supabase.updateOrder in E. unfold bind at 1 in E.
  destruct (ensureUUID_run id w) as (n1 & E1 & H1). rewrite E1 in E.
  unfold bind at 1 in E. unfold Query.select_order in E. rewrite remote_eq in E.
  simpl in E.
  destruct (hd false (faults w)); simpl in E.
  { left. eexists. split; [exact E|reflexivity]. }
  unfold Query.order_with_items in E.
  destruct (orders (db w) !! resolve id w) as [h|] eqn:Hh; simpl in E.
  2:{ left. eexists. split; [exact E|reflexivity]. }
  unfold bind at 1 in E.
  match type of E with context [Supabase.ensured _ ?w0] =>
    destruct (draws_ensured (patch_customerId order) w0) as (cid & n2 & E2 & H2) end.
  rewrite E2 in E.
  unfold bind at 1 in E.
  match type of E with context [Supabase.ensured _ ?w0] =>
    destruct (draws_ensured (patch_employeeId order) w0) as (eid & n3 & E3 & H3) end.
  rewrite E3 in E.
  unfold bind at 1 in E. unfold Query.update_order in E. rewrite remote_eq in E.
  simpl in E.
  destruct (hd false (tl (faults w))); simpl in E.
  { left. eexists. split; [exact E|reflexivity]. }
  rewrite Hh in E. simpl in E.
  right. eexists h, _, _. split; [reflexivity|].
  split; [|split; [|split; [|split; [|split; [|split; [|split]]]]]];
    [..|exact E]; try reflexivity.
  simpl. eexists. rewrite <- app_assoc. reflexivity.
Qed.

Lemma ensured_run field w :
  exists n,
    Supabase.ensured field w
    = (Ok (match field with
           | Some (String c s) => Some (resolve (String c s) w)
           | Some EmptyString | None => None
           end), with_ticks n w)
    /\ (ticks w <= n)%nat.
Proof.
  destruct field as [[|c s]|]; simpl.
  - exists (ticks w). rewrite with_ticks_same. split; [reflexivity|lia].
  - unfold bind. destruct (ensureUUID_run (String c s) w) as (n & -> & Hn).
    exists n. split; [reflexivity|exact Hn].
  - exists (ticks w). rewrite with_ticks_same. split; [reflexivity|lia].
Qed.

Lemma written_id_resolve w w0 old field :
  entropy w0 = entropy w ->
  written_id w old field
    (default old (match field with
                  | Some (String c s) => Some (resolve (String c s) w0)
                  | Some EmptyString | None => None
                  end)).
Proof.
  intros He. destruct field as [[|c s]|]; simpl; try reflexivity.
  unfold resolve. destruct (UUID.isValidUUID (String c s)); [reflexivity|].
  exists (ticks w0). rewrite He. reflexivity.
Qed.

(** The header [updateOrder] writes, field by field *)
Lemma updateOrder_header id order w :
  (exists w', Supabase.updateOrder id order w = (Ok None, w') /\ db w' = db w)
  \/ exists h h' w4,
       orders (db w) !! resolve id w = Some h
       /\ header_patched w order h h'
       /\ db w4 = with_orders (<[resolve id w := h']> (orders (db w))) (db w)
       /\ Supabase.updateOrder id order w
          = bind (Supabase.handle_items (resolve id w)
                    (Some (h, Query.items_of (resolve id w) (db w)))
                    (patch_items order))
                 (Supabase.assemble h' (resolve id w)) w4.
Proof.
  remember (Supabase.updateOrder id order w) as res eqn:E.
  unfold Supabase.updateOrder in E. unfold bind at 1 in E.
  destruct (ensureUUID_run id w) as (n1 & E1 & H1). rewrite E1 in E.
  unfold bind at 1 in E. unfold Query.select_order in E. rewrite remote_eq in E.
  simpl in E.
  destruct (hd false (faults w)); simpl in E.
  { left. eexists. split; [exact E|reflexivity]. }
  unfold Query.order_with_items in E.
  destruct (orders (db w) !! resolve id w) as [h|] eqn:Hh; simpl in E.
  2:{ left. eexists. split; [exact E|reflexivity]. }
  unfold bind at 1 in E.
  match type of E with context [Supabase.ensured _ ?w0] =>
    destruct (ensured_run (patch_customerId order) w0) as (n2 & E2 & H2);
    pose proof (written_id_resolve w w0 (customer_id h) (patch_customerId order) eq_refl)
      as Hcid
  end.
  rewrite E2 in E.
  unfold bind at 1 in E.
  match type of E with context [Supabase.ensured _ ?w0] =>
    destruct (ensured_run (patch_employeeId order) w0) as (n3 & E3 & H3);
    pose proof (written_id_resolve w w0 (employee_id h) (patch_employeeId order) eq_refl)
      as Heid
  end.
  rewrite E3 in E.
  unfold bind at 1 in E. unfold Query.update_order in E. rewrite remote_eq in E.
  simpl in E.
  destruct (hd false (tl (faults w))); simpl in E.
  { left. eexists. split; [exact E|reflexivity]. }
  rewrite Hh in E. simpl in E.
  right. eexists h, _, _. split; [reflexivity|].
  split; [|split; [|exact E]].
  2: (simpl; reflexivity).
  unfold header_patched, Query.patch_header. simpl.
  split; [destruct (patch_total order); reflexivity|].
  split; [destruct (patch_customerName order) as [[|c s]|]; reflexivity|].
  split; [destruct (patch_employeeName order) as [[|c s]|]; reflexivity|].
  split; [exact Hcid|]. split; [exact Heid|]. split; reflexivity.
Qed.

Lemma handle_items_stock_failure uuid h rows newList w e w' :
  Supabase.handle_items uuid (Some (h, rows)) newList w = (Throw e, w') ->
  stock_failure e = true ->
  frame same_orders w w'
  /\ forall add name avail req, e = InsufficientStock add name avail req ->
       exists l item w1,
         newList = Some l /\ In item l
         /\ Supabase.adjust_stock
              (JS.of_entries (map Supabase.original_entry rows)) item w1
            = (Throw e, w').
Proof.
  destruct newList as [l|]; simpl; [|discriminate].
  intros E Hsf. destruct (replace_items_stock_failure _ _ _ _ _ _ E Hsf) as [F Hins].
  split; [exact F|]. intros add name avail req He.
  destruct (Hins _ _ _ _ He) as (item & w1 & Hin & Ha). eauto 6.
Qed.


(** ** Stock movements of [updateOrder] *)

Lemma fmap_shift_zero (o : option Z) : (fun s => s + 0) <$> o = o.
Proof. destruct o; simpl; [f_equal; lia|reflexivity]. Qed.

Lemma shifted_refl d w w' :
  products (db w') = products (db w) -> (forall p, d p = 0) -> shifted d w w'.
Proof.
  intros H Hd p. unfold stock_of. rewrite H, Hd. symmetry. apply fmap_shift_zero.
Qed.

Lemma shifted_trans d1 d2 w1 w2 w3 :
  shifted d1 w1 w2 -> shifted d2 w2 w3 -> shifted (fun p => d1 p + d2 p) w1 w3.
Proof.
  intros H1 H2 p. rewrite H2, H1. destruct (stock_of w1 p); simpl; [f_equal; lia|reflexivity].
Qed.

Lemma shifted_ext d d' w w' : (forall p, d p = d' p) -> shifted d w w' -> shifted d' w w'.
Proof. intros H Hs p. rewrite <- H. apply Hs. Qed.

Lemma for_each_shifted {A} (body : A -> M unit) (d : A -> string -> Z) l :
  (forall x w w', body x w = (Ok tt, w') -> shifted (d x) w w') ->
  forall w w', for_each l body w = (Ok tt, w') -> shifted (sum_shifts d l) w w'.
Proof.
  intros Hb. induction l as [|x l IH]; simpl; intros w w'.
  - intros [= <-]. apply shifted_refl; reflexivity.
  - unfold bind. destruct (body x w) as [[[]|e] w1] eqn:E; [|discriminate].
    intros E'. eapply shifted_trans; [eapply Hb; eassumption|eapply IH; eassumption].
Qed.

Lemma stock_after_update w d c err pid v p :
  stock_of (after_call w (with_products (alter (fun _ => v) pid (products d)) d) c err) p
  = if String.eqb p pid then (fun _ => v) <$> products d !! p else products d !! p.
Proof.
  unfold stock_of. simpl. destruct (String.eqb_spec p pid) as [->|Hne].
  - apply lookup_alter_eq.
  - apply lookup_alter_ne. congruence.
Qed.

Lemma restock_removed_ok newItems entry w w' :
  Supabase.restock_removed newItems entry w = (Ok tt, w') ->
  shifted (restock_shift newItems entry) w w'.
Proof.
  destruct entry as [pid [q iid]].
  unfold Supabase.restock_removed, restock_shift, bind, ret, throw. simpl.
  destruct (JS.has pid newItems).
  { intros [= <-]. apply shifted_refl; reflexivity. }
  rewrite select_stock_eq. simpl.
  destruct (hd false (faults w)); simpl; [discriminate|].
  destruct (products (db w) !! pid) as [s|] eqn:Hs; simpl; [|discriminate].
  unfold Query.update_stock. rewrite remote_eq. simpl.
  destruct (hd false (tl (faults w))); simpl; [discriminate|].
  intros [= <-] p. rewrite stock_after_update. unfold stock_of.
  destruct (String.eqb_spec p pid) as [->|Hne].
  - rewrite Hs. simpl. rewrite or_num_zero. reflexivity.
  - symmetry. apply fmap_shift_zero.
Qed.

Lemma adjust_stock_ok originalItems item w w' :
  Supabase.adjust_stock originalItems item w = (Ok tt, w') ->
  shifted (adjust_shift originalItems item) w w'.
Proof.
  unfold Supabase.adjust_stock, adjust_shift, bind, ret, throw, JS.parseInt.
  rewrite or_num_zero.
  set (diff := quantity item - _).
  assert (Hmove : forall w0,
    (if negb (Z.eqb diff 0)
     then
       bind (Query.select_stock (productId item))
         (fun r =>
            if errored r then throw (StockGetFailed (productId item))
            else
              bind (Query.update_stock (productId item)
                      (if Z.ltb 0 diff
                       then JS.or_num (default 0 (data r)) 0 - Z.abs diff
                       else JS.or_num (default 0 (data r)) 0 + Z.abs diff))
                   (fun ru =>
                      if errored ru then throw (StockUpdateFailed (productName item))
                      else ret tt))
     else ret tt) w0 = (Ok tt, w') ->
    shifted (fun p => if String.eqb p (productId item) then - diff else 0) w0 w').
  { intros w0. unfold bind, ret, throw.
    destruct (Z.eqb_spec diff 0) as [Hz|Hnz]; simpl.
    { intros [= <-]. apply shifted_refl; [reflexivity|].
      intros p. destruct (String.eqb p (productId item)); lia. }
    rewrite select_stock_eq. simpl.
    destruct (hd false (faults w0)); simpl; [discriminate|].
    destruct (products (db w0) !! productId item) as [s|] eqn:Hs; simpl; [|discriminate].
    unfold Query.update_stock. rewrite remote_eq. simpl.
    destruct (hd false (tl (faults w0))); simpl; [discriminate|].
    intros [= <-] p. rewrite stock_after_update. unfold stock_of.
    destruct (String.eqb_spec p (productId item)) as [->|Hne].
    - rewrite Hs. simpl. rewrite or_num_zero. f_equal.
      destruct (Z.ltb_spec 0 diff); lia.
    - symmetry. apply fmap_shift_zero. }
  destruct (Z.ltb_spec 0 diff) as [Hpos|Hneg].
  - rewrite select_stock_eq. simpl.
    destruct (hd false (faults w)); simpl; [discriminate|].
    destruct (products (db w) !! productId item) as [s|] eqn:Hs; simpl; [|discriminate].
    destruct (Z.ltb s diff); [discriminate|].
    intros E. apply Hmove in E.
    intros p. rewrite (E p). unfold stock_of. reflexivity.
  - intros E. apply Hmove in E. exact E.
Qed.

(** ** The [Map] of a list without repeated keys *)

Lemma set_fresh {V} k (v : V) m :
  ~ In k (map fst m) -> JS.set k v m = m ++ [(k, v)].
Proof.
  induction m as [|[k' v'] m IH]; simpl; intros Hk; [reflexivity|].
  destruct (String.eqb_spec k k') as [->|Hne].
  - exfalso. apply Hk. left. reflexivity.
  - rewrite IH; [reflexivity|]. intros Hin. apply Hk. right. exact Hin.
Qed.

Lemma of_entries_from {V} (l : list (string * V)) :
  forall acc, List.NoDup (map fst (acc ++ l)) ->
    fold_left (fun m kv => JS.set (fst kv) (snd kv) m) l acc = acc ++ l.
Proof.
  induction l as [|[k v] l IH]; intros acc Hnd; simpl.
  - symmetry. apply app_nil_r.
  - rewrite set_fresh.
    + rewrite IH.
      * rewrite <- app_assoc. reflexivity.
      * rewrite <- app_assoc. exact Hnd.
    + rewrite map_app in Hnd. simpl in Hnd.
      apply NoDup_remove_2 in Hnd. intros Hin. apply Hnd.
      apply in_or_app. left. exact Hin.
Qed.

Lemma of_entries_nodup {V} (l : list (string * V)) :
  List.NoDup (map fst l) -> JS.of_entries l = l.
Proof. intros H. unfold JS.of_entries. apply (of_entries_from l []). exact H. Qed.

Lemma get_absent {V} k (m : list (string * V)) :
  ~ In k (map fst m) -> JS.get k m = None.
Proof.
  induction m as [|[k' v'] m IH]; simpl; intros Hk; [reflexivity|].
  destruct (String.eqb_spec k k') as [->|Hne].
  - exfalso. apply Hk. left. reflexivity.
  - apply IH. intros Hin. apply Hk. right. exact Hin.
Qed.

Lemma original_quantity_stored rows p :
  Supabase.original_quantity (map Supabase.original_entry rows) p
  = quantity_of p (stored_lines rows).
Proof.
  unfold Supabase.original_quantity, quantity_of, stored_lines.
  induction rows as [|r rows IH]; simpl; [reflexivity|].
  rewrite (String.eqb_sym (product_id r) p).
  destruct (String.eqb p (product_id r)); simpl.
  - unfold JS.parseInt. apply or_num_zero.
  - exact IH.
Qed.

Lemma new_items_line l p :
  (JS.has p (map Supabase.new_entry l) = true /\ In p (map productId l))
  \/ (JS.has p (map Supabase.new_entry l) = false
      /\ ~ In p (map productId l)
      /\ quantity_of p (requested_lines l) = 0).
Proof.
  unfold JS.has, quantity_of, requested_lines.
  induction l as [|item l IH]; simpl.
  - right. repeat split. intros [].
  - rewrite (String.eqb_sym (productId item) p).
    destruct (String.eqb_spec p (productId item)) as [->|Hne]; simpl.
    + left. split; [reflexivity|left; reflexivity].
    + destruct IH as [[H1 H2]|[H1 [H2 H3]]].
      * left. split; [exact H1|right; exact H2].
      * right. split; [exact H1|]. split; [|exact H3].
        intros [Heq|Hin]; [congruence|contradiction].
Qed.

Lemma sum_restock newItems (entries : list (string * Supabase.OrderItemMap)) p :
  List.NoDup (map fst entries) ->
  sum_shifts (restock_shift newItems) entries p
  = if JS.has p newItems then 0 else Supabase.original_quantity entries p.
Proof.
  unfold sum_shifts, Supabase.original_quantity.
  induction entries as [|[k [q iid]] entries IH]; simpl; intros Hnd.
  - destruct (JS.has p newItems); reflexivity.
  - inversion Hnd as [|? ? Hk Hnd']; subst.
    rewrite (IH Hnd'). unfold restock_shift. simpl.
    destruct (String.eqb_spec p k) as [->|Hne].
    + rewrite (get_absent k entries Hk).
      destruct (JS.has k newItems); simpl; lia.
    + destruct (JS.has k newItems); destruct (JS.has p newItems); simpl; lia.
Qed.

Lemma sum_adjust originalItems l p :
  List.NoDup (map productId l) ->
  sum_shifts (adjust_shift originalItems) l p
  = if JS.has p (map Supabase.new_entry l)
    then - (quantity_of p (requested_lines l) - Supabase.original_quantity originalItems p)
    else 0.
Proof.
  unfold sum_shifts, JS.has, quantity_of, requested_lines.
  induction l as [|item l IH]; simpl; intros Hnd; [reflexivity|].
  inversion Hnd as [|? ? Hk Hnd']; subst.
  rewrite (IH Hnd'). unfold adjust_shift.
  rewrite (String.eqb_sym (productId item) p).
  destruct (String.eqb_spec p (productId item)) as [->|Hne]; simpl.
  - destruct (new_items_line l (productId item)) as [[_ Hin]|[Hhas _]];
      [contradiction|].
    unfold JS.has in Hhas.
    destruct (JS.get (productId item) (map Supabase.new_entry l)); [discriminate|]. lia.
  - destruct (JS.get p (map Supabase.new_entry l)); lia.
Qed.

(** The two loops together move each product by its decrease. *)
Lemma net_shift rows l p :
  List.NoDup (map product_id rows) -> List.NoDup (map productId l) ->
  sum_shifts (restock_shift (map Supabase.new_entry l)) (map Supabase.original_entry rows) p
  + sum_shifts (adjust_shift (map Supabase.original_entry rows)) l p
  = - (quantity_of p (requested_lines l) - quantity_of p (stored_lines rows)).
Proof.
  intros Hrows Hl.
  rewrite sum_restock, sum_adjust, original_quantity_stored; try assumption.
  - destruct (new_items_line l p) as [[-> _]|[-> [_ ->]]]; lia.
  - rewrite map_map. simpl. exact Hrows.
Qed.

(** ** Which lines a stock check can reject *)


(** ** A successful item replacement *)

Lemma replace_items_ok uuid rows l w its w' :
  Supabase.replace_items uuid rows l w = (Ok its, w') ->
  exists w2 err new_rows w3 n,
    frame same_orders w w2
    /\ shifted (fun p =>
                  sum_shifts (restock_shift (JS.of_entries (map Supabase.new_entry l)))
                             (JS.of_entries (map Supabase.original_entry rows)) p
                  + sum_shifts (adjust_shift (JS.of_entries (map Supabase.original_entry rows)))
                               l p) w w2
    /\ map_m (Supabase.item_row uuid) l w3 = (Ok new_rows, with_ticks n w3)
    /\ products (db w') = products (db w2)
    /\ orders (db w') = orders (db w2)
    /\ order_items (db w') = kept_lines err uuid (order_items (db w2)) ++ new_rows
    /\ log w' = log w2 ++ [(mkCall "order_items" Delete uuid, err);
                           (mkCall "order_items" Insert uuid, false)]
    /\ entropy w' = entropy w2 /\ clock w' = clock w2.
Proof.
  unfold Supabase.replace_items, bind.
  set (originalItems := JS.of_entries _).
  set (newItems := JS.of_entries _).
  destruct (for_each originalItems _ w) as [[[]|e1] w1] eqn:E1; [|discriminate].
  destruct (for_each l _ w1) as [[[]|e2] w2] eqn:E2; [|discriminate].
  assert (F : frame same_orders w w2).
  { eapply (frame_trans same_orders same_orders_trans).
    - eapply (preserves_for_each _ (frame_refl _ same_orders_refl) (frame_trans _ same_orders_trans));
        [|exact E1]. intros x. apply restock_removed_keeps_orders.
    - eapply (preserves_for_each _ (frame_refl _ same_orders_refl) (frame_trans _ same_orders_trans));
        [|exact E2]. intros x. apply adjust_stock_keeps_orders. }
  assert (S : shifted (fun p => sum_shifts (restock_shift newItems) originalItems p
                                + sum_shifts (adjust_shift originalItems) l p) w w2).
  { eapply shifted_trans.
    - eapply for_each_shifted; [|exact E1]. intros x w0 w0'. apply restock_removed_ok.
    - eapply for_each_shifted; [|exact E2]. intros x w0 w0'. apply adjust_stock_ok. }
  unfold Query.delete_items. rewrite remote_eq.
  destruct (hd false (faults w2)) eqn:Hf; simpl;
    match goal with |- context [map_m _ _ ?w0] =>
      destruct (map_m_item_row_run uuid l w0) as (rws & n & E3 & _)
    end;
    rewrite E3; unfold Query.insert_items; rewrite remote_eq; simpl;
    unfold throw, ret;
    (destruct (hd false (tl (faults w2))); simpl; [discriminate|]);
    (destruct (Query.clashes _ _); simpl; [discriminate|]);
    intros [= <- <-]; simpl.
  - eexists w2, true, rws, _, n.
    split; [exact F|]. split; [exact S|]. split; [exact E3|].
    repeat split; try reflexivity. simpl. rewrite <- app_assoc. reflexivity.
  - eexists w2, false, rws, _, n.
    split; [exact F|]. split; [exact S|]. split; [exact E3|].
    repeat split; try reflexivity. simpl. rewrite <- app_assoc. reflexivity.
Qed.


(** ** How [createOrder] runs *)

Lemma createOrder_cases order w :
  (exists e w', Supabase.createOrder order w = (Throw e, w')
                /\ db w' = db w /\ logs reads_stock w w')
  \/ (exists w', Supabase.createOrder order w = (Ok None, w')
                 /\ db w' = db w
                 /\ logs (validates_or_inserts (next_id w) true) w w')
  \/ (exists hdr w4,
        orders (db w) !! next_id w = None
        /\ row_total hdr = JS.or_num (draft_total order) 0
        /\ db w4 = with_orders (<[next_id w := hdr]> (orders (db w))) (db w)
        /\ logs (validates_or_inserts (next_id w) false) w w4
        /\ entropy w4 = entropy w /\ clock w4 = clock w
        /\ Supabase.createOrder order w
           = Supabase.after_header (next_id w) (draft_items order) w4).
Proof.
  remember (Supabase.createOrder order w) as res eqn:E.
  unfold Supabase.createOrder in E. unfold bind at 1 in E.
  destruct (check_loop (draft_items order) w)
    as (r & w1 & E1 & Hdb & Ht & He & Hc & (evs & Hl & Hev) & _).
  rewrite E1 in E. destruct r as [[]|e].
  2:{ left. exists e, w1. split; [exact E|]. split; [exact Hdb|].
      exists evs. split; assumption. }
  right.
  unfold bind at 1 in E. unfold uuidv4 at 1 in E. rewrite He, Ht in E.
  fold (next_id w) in E.
  unfold bind at 1 in E.
  match type of E with context [Supabase.ensureUUID _ ?w0] =>
    destruct (ensureUUID_run (draft_customerId order) w0) as (n2 & E2 & _) end.
  rewrite E2 in E. unfold bind at 1 in E.
  match type of E with context [Supabase.ensureUUID _ ?w0] =>
    destruct (ensureUUID_run (draft_employeeId order) w0) as (n3 & E3 & _) end.
  rewrite E3 in E. unfold bind at 1 in E. unfold now at 1 in E.
  unfold bind at 1 in E. unfold Query.insert_order in E. rewrite remote_eq in E.
  simpl in E. rewrite Hdb in E.
  assert (Hevs : Forall (validates_or_inserts (next_id w) true) evs
                 /\ Forall (validates_or_inserts (next_id w) false) evs).
  { split; eapply Forall_impl; try exact Hev; intros ev Hr; left; exact Hr. }
  destruct Hevs as [Hevt Hevf].
  destruct (hd false (faults w1)); simpl in E.
  { left. eexists. split; [exact E|]. split; [reflexivity|].
    eexists. simpl. rewrite Hl, <- app_assoc. split; [reflexivity|].
    apply Forall_app. split; [exact Hevt|].
    constructor; [right; reflexivity|constructor]. }
  destruct (orders (db w) !! next_id w) as [h|] eqn:Hh; simpl in E.
  { left. eexists. split; [exact E|]. split; [reflexivity|].
    eexists. simpl. rewrite Hl, <- app_assoc. split; [reflexivity|].
    apply Forall_app. split; [exact Hevt|].
    constructor; [right; reflexivity|constructor]. }
  right. eexists _, _. split; [reflexivity|].
  split; [|split; [|split; [|split; [|split; [|exact E]]]]].
  2: (simpl; reflexivity).
  - reflexivity.
  - eexists. simpl. rewrite Hl, <- app_assoc. split; [reflexivity|].
    apply Forall_app. split; [exact Hevf|].
    constructor; [right; reflexivity|constructor].
  - simpl. exact He.
  - simpl. exact Hc.
Qed.

Lemma new_events_app w w' evs : log w' = log w ++ evs -> new_events w w' = evs.
Proof. intros H. unfold new_events. rewrite H. apply drop_app_length. Qed.

Lemma after_header_cases newId l w4 :
  (l = [] /\ Supabase.after_header newId l w4 = Supabase.read_back newId w4)
  \/ (l <> [] /\ exists rows n,
        map_m (Supabase.item_row newId) l w4 = (Ok rows, with_ticks n w4)
        /\ ((exists err w',
               Supabase.after_header newId l w4 = (Ok None, w')
               /\ orders (db w')
                  = (if err : bool then orders (db w4) else delete newId (orders (db w4)))
               /\ order_items (db w') = order_items (db w4)
               /\ products (db w') = products (db w4)
               /\ log w' = log w4 ++ [(mkCall "order_items" Insert newId, true);
                                      (mkCall "orders" Delete newId, err)])
            \/ (exists w6,
                  db w6 = with_order_items (order_items (db w4) ++ rows) (db w4)
                  /\ log w6 = log w4 ++ [(mkCall "order_items" Insert newId, false)]
                  /\ entropy w6 = entropy w4 /\ clock w6 = clock w4
                  /\ Supabase.after_header newId l w4
                     = bind (for_each l (Supabase.take_stock newId))
                            (fun _ => Supabase.read_back newId) w6))).
Proof.
  destruct l as [|item l]; [left; split; reflexivity|].
  right. split; [discriminate|].
  set (items := item :: l).
  remember (Supabase.after_header newId items w4) as res eqn:E0.
  unfold Supabase.after_header in E0.
  change (Nat.ltb 0 (length items)) with true in E0. cbv iota in E0.
  destruct (map_m_item_row_run newId items w4) as (rows & n & E & _).
  exists rows, n. split; [exact E|].
  unfold bind at 1 in E0. rewrite E in E0.
  unfold bind at 1 in E0. unfold Query.insert_items in E0. rewrite remote_eq in E0.
  simpl in E0.
  assert (Hfail : forall d code,
    exists err w',
      bind (Query.delete_order newId) (fun _ => ret (@None Order))
        (after_call (with_ticks n w4) (db w4) d (errored (@failed (list ItemRow) code)))
      = (Ok None, w')
      /\ orders (db w') = (if err : bool then orders (db w4) else delete newId (orders (db w4)))
      /\ order_items (db w') = order_items (db w4)
      /\ products (db w') = products (db w4)
      /\ log w' = (log w4 ++ [(d, true)]) ++ [(mkCall "orders" Delete newId, err)]).
  { intros d code. simpl. unfold bind, Query.delete_order. rewrite remote_eq. simpl.
    destruct (hd false (tl (faults w4))); simpl.
    - exists true. eexists. split; [reflexivity|]. repeat split.
    - exists false. eexists. split; [reflexivity|]. repeat split. }
  destruct (hd false (faults w4)); simpl in E0.
  { left. destruct (Hfail (mkCall "order_items" Insert newId) "")
      as (err & w' & E' & Ho & Hi & Hp & Hl).
    exists err, w'. rewrite E0, E'. repeat split; try assumption.
    rewrite Hl, <- app_assoc. reflexivity. }
  destruct (Query.clashes (order_items (db w4)) rows); simpl in E0.
  { left. destruct (Hfail (mkCall "order_items" Insert newId) "23505")
      as (err & w' & E' & Ho & Hi & Hp & Hl).
    exists err, w'. rewrite E0, E'. repeat split; try assumption.
    rewrite Hl, <- app_assoc. reflexivity. }
  right. eexists. split; [|split; [|split; [|split; [|exact E0]]]]; reflexivity.
Qed.

Lemma off_lines_remote {A} table op key (run : Database -> Response A * Database) :
  table <> "order_items" ->
  preserves (logs off_lines) (remote (mkCall table op key) run).
Proof. intros H. apply logs_remote. intros b. exact H. Qed.

Lemma take_stock_off_lines newId item :
  preserves (logs off_lines) (Supabase.take_stock newId item).
Proof.
  unfold Supabase.take_stock.
  apply preserves_bind; [apply logs_trans| |intros r].
  - apply off_lines_remote. discriminate.
  - destruct (errored r).
    + apply preserves_bind; [apply logs_trans| |intros].
      * apply off_lines_remote. discriminate.
      * apply preserves_throw. apply logs_refl.
    + apply preserves_ret. apply logs_refl.
Qed.

Lemma draws_read_back_tail h rows newId :
  draws_only
    (bind (Supabase.ensureUUID newId) (fun oid =>
     bind (Supabase.ensureUUID (customer_id h)) (fun cid =>
     bind (Supabase.ensureUUID (employee_id h)) (fun eid =>
     bind (map_m (fun row =>
                    bind (Supabase.ensureUUID (product_id row)) (fun pid =>
                    ret (mkItem (row_id row) pid (product_name row)
                                (JS.or_num (JS.parseInt (row_quantity row)) 1)
                                (JS.or_num (JS.parseFloat (row_price row)) 0))))
                 rows) (fun its =>
     bind (Supabase.date_or_now (created_at h)) (fun created =>
     ret (Some (mkOrder oid cid (JS.or_str (customer_name h) "")
                        eid (JS.or_str (employee_name h) "")
                        None its
                        (JS.or_num (JS.parseFloat (row_total h)) 0)
                        created)))))))).
Proof.
  repeat (apply draws_bind; [first [apply draws_ensureUUID|apply draws_date_or_now|idtac]|intros]).
  2: apply draws_ret.
  apply draws_map_m. intros row.
  apply draws_bind; [apply draws_ensureUUID|intros; apply draws_ret].
Qed.

(** [read_back] only reads. *)
Lemma read_back_run newId w r w' :
  Supabase.read_back newId w = (r, w') ->
  db w' = db w /\ entropy w' = entropy w /\ clock w' = clock w
  /\ (exists err n, w' = with_ticks n (after_call w (db w) (mkCall "orders" Select newId) err))
  /\ (forall o, r = Ok (Some o) -> exists h, orders (db w) !! newId = Some h).
Proof.
  unfold Supabase.read_back. unfold bind at 1.
  unfold Query.select_order. rewrite remote_eq. simpl.
  destruct (hd false (faults w)); simpl.
  { intros [= <- <-]. simpl. repeat split.
    - exists true, (ticks w). reflexivity.
    - discriminate. }
  unfold Query.order_with_items.
  destruct (orders (db w) !! newId) as [h|] eqn:Hh; simpl.
  2:{ intros [= <- <-]. simpl. repeat split.
      - exists true, (ticks w). reflexivity.
      - discriminate. }
  match goal with |- ?c ?w0 = _ -> _ =>
    destruct (draws_read_back_tail h (Query.items_of newId (db w)) newId w0)
      as (a & n & E & _) end.
  rewrite E. intros [= <- <-]. simpl. repeat split.
  - exists false, n. reflexivity.
  - intros o _. exists h. reflexivity.
Qed.

Lemma read_back_off_lines newId : preserves (logs off_lines) (Supabase.read_back newId).
Proof.
  intros w r w' E. apply read_back_run in E as (_ & _ & _ & (err & n & ->) & _).
  eexists. simpl. split; [reflexivity|]. constructor; [discriminate|constructor].
Qed.

Lemma fetchOrderById_absent id w r w' :
  orders (db w) !! resolve id w = None ->
  Supabase.fetchOrderById id w = (r, w') -> r = Ok None /\ db w' = db w.
Proof.
  intros Habs. unfold Supabase.fetchOrderById.
  destruct (JS.truthy id); simpl; [|intros [= <- <-]; split; reflexivity].
  unfold bind at 1. destruct (ensureUUID_run id w) as (n & -> & _).
  unfold bind at 1. unfold Query.count_orders. rewrite remote_eq. simpl.
  destruct (hd false (faults w)); simpl; [intros [= <- <-]; split; reflexivity|].
  rewrite Habs. simpl. intros [= <- <-]. split; reflexivity.
Qed.

Lemma resolve_valid id w : UUID.isValidUUID id = true -> resolve id w = id.
Proof. unfold resolve. intros ->. reflexivity. Qed.

Lemma reads_stock_not_lines id b :
  ~ reads_stock (mkCall "order_items" Insert id, b).
Proof. intros [H _]. discriminate. Qed.

Lemma reads_stock_not_delete id b :
  ~ reads_stock (mkCall "orders" Delete id, b).
Proof. intros [H _]. discriminate. Qed.

(** Claim C7, amended.  When in a [createOrder] call the insertion of the
    lines fails after the header was inserted, and the compensating delete
    of the header goes through, the call returns [null], the header row is
    gone, and a later [fetchOrderById] of the new identifier returns
    not-found.  ([createOrder] does not check the outcome of that delete.) *)
Theorem createOrder_compensating_delete
        (w : World) (order : OrderDraft) (r : Result (option Order)) (w' : World) :
  Supabase.createOrder order w = (r, w') ->
  In (mkCall "order_items" Insert (next_id w), true) (new_events w w') ->
  In (mkCall "orders" Delete (next_id w), false) (new_events w w') ->
  r = Ok None
  /\ orders (db w') !! next_id w = None
  /\ (UUID.isValidUUID (next_id w) = true ->
      forall r2 w2, Supabase.fetchOrderById (next_id w) w' = (r2, w2) -> r2 = Ok None).
Proof.
  intros E Hins Hdel.
  assert (Hgoal : r = Ok None /\ orders (db w') !! next_id w = None).
  { destruct (createOrder_cases order w)
      as [(e & w0 & E0 & _ & L)|[(w0 & E0 & _ & L)|
          (hdr & w4 & Hfree & _ & Hdb & (evs & Hl & Hev) & _ & _ & E4)]].
    - rewrite E0 in E. injection E as <- <-.
      apply logs_new_events in L. rewrite List.Forall_forall in L.
      apply L in Hins. exfalso. eapply reads_stock_not_lines. exact Hins.
    - rewrite E0 in E. injection E as <- <-.
      apply logs_new_events in L. rewrite List.Forall_forall in L.
      apply L in Hins. destruct Hins as [Hr|Heq]; [|discriminate].
      exfalso. eapply reads_stock_not_lines. exact Hr.
    - rewrite E4 in E. rewrite List.Forall_forall in Hev.
      assert (Hpre : forall b, ~ In (mkCall "order_items" Insert (next_id w), b) evs).
      { intros b Hin. apply Hev in Hin. destruct Hin as [Hr|Heq]; [|discriminate].
        eapply reads_stock_not_lines. exact Hr. }
      assert (Hpre' : ~ In (mkCall "orders" Delete (next_id w), false) evs).
      { intros Hin. apply Hev in Hin. destruct Hin as [Hr|Heq]; [|discriminate].
        eapply reads_stock_not_delete. exact Hr. }
      destruct (after_header_cases (next_id w) (draft_items order) w4)
        as [[_ Eh]|(_ & rows & n & _ & [(err & w5 & Eh & Ho & _ & _ & Hl5)|
                                        (w6 & _ & Hl6 & _ & _ & Eh)])].
      + rewrite Eh in E. apply read_back_off_lines in E as (evs' & Hl' & Hev').
        rewrite Hl, <- app_assoc in Hl'. rewrite (new_events_app _ _ _ Hl') in Hins.
        apply in_app_or in Hins as [Hin|Hin]; [exfalso; eapply Hpre; exact Hin|].
        rewrite List.Forall_forall in Hev'. apply Hev' in Hin. exfalso. apply Hin. reflexivity.
      + rewrite Eh in E. injection E as <- <-. split; [reflexivity|].
        rewrite Hl, <- app_assoc in Hl5. rewrite (new_events_app _ _ _ Hl5) in Hdel.
        apply in_app_or in Hdel as [Hin|Hin]; [exfalso; apply Hpre'; exact Hin|].
        destruct Hin as [Heq|[Heq|[]]]; [discriminate|].
        injection Heq as ->. rewrite Ho, Hdb. simpl. apply lookup_delete_eq.
      + rewrite Eh in E. exfalso.
        assert (L : logs off_lines w6 w').
        { revert E. apply preserves_bind; [apply logs_trans| |intros []].
          - apply preserves_for_each; [apply logs_refl|apply logs_trans|].
            intros x. apply take_stock_off_lines.
          - apply read_back_off_lines. }
        destruct L as (evs' & Hl' & Hev').
        rewrite Hl6, Hl, <- !app_assoc in Hl'.
        rewrite (new_events_app _ _ _ Hl') in Hins.
        apply in_app_or in Hins as [Hin|Hin]; [eapply Hpre; exact Hin|].
        destruct Hin as [Heq|Hin]; [discriminate|].
        rewrite List.Forall_forall in Hev'. apply Hev' in Hin. apply Hin. reflexivity. }
  destruct Hgoal as [Hr Ho]. split; [exact Hr|]. split; [exact Ho|].
  intros Hvalid r2 w2 Ef.
  eapply fetchOrderById_absent in Ef; [apply Ef|].
  rewrite resolve_valid by exact Hvalid. exact Ho.
Qed.

(** ** What a successful create or update leaves in the tables *)

Lemma for_each_ok {A} (R : World -> World -> Prop) (body : A -> M unit) l :
  (forall w, R w w) -> (forall a b c, R a b -> R b c -> R a c) ->
  (forall x w w', body x w = (Ok tt, w') -> R w w') ->
  forall w w', for_each l body w = (Ok tt, w') -> R w w'.
Proof.
  intros Hr Ht Hb. induction l as [|x l IH]; simpl; intros w w'.
  - intros [= <-]. apply Hr.
  - unfold bind. destruct (body x w) as [[[]|e] w1] eqn:E; [|discriminate].
    intros E'. eapply Ht; [eapply Hb; eassumption|eapply IH; eassumption].
Qed.

Lemma take_stock_ok newId item w w' :
  Supabase.take_stock newId item w = (Ok tt, w') -> keeps_orders w w'.
Proof.
  unfold Supabase.take_stock, bind, Query.decrease_stock. rewrite remote_eq. simpl.
  unfold throw, ret.
  destruct (hd false (faults w)); simpl.
  { unfold Query.delete_order. rewrite remote_eq. discriminate. }
  destruct (products (db w) !! productId item); simpl.
  - intros [= <-]. split; reflexivity.
  - unfold Query.delete_order. rewrite remote_eq. discriminate.
Qed.

Lemma item_row_run oid item w :
  exists r n, Supabase.item_row oid item w = (Ok r, with_ticks n w)
              /\ written_as oid item r /\ (ticks w <= n)%nat.
Proof.
  unfold Supabase.item_row, bind.
  assert (H : exists iid n1,
    (if JS.truthy (item_id item) then ret (item_id item) else randomUUID) w
    = (Ok iid, with_ticks n1 w) /\ (ticks w <= n1)%nat).
  { destruct (JS.truthy (item_id item)).
    - apply draws_ret.
    - apply draws_uuidv4. }
  destruct H as (iid & n1 & -> & H1).
  destruct (ensureUUID_run (productId item) (with_ticks n1 w)) as (n2 & -> & H2).
  eexists _, n2. split; [reflexivity|]. split; [|simpl in *; lia].
  repeat split.
Qed.

Lemma item_rows_written oid l :
  forall w rows w', map_m (Supabase.item_row oid) l w = (Ok rows, w') ->
    Forall2 (written_as oid) l rows.
Proof.
  induction l as [|item l IH]; simpl; intros w rows w'.
  - intros [= <- <-]. constructor.
  - unfold bind at 1. destruct (item_row_run oid item w) as (r & n & -> & Hr & _).
    unfold bind. destruct (map_m _ l (with_ticks n w)) as [[rs|e] w1] eqn:E; [|discriminate].
    intros [= <- <-]. constructor; [exact Hr|]. eapply IH. exact E.
Qed.

Lemma createOrder_done order w o w' :
  Supabase.createOrder order w = (Ok (Some o), w') ->
  draft_items order <> [] ->
  exists hdr rows,
    orders (db w) !! next_id w = None
    /\ orders (db w') !! next_id w = Some hdr
    /\ row_total hdr = JS.or_num (draft_total order) 0
    /\ order_items (db w') = order_items (db w) ++ rows
    /\ Forall2 (written_as (next_id w)) (draft_items order) rows.
Proof.
  intros E Hne.
  destruct (createOrder_cases order w)
    as [(e & w0 & E0 & _)|[(w0 & E0 & _)|
        (hdr & w4 & Hfree & Htot & Hdb & _ & _ & _ & E4)]];
    [rewrite E0 in E; discriminate..|].
  rewrite E4 in E.
  destruct (after_header_cases (next_id w) (draft_items order) w4)
    as [[Hnil _]|(_ & rows & n & Em & [(err & w5 & Eh & _)|
                                        (w6 & Hdb6 & _ & _ & _ & Eh)])].
  - contradiction.
  - rewrite Eh in E. discriminate.
  - rewrite Eh in E. unfold bind in E.
    destruct (for_each _ _ w6) as [[[]|e] w7] eqn:El; [|discriminate].
    apply (for_each_ok keeps_orders) in El.
    + destruct El as [Ho Hi]. apply read_back_run in E as (Hdb' & _).
      exists hdr, rows. split; [exact Hfree|].
      rewrite Hdb', Ho, Hi, Hdb6, Hdb. simpl.
      split; [apply lookup_insert_eq|]. split; [exact Htot|]. split; [reflexivity|].
      eapply item_rows_written. exact Em.
    + intros w0. split; reflexivity.
    + intros a b c [H1 H2] [H3 H4]. split; congruence.
    + intros x w0 w0'. apply take_stock_ok.
Qed.

Lemma updateOrder_done id order l w o w' :
  Supabase.updateOrder id order w = (Ok (Some o), w') ->
  patch_items order = Some l ->
  exists h cleaned err rows,
    orders (db w) !! resolve id w = Some h
    /\ Query.set_total cleaned = patch_total order
    /\ orders (db w') !! resolve id w = Some (Query.patch_header cleaned h)
    /\ order_items (db w') = kept_lines err (resolve id w) (order_items (db w)) ++ rows
    /\ Forall2 (written_as (resolve id w)) l rows
    /\ In (mkCall "order_items" Delete (resolve id w), err) (new_events w w').
Proof.
  intros E Hitems.
  destruct (updateOrder_cases id order w)
    as [(w0 & E0 & _)|(h & cleaned & w4 & Hh & Ht & _ & _ & Hdb & _ & _ & (evs & Hl) & E4)].
  { rewrite E0 in E. discriminate. }
  rewrite E4 in E. unfold bind in E. rewrite Hitems in E. simpl in E.
  destruct (Supabase.replace_items _ _ _ w4) as [[its|e1] w5] eqn:E5; [|discriminate].
  destruct (assemble_run (Query.patch_header cleaned h) (resolve id w) its w5)
    as (o' & n & Ea & _).
  rewrite Ea in E. injection E as _ <-.
  apply replace_items_ok in E5
    as (w2 & err & rows & w3 & n3 & ((Ho2 & Hi2 & _) & _ & _ & _ & evs2 & Hl2)
        & _ & Em & _ & Ho & Hi & Hl5 & _).
  exists h, cleaned, err, rows. split; [exact Hh|]. split; [exact Ht|].
  simpl. rewrite Ho, Ho2, Hi, Hi2, Hdb. simpl.
  split; [apply lookup_insert_eq|]. split; [reflexivity|].
  split; [eapply item_rows_written; exact Em|].
  rewrite Hl2, Hl, <- !app_assoc in Hl5.
  assert (Hn : new_events w (with_ticks n w5) = evs ++ evs2 ++
            [(mkCall "order_items" Delete (resolve id w), err);
             (mkCall "order_items" Insert (resolve id w), false)]).
  { apply new_events_app. simpl. exact Hl5. }
  rewrite Hn. apply in_or_app. right. apply in_or_app. right. left. reflexivity.
Qed.

(** ** Totals *)

Lemma or_num_idem x d : d <> 0 -> JS.or_num (JS.or_num x d) d = JS.or_num x d.
Proof.
  intros Hd. unfold JS.or_num.
  destruct (Z.eqb_spec x 0) as [->|Hx].
  - destruct (Z.eqb_spec d 0); [contradiction|reflexivity].
  - destruct (Z.eqb_spec x 0); [contradiction|reflexivity].
Qed.

Lemma lacks_products_false l :
  lacks_products l = false ->
  l <> [] /\ existsb (fun item => negb (JS.truthy (productId item))) l = false.
Proof.
  unfold lacks_products. intros H. apply orb_false_iff in H as [H1 H2].
  split; [|exact H2]. destruct l; [discriminate|discriminate].
Qed.

(** [calculateTotal] of the lines a form submits and the sum over the rows
    written for them: the same products, added in the same order *)
Lemma form_sum_written oid (l : list OrderItem) :
  existsb (fun item => negb (JS.truthy (productId item))) l = false ->
  forall rows a, Forall2 (written_as oid) (map submitted_item l) rows ->
    fold_left
      (fun sum item =>
         if negb (JS.truthy (productId item)) then sum
         else sum + JS.or_num (price item) 0 * JS.or_num (quantity item) 1)
      l a
    = fold_left (fun sum r => sum + row_price r * row_quantity r) rows a.
Proof.
  induction l as [|item l IH]; simpl; intros Hl rows a F;
    inversion F as [|x r xs rs Hw Hrest]; subst; simpl.
  - reflexivity.
  - apply orb_false_iff in Hl as [Hfirst Hl]. rewrite Hfirst. simpl.
    destruct Hw as (_ & Hq & Hp & _). simpl in Hq, Hp.
    rewrite Hq, Hp, (or_num_zero (JS.or_num (price item) 0)), or_num_idem by lia.
    apply IH; assumption.
Qed.

Lemma filter_written oid l rows :
  Forall2 (written_as oid) l rows ->
  List.filter (fun r => String.eqb (order_ref r) oid) rows = rows.
Proof.
  induction 1 as [|item r l rows (Hr & _) _ IH]; simpl; [reflexivity|].
  rewrite Hr, String.eqb_refl, IH. reflexivity.
Qed.

Lemma filter_kept oid old :
  List.filter (fun r => String.eqb (order_ref r) oid) (kept_lines false oid old) = [].
Proof.
  unfold kept_lines. induction old as [|r old IH]; simpl; [reflexivity|].
  destruct (String.eqb (order_ref r) oid) eqn:E; simpl; [exact IH|].
  rewrite E. exact IH.
Qed.

Lemma filter_foreign oid old :
  (forall r, In r old -> order_ref r <> oid) ->
  List.filter (fun r => String.eqb (order_ref r) oid) old = [].
Proof.
  induction old as [|r old IH]; simpl; intros H; [reflexivity|].
  destruct (String.eqb_spec (order_ref r) oid) as [Heq|_].
  - exfalso. apply (H r); [left; reflexivity|exact Heq].
  - apply IH. intros r' Hin. apply H. right. exact Hin.
Qed.


(** ** The forms and the empty order *)

(** Claim C6, amended.  Both order forms turn an empty item list down
    before any remote call ([OrderNew.handleSubmit] and
    [OrderEdit.confirmUpdate] return with the world untouched), and both
    refuse to remove a line from a list of at most one line ([removeItem],
    [confirmDelete]).  ([createOrder] itself accepts an empty list.) *)
Theorem forms_refuse_empty_orders
        (f : Form) (w : World) (id target : string) (l : list OrderItem) :
  form_items f = [] ->
  (length l <= 1)%nat ->
  (exists s, OrderNew.handleSubmit f w = (Ok s, w) /\ turned_down s)
  /\ (exists s, OrderEdit.confirmUpdate id f w = (Ok s, w) /\ turned_down s)
  /\ OrderNew.removeItem target l = None
  /\ OrderEdit.confirmDelete target l = None.
Proof.
  intros Hf Hl. repeat split.
  - unfold OrderNew.handleSubmit. rewrite Hf.
    destruct (isSubmitting f); [exists Ignored; split; [reflexivity|exact I]|].
    destruct (JS.truthy (form_customerId f)); simpl;
      [|eexists; split; [reflexivity|exact I]].
    destruct (JS.truthy (form_employeeId f)); simpl;
      eexists; (split; [reflexivity|exact I]).
  - unfold OrderEdit.confirmUpdate. rewrite Hf.
    destruct (negb (JS.truthy id) || isSubmitting f);
      [exists Ignored; split; [reflexivity|exact I]|].
    destruct (JS.truthy (form_customerId f)); simpl;
      [|eexists; split; [reflexivity|exact I]].
    destruct (JS.truthy (form_employeeId f)); simpl;
      eexists; (split; [reflexivity|exact I]).
  - unfold OrderNew.removeItem.
    destruct (Nat.ltb_spec 1 (length l)); [lia|reflexivity].
  - unfold OrderEdit.confirmDelete.
    destruct (Nat.ltb_spec 1 (length l)); [lia|].
    destruct (JS.truthy target); reflexivity.
Qed.

(** ** Reading an order twice *)

Lemma ensureUUID_valid id w :
  UUID.isValidUUID id = true -> Supabase.ensureUUID id w = (Ok id, w).
Proof.
  intros H. unfold Supabase.ensureUUID, Supabase.isValidUUID. rewrite H. reflexivity.
Qed.

#[local] Arguments Supabase.ensureUUID : simpl never.
#[local] Arguments Supabase.date_or_now : simpl never.

Lemma shown_lines rows w :
  Forall canonical_line rows ->
  map_m
    (fun row =>
       bind (if JS.truthy (row_id row) then ret (row_id row) else randomUUID) (fun iid =>
       bind (Supabase.ensureUUID (product_id row)) (fun pid =>
       ret (mkItem iid pid
                   (JS.or_str (product_name row) "Unknown Product")
                   (JS.or_num (JS.parseInt (row_quantity row)) 1)
                   (JS.or_num (JS.parseFloat (row_price row)) 0)))))
    rows w
  = (Ok (map shown_line rows), w).
Proof.
  induction 1 as [|r rows [Hid Hpid] _ IH]; simpl; [reflexivity|].
  unfold bind at 1. unfold bind at 1. rewrite Hid. simpl.
  unfold bind at 1. rewrite (ensureUUID_valid _ _ Hpid). simpl.
  unfold bind at 1. rewrite IH. reflexivity.
Qed.

Lemma fetchOrderById_canonical id w r w' :
  UUID.isValidUUID id = true ->
  canonical_order id (db w) ->
  Supabase.fetchOrderById id w = (r, w') ->
  db w' = db w
  /\ (r = Ok None
      \/ exists h, orders (db w) !! id = Some h
                   /\ r = Ok (Some (shown id h (Query.items_of id (db w)))))
  /\ (faults w = [] ->
      faults w' = []
      /\ r = Ok ((fun h => shown id h (Query.items_of id (db w))) <$> orders (db w) !! id)).
Proof.
  intros Hid Hcan. unfold Supabase.fetchOrderById.
  destruct (JS.truthy id) eqn:Ht; simpl.
  2:{ destruct id; [discriminate Hid|discriminate Ht]. }
  unfold bind at 1. rewrite (ensureUUID_valid _ _ Hid).
  unfold bind at 1. unfold Query.count_orders. rewrite remote_eq. simpl.
  destruct (hd false (faults w)) eqn:H1; simpl.
  { intros [= <- <-]. simpl. split; [reflexivity|]. split; [left; reflexivity|].
    intros Hf. rewrite Hf in H1. discriminate. }
  destruct (orders (db w) !! id) as [h|] eqn:Hh; simpl.
  2:{ intros [= <- <-]. simpl. split; [reflexivity|]. split; [left; reflexivity|].
      intros Hf. rewrite Hf. split; reflexivity. }
  unfold bind at 1. unfold Query.select_order_maybe. rewrite remote_eq. simpl.
  destruct (hd false (tl (faults w))) eqn:H2; simpl.
  { intros [= <- <-]. simpl. split; [reflexivity|]. split; [left; reflexivity|].
    intros Hf. rewrite Hf in H2. discriminate. }
  unfold Query.order_with_items. rewrite Hh. simpl.
  destruct (Hcan h Hh) as ((Hc & He & Hs) & Hlines).
  unfold bind at 1. rewrite (ensureUUID_valid _ _ Hid).
  unfold bind at 1. rewrite (ensureUUID_valid _ _ Hc).
  unfold bind at 1. rewrite (ensureUUID_valid _ _ He).
  unfold bind at 1. rewrite (shown_lines _ _ Hlines).
  destruct (created_at h) as [t|] eqn:Hst; [|contradiction].
  unfold bind, Supabase.date_or_now, ret.
  intros [= <- <-]. simpl. split; [reflexivity|].
  split; [right; exists h; split; [reflexivity|unfold shown; rewrite Hst; reflexivity]|].
  intros Hf. rewrite Hf. split; [reflexivity|].
  unfold shown. rewrite Hst. reflexivity.
Qed.

(** Claim C9, amended.  For a well-formed order identifier whose stored
    header and lines need no substitute (customer, employee and product
    identifiers are version-4 UUIDs, line identifiers are not empty, the
    creation time is set), two [fetchOrderById] calls in a row write nothing,
    return the same order whenever both return one, and return identical
    results when no remote call fails. *)
Theorem fetchOrderById_repeatable
        (w : World) (id : string)
        (r1 r2 : Result (option Order)) (w1 w2 : World) :
  UUID.isValidUUID id = true ->
  canonical_order id (db w) ->
  Supabase.fetchOrderById id w = (r1, w1) ->
  Supabase.fetchOrderById id w1 = (r2, w2) ->
  db w2 = db w
  /\ (forall o1 o2, r1 = Ok (Some o1) -> r2 = Ok (Some o2) -> o1 = o2)
  /\ (faults w = [] -> r1 = r2).
Proof.
  intros Hid Hcan E1 E2.
  destruct (fetchOrderById_canonical _ _ _ _ Hid Hcan E1) as (Hdb1 & Hr1 & Hq1).
  rewrite <- Hdb1 in Hcan.
  destruct (fetchOrderById_canonical _ _ _ _ Hid Hcan E2) as (Hdb2 & Hr2 & Hq2).
  split; [congruence|]. split.
  - intros o1 o2 -> ->.
    destruct Hr1 as [|(h1 & Hh1 & [= ->])]; [discriminate|].
    destruct Hr2 as [|(h2 & Hh2 & [= ->])]; [discriminate|].
    rewrite Hdb1 in Hh2. rewrite Hdb1. congruence.
  - intros Hf. destruct (Hq1 Hf) as [Hf1 ->]. destruct (Hq2 Hf1) as [_ ->].
    rewrite Hdb1. reflexivity.
Qed.

(** ** Malformed identifiers *)

Lemma valid_truthy id : UUID.isValidUUID id = true -> JS.truthy id = true.
Proof. destruct id; [discriminate|reflexivity]. Qed.

Lemma ensureUUID_invalid id w :
  UUID.isValidUUID id = false ->
  Supabase.ensureUUID id w = (Ok (next_id w), with_ticks (S (ticks w)) w).
Proof.
  intros H. unfold Supabase.ensureUUID, Supabase.isValidUUID. rewrite H. reflexivity.
Qed.

Lemma ensure_swap {A} (k : string -> M A) id w :
  UUID.isValidUUID id = false ->
  UUID.isValidUUID (next_id w) = true ->
  bind (Supabase.ensureUUID id) k w
  = bind (Supabase.ensureUUID (next_id w)) k (with_ticks (S (ticks w)) w).
Proof.
  intros Hbad Hgood. unfold bind.
  rewrite (ensureUUID_invalid _ _ Hbad), (ensureUUID_valid _ _ Hgood). reflexivity.
Qed.

(** Claim C10, amended.  For the operations that pass their identifier
    through [ensureUUID] ([fetchOrderById] for a non-empty identifier,
    [updateOrder], [deleteOrder], [updateCustomer], [deleteCustomer]) a
    malformed identifier is not turned down: [ensureUUID] returns the next
    generated UUID, the operation runs exactly as on that identifier; when it
    matches no order, [fetchOrderById] and [updateOrder] return [null]; and a
    second substitution differs from the first whenever the generator does
    not repeat itself. *)
Theorem malformed_id_is_replaced (w : World) (id : string) :
  UUID.isValidUUID id = false ->
  JS.truthy id = true ->
  UUID.isValidUUID (next_id w) = true ->
  let w1 := with_ticks (S (ticks w)) w in
  Supabase.ensureUUID id w = (Ok (next_id w), w1)
  /\ Supabase.fetchOrderById id w = Supabase.fetchOrderById (next_id w) w1
  /\ (forall p, Supabase.updateOrder id p w = Supabase.updateOrder (next_id w) p w1)
  /\ Supabase.deleteOrder id w = Supabase.deleteOrder (next_id w) w1
  /\ (forall p, Supabase.updateCustomer id p w = Supabase.updateCustomer (next_id w) p w1)
  /\ Supabase.deleteCustomer id w = Supabase.deleteCustomer (next_id w) w1
  /\ (orders (db w) !! next_id w = None ->
      fst (Supabase.fetchOrderById id w) = Ok None
      /\ forall p, fst (Supabase.updateOrder id p w) = Ok None)
  /\ (next_id w1 <> next_id w ->
      fst (Supabase.ensureUUID id w1) <> fst (Supabase.ensureUUID id w)).
Proof.
  intros Hbad Htruthy Hgood w1.
  assert (Hres : resolve id w = next_id w).
  { unfold resolve. rewrite Hbad. reflexivity. }
  split; [apply ensureUUID_invalid; exact Hbad|].
  split.
  { unfold Supabase.fetchOrderById. rewrite Htruthy, (valid_truthy _ Hgood). simpl.
    apply ensure_swap; assumption. }
  split; [intros p; unfold Supabase.updateOrder; apply ensure_swap; assumption|].
  split; [unfold Supabase.deleteOrder; apply ensure_swap; assumption|].
  split; [intros p; unfold Supabase.updateCustomer; apply ensure_swap; assumption|].
  split; [unfold Supabase.deleteCustomer; apply ensure_swap; assumption|].
  split.
  - intros Habs. split.
    + destruct (Supabase.fetchOrderById id w) as [r w'] eqn:E.
      eapply fetchOrderById_absent in E; [apply E|]. rewrite Hres. exact Habs.
    + intros p. destruct (updateOrder_cases id p w) as [(w0 & -> & _)|(h & _ & _ & Hh & _)].
      * reflexivity.
      * rewrite Hres, Habs in Hh. discriminate.
  - intros Hne. rewrite !(ensureUUID_invalid _ _ Hbad). simpl.
    intros [= Heq]. apply Hne. exact Heq.
Qed.

(** ** The claims at concrete inputs *)

(** Claim C1 at a concrete input, where it fails.  A product has five units
    in stock; one [createOrder] request carries two lines of three units for
    it.  Each line passes the stock check against the five units, the order
    is stored, and the two decrements leave the stock at [-1]. *)
Theorem createOrder_two_lines_oversell :
  let w := Sample.world (Sample.shop 5) [] in
  let run := Supabase.createOrder Sample.twice w in
  stock_of w Sample.P = Some 5
  /\ (exists o, fst run = Ok (Some o) /\ length (items o) = 2%nat)
  /\ stock_of (snd run) Sample.P = Some (-1).
Proof.
  split; [vm_compute; reflexivity|]. split.
  - eexists. split; vm_compute; reflexivity.
  - vm_compute. reflexivity.
Qed.

(** Claim C5 at a concrete input: five units asked, two in stock. *)
Lemma createOrder_rejects_short_stock_witness :
  let w := Sample.world (Sample.shop 2) [] in
  exists w', Supabase.createOrder Sample.five w
             = (Throw (InsufficientStock false "Phone" 2 5), w')
             /\ db w' = db w.
Proof.
  intros w.
  destruct (createOrder_rejects_short_stock w Sample.five [] [] (Sample.phone Sample.L1 5) 2)
    as (e & w' & E & Hdb & _ & He).
  - reflexivity.
  - vm_compute. reflexivity.
  - reflexivity.
  - exists w'. rewrite He in E.
    + split; [exact E|exact Hdb].
    + unfold calm. simpl. constructor.
    + constructor.
Defined.







(** Claim C7 fails as stated: when the compensating delete fails too, the
    header stays and a later read finds it. *)
Lemma createOrder_header_survives_failed_delete :
  let w := Sample.world (Sample.shop 9) [false; false; true; true] in
  let run := Supabase.createOrder Sample.five w in
  new_events w (snd run)
  = [(mkCall "products" Select Sample.P, false);
     (mkCall "orders" Insert (next_id w), false);
     (mkCall "order_items" Insert (next_id w), true);
     (mkCall "orders" Delete (next_id w), true)]
  /\ fst run = Ok None
  /\ (exists o, fst (Supabase.fetchOrderById (next_id w) (snd run)) = Ok (Some o)).
Proof.
  split; [vm_compute; reflexivity|]. split; [vm_compute; reflexivity|].
  eexists. vm_compute. reflexivity.
Qed.

Lemma createOrder_compensating_delete_witness :
  let w := Sample.world (Sample.shop 9) [false; false; true; false] in
  let run := Supabase.createOrder Sample.five w in
  fst run = Ok None
  /\ orders (db (snd run)) !! next_id w = None
  /\ (UUID.isValidUUID (next_id w) = true ->
      forall r2 w2, Supabase.fetchOrderById (next_id w) (snd run) = (r2, w2) -> r2 = Ok None).
Proof.
  intros w run.
  apply (createOrder_compensating_delete w Sample.five (fst run) (snd run)).
  - vm_compute. reflexivity.
  - vm_compute. right. right. left. reflexivity.
  - vm_compute. right. right. right. left. reflexivity.
Defined.



(** Claim C6 fails as stated: [createOrder] takes an empty list and stores
    an order without lines. *)
Lemma createOrder_accepts_empty_list :
  let w := Sample.world (Sample.shop 9) [] in
  let run := Supabase.createOrder Sample.empty w in
  draft_items Sample.empty = []
  /\ (exists o, fst run = Ok (Some o) /\ items o = [])
  /\ (exists h, orders (db (snd run)) !! next_id w = Some h)
  /\ Query.items_of (next_id w) (db (snd run)) = [].
Proof.
  split; [reflexivity|]. split; [eexists; split; vm_compute; reflexivity|].
  split; [eexists; vm_compute; reflexivity|]. vm_compute. reflexivity.
Qed.

Lemma forms_refuse_empty_orders_witness :
  let w := Sample.world (Sample.shop 9) [] in
  let f := Sample.form [] in
  let l := [Sample.phone Sample.L1 2] in
  (exists s, OrderNew.handleSubmit f w = (Ok s, w) /\ turned_down s)
  /\ (exists s, OrderEdit.confirmUpdate Sample.O1 f w = (Ok s, w) /\ turned_down s)
  /\ OrderNew.removeItem Sample.L1 l = None
  /\ OrderEdit.confirmDelete Sample.L1 l = None.
Proof.
  intros w f l. apply forms_refuse_empty_orders.
  - reflexivity.
  - simpl. lia.
Defined.

(** Claim C9 fails as stated: a stored product identifier that is not a
    version-4 UUID is replaced by a new one on every read. *)
Lemma fetchOrderById_differs_between_reads :
  let w := Sample.world Sample.legacy [] in
  let first := Supabase.fetchOrderById Sample.O1 w in
  let second := Supabase.fetchOrderById Sample.O1 (snd first) in
  db (snd first) = db w
  /\ exists o1 o2,
       fst first = Ok (Some o1) /\ fst second = Ok (Some o2)
       /\ map productId (items o1) = ["00000000-0000-4000-8000-000000000000"]
       /\ map productId (items o2) = ["00000000-0000-4000-8000-000000000001"]
       /\ o1 <> o2.
Proof.
  split; [vm_compute; reflexivity|].
  eexists _, _. split; [vm_compute; reflexivity|]. split; [vm_compute; reflexivity|].
  split; [reflexivity|]. split; [reflexivity|]. discriminate.
Qed.

Lemma fetchOrderById_repeatable_witness :
  let w := Sample.world (Sample.stocked 1) [] in
  let first := Supabase.fetchOrderById Sample.O1 w in
  let second := Supabase.fetchOrderById Sample.O1 (snd first) in
  db (snd second) = db w
  /\ (forall o1 o2, fst first = Ok (Some o1) -> fst second = Ok (Some o2) -> o1 = o2)
  /\ (faults w = [] -> fst first = fst second).
Proof.
  intros w first second.
  apply (fetchOrderById_repeatable w Sample.O1 (fst first) (fst second) (snd first) (snd second)).
  - vm_compute. reflexivity.
  - intros h Hh.
    assert (Hrows : Query.items_of Sample.O1 (db w)
                    = [mkItemRow Sample.L1 Sample.O1 Sample.P "Phone" 2 50])
      by (vm_compute; reflexivity).
    assert (Hhd : orders (db w) !! Sample.O1 = Some Sample.header)
      by (vm_compute; reflexivity).
    rewrite Hhd in Hh. injection Hh as <-. split.
    + split; [reflexivity|]. split; [reflexivity|discriminate].
    + rewrite Hrows. constructor; [split; reflexivity|constructor].
  - vm_compute. reflexivity.
  - vm_compute. reflexivity.
Defined.

(** Claim C10 fails as stated: [fetchCustomerById] checks the format itself
    and turns a malformed identifier down, drawing no identifier and making
    no call. *)
Lemma fetchCustomerById_rejects_malformed_id :
  let w := Sample.world (Sample.shop 9) [] in
  UUID.isValidUUID "not-a-uuid" = false
  /\ Supabase.fetchCustomerById "not-a-uuid" w = (Ok None, w)
  /\ (exists c, fst (Supabase.fetchCustomerById Sample.C w) = Ok (Some c)).
Proof.
  split; [vm_compute; reflexivity|]. split; [vm_compute; reflexivity|].
  eexists. vm_compute. reflexivity.
Qed.

Lemma malformed_id_is_replaced_witness :
  let w := Sample.world (Sample.stocked 1) [] in
  let w1 := with_ticks (S (ticks w)) w in
  Supabase.ensureUUID "not-a-uuid" w = (Ok (next_id w), w1)
  /\ fst (Supabase.fetchOrderById "not-a-uuid" w) = Ok None
  /\ fst (Supabase.ensureUUID "not-a-uuid" w1) <> fst (Supabase.ensureUUID "not-a-uuid" w).
Proof.
  intros w w1.
  destruct (malformed_id_is_replaced w "not-a-uuid")
    as (H1 & _ & _ & _ & _ & _ & H7 & H8).
  - vm_compute. reflexivity.
  - reflexivity.
  - vm_compute. reflexivity.
  - split; [exact H1|]. split.
    + apply H7. vm_compute. reflexivity.
    + apply H8. vm_compute. discriminate.
Defined.

(** * Further properties *)

(** ** Reading an order *)

Lemma draws_fetch_tail h rows uuid :
  draws_only
    (bind (Supabase.ensureUUID uuid) (fun oid =>
     bind (Supabase.ensureUUID (customer_id h)) (fun cid =>
     bind (Supabase.ensureUUID (employee_id h)) (fun eid =>
     bind (map_m (fun row =>
                    bind (if JS.truthy (row_id row) then ret (row_id row) else randomUUID)
                         (fun iid =>
                    bind (Supabase.ensureUUID (product_id row)) (fun pid =>
                    ret (mkItem iid pid
                                (JS.or_str (product_name row) "Unknown Product")
                                (JS.or_num (JS.parseInt (row_quantity row)) 1)
                                (JS.or_num (JS.parseFloat (row_price row)) 0)))))
                 rows) (fun its =>
     bind (Supabase.date_or_now (created_at h)) (fun created =>
     ret (Some (mkOrder oid cid (JS.or_str (customer_name h) "")
                        eid (JS.or_str (employee_name h) "")
                        (Some (JS.or_str (row_status h) "pending")) its
                        (JS.or_num (JS.parseFloat (row_total h)) 0)
                        created)))))))).
Proof.
  repeat (apply draws_bind; [first [apply draws_ensureUUID|apply draws_date_or_now|idtac]|intros]).
  2: apply draws_ret.
  apply draws_map_m. intros row.
  apply draws_bind.
  - destruct (JS.truthy (row_id row)); [apply draws_ret|apply draws_uuidv4].
  - intros iid. apply draws_bind; [apply draws_ensureUUID|intros; apply draws_ret].
Qed.

Lemma fetchOrderById_reads w id r w' :
  Supabase.fetchOrderById id w = (r, w') ->
  (exists o, r = Ok o)
  /\ db w' = db w
  /\ Forall (reads_order (resolve id w)) (new_events w w')
  /\ (length (new_events w w') <= 2)%nat.
Proof.
  assert (Hnone : forall w0 evs,
            db w0 = db w -> log w0 = log w ++ evs ->
            Forall (reads_order (resolve id w)) evs -> (length evs <= 2)%nat ->
            (@Ok (option Order) None, w0) = (r, w') ->
            (exists o, r = Ok o)
            /\ db w' = db w
            /\ Forall (reads_order (resolve id w)) (new_events w w')
            /\ (length (new_events w w') <= 2)%nat).
  { intros w0 evs Hdb Hl Hev Hlen [= <- <-].
    rewrite (new_events_app _ _ _ Hl). eauto. }
  unfold Supabase.fetchOrderById.
  destruct (JS.truthy id); simpl.
  2:{ apply (Hnone w []); [reflexivity|symmetry; apply app_nil_r|constructor|simpl; lia]. }
  unfold bind at 1. destruct (ensureUUID_run id w) as (n & -> & _).
  unfold bind at 1. unfold Query.count_orders. rewrite remote_eq. simpl.
  set (c := mkCall "orders" Select (resolve id w)).
  destruct (hd false (faults w)); simpl.
  { apply (Hnone _ [(c, true)]); [reflexivity|reflexivity| |simpl; lia].
    constructor; [reflexivity|constructor]. }
  destruct (orders (db w) !! resolve id w) as [h|] eqn:Hh; simpl.
  2:{ apply (Hnone _ [(c, false)]); [reflexivity|reflexivity| |simpl; lia].
      constructor; [reflexivity|constructor]. }
  unfold bind at 1. unfold Query.select_order_maybe. rewrite remote_eq. simpl.
  fold c.
  destruct (hd false (tl (faults w))); simpl.
  { apply (Hnone _ [(c, false); (c, true)]); [reflexivity| | |simpl; lia].
    - simpl. rewrite <- app_assoc. reflexivity.
    - repeat constructor. }
  unfold Query.order_with_items. rewrite Hh. simpl.
  match goal with |- ?c0 ?w0 = _ -> _ =>
    destruct (draws_fetch_tail h (Query.items_of (resolve id w) (db w)) (resolve id w) w0)
      as (a & m & E & _) end.
  rewrite E. clear Hnone. intros [= <- <-]. split; [eauto|]. split; [reflexivity|].
  rewrite (new_events_app w _ [(c, false); (c, false)]).
  2:{ simpl. rewrite <- app_assoc. reflexivity. }
  split; [repeat constructor|simpl; lia].
Qed.

(** Extra X1.  [fetchOrderById] never raises and never writes; it makes at most
    two calls, both reads of [orders] under the identifier it resolved. *)
Theorem fetchOrderById_only_reads (w : World) (id : string) :
  let run := Supabase.fetchOrderById id w in
  (exists o, fst run = Ok o)
  /\ db (snd run) = db w
  /\ Forall (reads_order (resolve id w)) (new_events w (snd run))
  /\ (length (new_events w (snd run)) <= 2)%nat.
Proof.
  intros run. destruct run as [r w'] eqn:E. simpl.
  eapply fetchOrderById_reads. exact E.
Qed.

(** ** What an update does to the stock, whatever its outcome *)

Lemma nonneg_refl w : keeps_stock_nonneg w w.
Proof. intros H. exact H. Qed.

Lemma nonneg_trans a b c :
  keeps_stock_nonneg a b -> keeps_stock_nonneg b c -> keeps_stock_nonneg a c.
Proof. unfold keeps_stock_nonneg. auto. Qed.

Lemma nonneg_same w w' :
  products (db w') = products (db w) -> keeps_stock_nonneg w w'.
Proof. intros E H p s. unfold stock_of. rewrite E. apply H. Qed.

Lemma nonneg_update w0 d c err pid v :
  (forall p s, products d !! p = Some s -> 0 <= s) ->
  (forall s, products d !! pid = Some s -> 0 <= v) ->
  stock_nonneg (after_call w0 (with_products (alter (fun _ => v) pid (products d)) d) c err).
Proof.
  intros H Hv p s. rewrite stock_after_update.
  destruct (String.eqb_spec p pid) as [->|Hne]; [|apply H].
  destruct (products d !! pid) as [s0|] eqn:E; simpl; [|discriminate].
  intros [= <-]. eapply Hv. reflexivity.
Qed.

Lemma preserves_for_each_in {A} (R : World -> World -> Prop) (body : A -> M unit) l :
  (forall w, R w w) -> (forall a b c, R a b -> R b c -> R a c) ->
  (forall x, In x l -> preserves R (body x)) -> preserves R (for_each l body).
Proof.
  intros Hr Ht. induction l as [|x l IH]; simpl; intros Hb.
  - apply preserves_ret. exact Hr.
  - apply preserves_bind; [exact Ht|apply Hb; left; reflexivity|].
    intros _. apply IH. intros y Hy. apply Hb. right. exact Hy.
Qed.

Lemma preserves_weaken {A} (R1 R2 : World -> World -> Prop) (c : M A) :
  (forall w w', R1 w w' -> R2 w w') -> preserves R1 c -> preserves R2 c.
Proof. intros H Hc w r w' E. apply H. eapply Hc. exact E. Qed.

Lemma restock_removed_nonneg newItems entry :
  0 <= fst (snd entry) ->
  preserves keeps_stock_nonneg (Supabase.restock_removed newItems entry).
Proof.
  destruct entry as [pid [q iid]]. simpl. intros Hq w r w'.
  unfold Supabase.restock_removed, bind, ret, throw.
  destruct (JS.has pid newItems); [intros [= <- <-] H; exact H|].
  rewrite select_stock_eq. simpl.
  destruct (hd false (faults w)); simpl; [intros [= <- <-] H; exact H|].
  destruct (products (db w) !! pid) as [s|] eqn:Hs; simpl;
    [|intros [= <- <-] H; exact H].
  unfold Query.update_stock. rewrite remote_eq. simpl.
  destruct (hd false (tl (faults w))); simpl; [intros [= <- <-] H; exact H|].
  intros [= <- <-] H. apply nonneg_update; [exact H|].
  intros s0 Hs0. rewrite or_num_zero. specialize (H pid s Hs). lia.
Qed.

Lemma adjust_stock_nonneg originalItems item :
  preserves keeps_stock_nonneg (Supabase.adjust_stock originalItems item).
Proof.
  intros w r w'.
  unfold Supabase.adjust_stock, bind, ret, throw, JS.parseInt.
  rewrite or_num_zero.
  set (diff := quantity item - _).
  assert (Hmove : forall w0 s0,
    (0 < diff -> exists s, products (db w0) !! productId item = Some s /\ diff <= s) ->
    (if negb (Z.eqb diff 0)
     then
       bind (Query.select_stock (productId item))
         (fun r =>
            if errored r then throw (StockGetFailed (productId item))
            else
              bind (Query.update_stock (productId item)
                      (if Z.ltb 0 diff
                       then JS.or_num (default 0 (data r)) 0 - Z.abs diff
                       else JS.or_num (default 0 (data r)) 0 + Z.abs diff))
                   (fun ru =>
                      if errored ru then throw (StockUpdateFailed (productName item))
                      else ret tt))
     else ret tt) w0 = (r, w') ->
    products (db w0) = products (db s0) -> keeps_stock_nonneg s0 w').
  { intros w0 s0 Hchk. unfold bind, ret, throw.
    destruct (Z.eqb_spec diff 0) as [Hz|Hnz]; simpl.
    { intros [= <- <-] E. apply nonneg_same. exact E. }
    rewrite select_stock_eq. simpl.
    destruct (hd false (faults w0)); simpl.
    { intros [= <- <-] E. apply nonneg_same. exact E. }
    destruct (products (db w0) !! productId item) as [s|] eqn:Hs; simpl.
    2:{ intros [= <- <-] E. apply nonneg_same. exact E. }
    unfold Query.update_stock. rewrite remote_eq. simpl.
    destruct (hd false (tl (faults w0))); simpl.
    { intros [= <- <-] E. apply nonneg_same. exact E. }
    intros [= <- <-] E H. apply nonneg_update.
    - intros p s1. rewrite E. apply H.
    - intros s1 Hs1. rewrite or_num_zero.
      assert (0 <= s) by (apply (H (productId item)); unfold stock_of;
                          rewrite <- E; exact Hs).
      destruct (Z.ltb_spec 0 diff) as [Hpos|Hneg]; [|lia].
      destruct (Hchk Hpos) as (s2 & Hs2 & Hle).
      injection Hs2 as <-. lia. }
  destruct (Z.ltb_spec 0 diff) as [Hpos|Hneg].
  - rewrite select_stock_eq. simpl.
    destruct (hd false (faults w)); simpl; [intros [= <- <-] H; exact H|].
    destruct (products (db w) !! productId item) as [s|] eqn:Hs; simpl;
      [|intros [= <- <-] H; exact H].
    destruct (Z.ltb_spec s diff) as [Hlt|Hge]; [intros [= <- <-] H; exact H|].
    intros E. eapply Hmove in E; [exact E| |reflexivity].
    intros _. exists s. split; [exact Hs|exact Hge].
  - intros E. eapply Hmove in E; [exact E| |reflexivity]. intros Hpos. lia.
Qed.

Lemma set_values {V} (P : V -> Prop) k v (m : list (string * V)) :
  P v -> Forall (fun kv => P (snd kv)) m -> Forall (fun kv => P (snd kv)) (JS.set k v m).
Proof.
  intros Hv. induction 1 as [|[k' v'] m Hx Hm IH]; simpl.
  - constructor; [exact Hv|constructor].
  - destruct (String.eqb k k'); constructor; auto.
Qed.

Lemma of_entries_values {V} (P : V -> Prop) (l : list (string * V)) :
  Forall (fun kv => P (snd kv)) l -> Forall (fun kv => P (snd kv)) (JS.of_entries l).
Proof.
  unfold JS.of_entries.
  assert (H : forall acc, Forall (fun kv => P (snd kv)) acc ->
                Forall (fun kv => P (snd kv)) l ->
                Forall (fun kv => P (snd kv))
                       (fold_left (fun m kv => JS.set (fst kv) (snd kv) m) l acc)).
  { induction l as [|kv l IH]; simpl; intros acc Hacc Hl; [exact Hacc|].
    apply Forall_cons in Hl as [Hkv Hl]. apply IH; [|exact Hl].
    apply set_values; assumption. }
  apply H. constructor.
Qed.

Lemma lines_tail_keeps_products uuid l :
  preserves (frame same_products)
    (Query.delete_items uuid ;;;
     rows <- map_m (Supabase.item_row uuid) l ;;
     ri <- Query.insert_items uuid rows ;;
     if errored ri then throw OrderItemsUpdateFailed else
     match data ri with
     | None => throw TypeError
     | Some itemsData =>
         ret (map (fun row => mkItem (row_id row) (product_id row) (product_name row)
                                     (row_quantity row) (row_price row))
                  itemsData)
     end).
Proof.
  apply preserves_bind; [apply frame_trans; apply same_products_trans| |intros _].
  { apply frame_remote; [apply same_products_refl|]. intros d. reflexivity. }
  apply preserves_bind; [apply frame_trans; apply same_products_trans| |intros rows].
  { apply frame_draws; [apply same_products_refl|].
    apply draws_map_m. intros x. apply draws_item_row. }
  apply preserves_bind; [apply frame_trans; apply same_products_trans| |intros ri].
  { apply frame_remote; [apply same_products_refl|]. intros d. simpl.
    destruct (Query.clashes (order_items d) rows); reflexivity. }
  destruct (errored ri); [apply preserves_throw, frame_refl, same_products_refl|].
  destruct (data ri);
    [apply preserves_ret|apply preserves_throw]; apply frame_refl, same_products_refl.
Qed.

Lemma replace_items_nonneg uuid rows l :
  Forall (fun r => 0 <= row_quantity r) rows ->
  preserves keeps_stock_nonneg (Supabase.replace_items uuid rows l).
Proof.
  intros Hrows. unfold Supabase.replace_items.
  apply preserves_bind; [exact nonneg_trans| |intros _].
  { apply preserves_for_each_in; [exact nonneg_refl|exact nonneg_trans|].
    intros entry Hin. apply restock_removed_nonneg.
    assert (Hall : Forall (fun kv : string * Supabase.OrderItemMap => 0 <= fst (snd kv))
                     (JS.of_entries (map Supabase.original_entry rows))).
    { apply (of_entries_values (fun v : Supabase.OrderItemMap => 0 <= fst v)).
      apply List.Forall_forall. intros kv Hkv.
      apply in_map_iff in Hkv as (r & <- & Hr). simpl.
      rewrite or_num_zero. rewrite List.Forall_forall in Hrows. apply Hrows, Hr. }
    rewrite List.Forall_forall in Hall. apply Hall, Hin. }
  apply preserves_bind; [exact nonneg_trans| |intros _].
  { apply preserves_for_each; [exact nonneg_refl|exact nonneg_trans|].
    intros item. apply adjust_stock_nonneg. }
  eapply preserves_weaken; [|apply lines_tail_keeps_products].
  intros w w' (Hk & _). apply nonneg_same. exact Hk.
Qed.

(** Extra X2.  [updateOrder] never drives a stock below zero: when no stock is
    negative and the stored lines of the order hold no negative quantity,
    no stock is negative afterwards, whether the call returns the order,
    returns [null] or raises, and whichever remote calls fail. *)
Theorem updateOrder_keeps_stock_nonneg (w : World) (id : string) (order : OrderPatch) :
  stock_nonneg w ->
  Forall (fun r => 0 <= row_quantity r) (Query.items_of (resolve id w) (db w)) ->
  stock_nonneg (snd (Supabase.updateOrder id order w)).
Proof.
  intros Hw Hrows.
  destruct (updateOrder_cases id order w)
    as [(w0 & -> & Hdb)|(h & cleaned & w4 & _ & _ & _ & _ & Hdb & _ & _ & _ & ->)].
  { simpl. eapply nonneg_same; [|exact Hw]. rewrite Hdb. reflexivity. }
  assert (H4 : stock_nonneg w4).
  { eapply nonneg_same; [|exact Hw]. rewrite Hdb. reflexivity. }
  assert (P : preserves keeps_stock_nonneg
                (bind (Supabase.handle_items (resolve id w)
                         (Some (h, Query.items_of (resolve id w) (db w)))
                         (patch_items order))
                      (Supabase.assemble (Query.patch_header cleaned h) (resolve id w)))).
  { apply preserves_bind; [exact nonneg_trans| |intros its].
    - unfold Supabase.handle_items. destruct (patch_items order) as [l|].
      + apply replace_items_nonneg. exact Hrows.
      + apply preserves_ret. exact nonneg_refl.
    - apply (preserves_weaken (frame same_products)).
      + intros a b (Hk & _). apply nonneg_same. exact Hk.
      + apply frame_draws; [apply same_products_refl|]. apply draws_assemble. }
  match goal with |- stock_nonneg (snd (?c w4)) =>
    destruct (c w4) as [r w'] eqn:E end.
  simpl. exact (P _ _ _ E H4).
Qed.

Lemma updateOrder_keeps_stock_nonneg_witness :
  stock_nonneg (snd (Supabase.updateOrder Sample.O1 Sample.grow
                       (Sample.world (Sample.stocked 1) []))).
Proof.
  apply updateOrder_keeps_stock_nonneg.
  - intros pid s. unfold stock_of. simpl.
    destruct (decide (pid = Sample.P)) as [->|Hne].
    + rewrite lookup_insert_eq. intros [= <-]. lia.
    + rewrite lookup_insert_ne by congruence. rewrite lookup_empty. discriminate.
  - vm_compute. repeat constructor; discriminate.
Defined.

(** Extra X3.  When [updateOrder] returns [null] it has written nothing: the
    tables are as before the call. *)
Theorem updateOrder_null_changes_nothing
  (w w' : World) (id : string) (order : OrderPatch) :
  Supabase.updateOrder id order w = (Ok None, w') -> db w' = db w.
Proof.
  intros E.
  destruct (updateOrder_cases id order w)
    as [(w0 & E0 & Hdb)|(h & cleaned & w4 & _ & _ & _ & _ & _ & _ & _ & _ & E4)].
  - rewrite E0 in E. injection E as <-. exact Hdb.
  - rewrite E4 in E. unfold bind in E.
    destruct (Supabase.handle_items _ _ _ w4) as [[its|e] w5]; [|discriminate].
    destruct (assemble_run (Query.patch_header cleaned h) (resolve id w) its w5)
      as (o & n & Ea & _).
    rewrite Ea in E. discriminate.
Qed.

Lemma updateOrder_null_changes_nothing_witness :
  db (snd (Supabase.updateOrder Sample.O1 Sample.grow (Sample.world (Sample.shop 5) [])))
  = db (Sample.world (Sample.shop 5) []).
Proof.
  apply (updateOrder_null_changes_nothing _ _ Sample.O1 Sample.grow).
  vm_compute. reflexivity.
Defined.

(** Extra X4.  An update that passes no item list never raises, leaves stock
    and stored lines as they are and touches no other order; the order it
    returns has an empty item list, whatever lines are stored. *)
Theorem updateOrder_header_only (w : World) (id : string) (order : OrderPatch) :
  patch_items order = None ->
  let run := Supabase.updateOrder id order w in
  (exists r, fst run = Ok r /\ forall o, r = Some o -> items o = [])
  /\ products (db (snd run)) = products (db w)
  /\ order_items (db (snd run)) = order_items (db w)
  /\ customers (db (snd run)) = customers (db w)
  /\ forall oid, oid <> resolve id w ->
       orders (db (snd run)) !! oid = orders (db w) !! oid.
Proof.
  intros Hnone run. subst run.
  destruct (updateOrder_cases id order w)
    as [(w0 & -> & Hdb)|(h & cleaned & w4 & _ & _ & _ & _ & Hdb & _ & _ & _ & ->)].
  { simpl. rewrite Hdb. split; [|repeat split].
    exists None. split; [reflexivity|discriminate]. }
  unfold bind. rewrite Hnone. simpl.
  destruct (assemble_run (Query.patch_header cleaned h) (resolve id w) [] w4)
    as (o & n & -> & Hitems & _).
  simpl. rewrite Hdb. simpl. split; [|repeat split].
  - exists (Some o). split; [reflexivity|]. intros o' [= <-]. exact Hitems.
  - intros oid Hne. apply lookup_insert_ne. congruence.
Qed.

Lemma updateOrder_header_only_witness :
  let w := Sample.world (Sample.stocked 1) [] in
  let order := mkPatch None (Some "Anna") None None (Some 120) None in
  let run := Supabase.updateOrder Sample.O1 order w in
  (exists r, fst run = Ok r /\ forall o, r = Some o -> items o = [])
  /\ products (db (snd run)) = products (db w)
  /\ order_items (db (snd run)) = order_items (db w)
  /\ customers (db (snd run)) = customers (db w)
  /\ forall oid, oid <> resolve Sample.O1 w ->
       orders (db (snd run)) !! oid = orders (db w) !! oid.
Proof. intros w order. apply updateOrder_header_only. reflexivity. Defined.

(** ** Deleting an order *)

Lemma items_of_others oid uuid (rows : list ItemRow) :
  oid <> uuid ->
  List.filter (fun r => String.eqb (order_ref r) oid)
    (List.filter (fun r => negb (String.eqb (order_ref r) uuid)) rows)
  = List.filter (fun r => String.eqb (order_ref r) oid) rows.
Proof.
  intros Hne. induction rows as [|r rows IH]; simpl; [reflexivity|].
  destruct (String.eqb_spec (order_ref r) uuid) as [E|E]; simpl.
  - destruct (String.eqb_spec (order_ref r) oid) as [E'|E']; [congruence|exact IH].
  - rewrite IH. reflexivity.
Qed.

Lemma items_of_deleted uuid (rows : list ItemRow) :
  List.filter (fun r => String.eqb (order_ref r) uuid)
    (List.filter (fun r => negb (String.eqb (order_ref r) uuid)) rows) = [].
Proof.
  induction rows as [|r rows IH]; simpl; [reflexivity|].
  destruct (String.eqb (order_ref r) uuid) eqn:E; simpl; [exact IH|].
  rewrite E. exact IH.
Qed.

Lemma deleteOrder_cases id w :
  let uuid := resolve id w in
  let lines := mkCall "order_items" Delete uuid in
  let header := mkCall "orders" Delete uuid in
  let gone :=
    with_order_items
      (List.filter (fun r => negb (String.eqb (order_ref r) uuid)) (order_items (db w)))
      (db w) in
  exists w',
    (Supabase.deleteOrder id w
       = (Ok (Supabase.mkOutcome false (Some "Failed to delete order items")), w')
     /\ db w' = db w /\ new_events w w' = [(lines, true)])
    \/ (Supabase.deleteOrder id w
          = (Ok (Supabase.mkOutcome false (Some "Failed to delete order")), w')
        /\ db w' = gone /\ new_events w w' = [(lines, false); (header, true)])
    \/ (Supabase.deleteOrder id w = (Ok (Supabase.mkOutcome true None), w')
        /\ db w' = with_orders (delete uuid (orders (db w))) gone
        /\ new_events w w' = [(lines, false); (header, false)]).
Proof.
  intros uuid lines header gone. subst uuid lines header gone.
  remember (Supabase.deleteOrder id w) as res eqn:E.
  unfold Supabase.deleteOrder in E. unfold bind at 1 in E.
  destruct (ensureUUID_run id w) as (n & E1 & _). rewrite E1 in E.
  unfold bind at 1 in E. unfold Query.delete_items in E. rewrite remote_eq in E.
  simpl in E.
  destruct (hd false (faults w)); simpl in E.
  { eexists. left. split; [exact E|]. split; [reflexivity|].
    apply new_events_app. reflexivity. }
  unfold bind at 1 in E. unfold Query.delete_order in E. rewrite remote_eq in E.
  simpl in E.
  destruct (hd false (tl (faults w))); simpl in E.
  - eexists. right. left. split; [exact E|]. split; [reflexivity|].
    apply new_events_app. simpl. rewrite <- app_assoc. reflexivity.
  - eexists. right. right. split; [exact E|]. split; [reflexivity|].
    apply new_events_app. simpl. rewrite <- app_assoc. reflexivity.
Qed.

(** Extra X5.  A [deleteOrder] that reports success has removed the header and
    the lines of the order and nothing else: other orders and their lines,
    customers and stock are as before (the units of the deleted lines are
    not returned to the stock), and [fetchOrderById] then returns [null]. *)
Theorem deleteOrder_removes_order (w w' : World) (id : string) (out : Supabase.Outcome) :
  UUID.isValidUUID id = true ->
  Supabase.deleteOrder id w = (Ok out, w') ->
  Supabase.success out = true ->
  orders (db w') !! id = None
  /\ Query.items_of id (db w') = []
  /\ (forall oid, oid <> id ->
        orders (db w') !! oid = orders (db w) !! oid
        /\ Query.items_of oid (db w') = Query.items_of oid (db w))
  /\ products (db w') = products (db w)
  /\ customers (db w') = customers (db w)
  /\ fst (Supabase.fetchOrderById id w') = Ok None.
Proof.
  intros Hid E Hs.
  destruct (deleteOrder_cases id w) as (w0 & [(E0 & _)|[(E0 & _)|(E0 & Hdb & _)]]);
    rewrite E0 in E; injection E as <- <-; try discriminate Hs.
  rewrite (resolve_valid _ _ Hid) in Hdb.
  assert (Habs : orders (db w0) !! id = None).
  { rewrite Hdb. simpl. apply lookup_delete_eq. }
  split; [exact Habs|]. split.
  { rewrite Hdb. unfold Query.items_of. simpl. apply items_of_deleted. }
  split.
  { intros oid Hne. rewrite Hdb. unfold Query.items_of. simpl. split.
    - apply lookup_delete_ne. congruence.
    - apply items_of_others. exact Hne. }
  split; [rewrite Hdb; reflexivity|]. split; [rewrite Hdb; reflexivity|].
  destruct (Supabase.fetchOrderById id w0) as [r w1] eqn:Ef.
  apply fetchOrderById_absent in Ef as [-> _]; [reflexivity|].
  rewrite (resolve_valid _ _ Hid). exact Habs.
Qed.

Lemma deleteOrder_removes_order_witness :
  let w := Sample.world (Sample.stocked 1) [] in
  let w' := snd (Supabase.deleteOrder Sample.O1 w) in
  orders (db w') !! Sample.O1 = None
  /\ Query.items_of Sample.O1 (db w') = []
  /\ (forall oid, oid <> Sample.O1 ->
        orders (db w') !! oid = orders (db w) !! oid
        /\ Query.items_of oid (db w') = Query.items_of oid (db w))
  /\ products (db w') = products (db w)
  /\ customers (db w') = customers (db w)
  /\ fst (Supabase.fetchOrderById Sample.O1 w') = Ok None.
Proof.
  intros w w'.
  apply (deleteOrder_removes_order w w' Sample.O1 (Supabase.mkOutcome true None)).
  - vm_compute. reflexivity.
  - vm_compute. reflexivity.
  - reflexivity.
Defined.

(** Extra X6.  A [deleteOrder] that reports failure has kept every header and
    all stock.  Either the deletion of the lines failed and nothing has
    changed, or the deletion of the header failed after the lines of the
    order were removed: the order is then left without lines. *)
Theorem deleteOrder_failure_keeps_header
  (w w' : World) (id : string) (out : Supabase.Outcome) :
  Supabase.deleteOrder id w = (Ok out, w') ->
  Supabase.success out = false ->
  orders (db w') = orders (db w)
  /\ products (db w') = products (db w)
  /\ ((Supabase.reason out = Some "Failed to delete order items" /\ db w' = db w)
      \/ ((Supabase.reason out = Some "Failed to delete order"
           \/ Supabase.reason out
              = Some "Cannot delete order: There are related records that must be deleted first")
          /\ Query.items_of (resolve id w) (db w') = []
          /\ forall oid, oid <> resolve id w ->
               Query.items_of oid (db w') = Query.items_of oid (db w))).
Proof.
  intros E Hs.
  destruct (deleteOrder_cases id w)
    as (w0 & [(E0 & Hdb & _)|[(E0 & Hdb & _)|(E0 & _)]]);
    rewrite E0 in E; injection E as <- <-; try discriminate Hs.
  - rewrite Hdb. split; [reflexivity|]. split; [reflexivity|]. left.
    split; reflexivity.
  - rewrite Hdb. split; [reflexivity|]. split; [reflexivity|]. right.
    split; [left; reflexivity|]. unfold Query.items_of. simpl. split.
    + apply items_of_deleted.
    + intros oid Hne. apply items_of_others. exact Hne.
Qed.

Lemma deleteOrder_failure_keeps_header_witness :
  let w := Sample.world (Sample.stocked 1) [false; true] in
  let w' := snd (Supabase.deleteOrder Sample.O1 w) in
  let out := Supabase.mkOutcome false (Some "Failed to delete order") in
  orders (db w') = orders (db w)
  /\ products (db w') = products (db w)
  /\ ((Supabase.reason out = Some "Failed to delete order items" /\ db w' = db w)
      \/ ((Supabase.reason out = Some "Failed to delete order"
           \/ Supabase.reason out
              = Some "Cannot delete order: There are related records that must be deleted first")
          /\ Query.items_of (resolve Sample.O1 w) (db w') = []
          /\ forall oid, oid <> resolve Sample.O1 w ->
               Query.items_of oid (db w') = Query.items_of oid (db w))).
Proof.
  intros w w' out.
  apply (deleteOrder_failure_keeps_header w w' Sample.O1 out).
  - vm_compute. reflexivity.
  - reflexivity.
Defined.

(** ** Submissions *)

Lemma handleSubmit_reports f w r w' :
  OrderNew.handleSubmit f w = (r, w') ->
  exists s, r = Ok s /\ (turned_down s -> w' = w).
Proof.
  unfold OrderNew.handleSubmit.
  destruct (isSubmitting f); [intros [= <- <-]; eexists; split; reflexivity|].
  destruct (JS.truthy (form_customerId f)); simpl;
    [|intros [= <- <-]; eexists; split; reflexivity].
  destruct (JS.truthy (form_employeeId f)); simpl;
    [|intros [= <- <-]; eexists; split; reflexivity].
  destruct (lacks_products (form_items f));
    [intros [= <- <-]; eexists; split; reflexivity|].
  destruct (find_customer _ _) as [customer|];
    [|intros [= <- <-]; eexists; split; [reflexivity|intros []]].
  destruct (find_employee _ _) as [employee|];
    [|intros [= <- <-]; eexists; split; [reflexivity|intros []]].
  unfold try_catch, bind, ret.
  destruct (Supabase.createOrder _ w) as [[[o|]|e] w1];
    intros [= <- <-]; eexists; (split; [reflexivity|intros []]).
Qed.

Lemma confirmUpdate_reports id f w r w' :
  OrderEdit.confirmUpdate id f w = (r, w') ->
  exists s, r = Ok s /\ (turned_down s -> w' = w).
Proof.
  unfold OrderEdit.confirmUpdate.
  destruct (negb (JS.truthy id) || isSubmitting f);
    [intros [= <- <-]; eexists; split; reflexivity|].
  destruct (JS.truthy (form_customerId f)); simpl;
    [|intros [= <- <-]; eexists; split; reflexivity].
  destruct (JS.truthy (form_employeeId f)); simpl;
    [|intros [= <- <-]; eexists; split; reflexivity].
  destruct (lacks_products (form_items f));
    [intros [= <- <-]; eexists; split; reflexivity|].
  destruct (find_customer _ _) as [customer|];
    [|intros [= <- <-]; eexists; split; reflexivity].
  destruct (find_employee _ _) as [employee|];
    [|intros [= <- <-]; eexists; split; reflexivity].
  unfold try_catch, bind, ret.
  destruct (Supabase.updateOrder _ _ w) as [[[o|]|e] w1];
    intros [= <- <-]; eexists; (split; [reflexivity|intros []]).
Qed.

(** Extra X7.  Submitting either order form never raises, whatever the store
    does: every error of [createOrder] and [updateOrder] ends in a toast.
    A submission the form turns down has made no remote call and no draw:
    the world is as before. *)
Theorem forms_never_raise (w : World) (f : Form) (id : string) :
  let new := OrderNew.handleSubmit f w in
  let edit := OrderEdit.confirmUpdate id f w in
  (exists s, fst new = Ok s /\ (turned_down s -> snd new = w))
  /\ (exists s, fst edit = Ok s /\ (turned_down s -> snd edit = w)).
Proof.
  intros new edit. subst new edit. split.
  - destruct (OrderNew.handleSubmit f w) as [r w'] eqn:E.
    apply handleSubmit_reports in E. exact E.
  - destruct (OrderEdit.confirmUpdate id f w) as [r w'] eqn:E.
    apply confirmUpdate_reports in E. exact E.
Qed.

(** ** Customers *)

Lemma whole_seconds_idem t :
  JS.whole_seconds (JS.whole_seconds t) = JS.whole_seconds t.
Proof.
  unfold JS.whole_seconds. f_equal.
  rewrite Z.mul_comm. apply Z.div_mul. lia.
Qed.

Lemma fetchCustomerById_found id w row :
  UUID.isValidUUID id = true -> calm 2 w ->
  customers (db w) !! id = Some row ->
  exists created w',
    Supabase.fetchCustomerById id w
    = (Ok (Some (mkCustomer id (c_name row) (c_email row) (c_phone row)
                            (c_address row) created)), w')
    /\ db w' = db w
    /\ (forall t, c_created_at row = Some t -> created = JS.whole_seconds t).
Proof.
  intros Hid Hcalm Hrow. unfold Supabase.fetchCustomerById, Supabase.isValidUUID.
  rewrite (valid_truthy _ Hid), Hid. simpl.
  unfold bind at 1. unfold Query.count_customers. rewrite remote_eq.
  rewrite (calm_hd _ _ Hcalm). simpl. rewrite Hrow. simpl.
  unfold bind at 1. unfold Query.select_customer. rewrite remote_eq. simpl.
  assert (H2 : hd false (tl (faults w)) = false).
  { apply (calm_hd 0 (after_call w (db w) (mkCall "customers" Select id) false)).
    apply calm_after_call. exact Hcalm. }
  rewrite H2. simpl. rewrite Hrow. simpl. unfold bind.
  match goal with |- context [Supabase.date_or_now ?s ?w0] =>
    destruct (draws_date_or_now s w0) as (t & n & E & _);
    pose proof E as E' end.
  rewrite E. eexists t, _. split; [reflexivity|]. split; [reflexivity|].
  intros t0 Ht. rewrite Ht in E'. unfold Supabase.date_or_now, ret in E'.
  injection E' as <- _. reflexivity.
Qed.

(** Extra X8.  A customer just created is the customer [fetchCustomerById]
    then returns for its identifier: same fields and the same creation
    time, which is the time of creation cut to whole seconds.  (The
    generator returns a well-formed identifier that is not yet in use, and
    the three remote calls go through.) *)
Theorem createCustomer_then_fetch (w : World) (customer : CustomerDraft) :
  calm 3 w ->
  UUID.isValidUUID (next_id w) = true ->
  customers (db w) !! next_id w = None ->
  exists c w1 w2,
    Customers.createCustomer customer w = (Ok (Some c), w1)
    /\ c = mkCustomer (next_id w) (new_name customer) (new_email customer)
                      (new_phone customer) (new_address customer)
                      (JS.whole_seconds (clock w (S (ticks w))))
    /\ Supabase.fetchCustomerById (cust_id c) w1 = (Ok (Some c), w2).
Proof.
  intros Hcalm Hid Hfree.
  remember (Customers.createCustomer customer w) as res eqn:E.
  unfold Customers.createCustomer in E. unfold bind at 1 in E.
  unfold uuidv4 at 1 in E. fold (next_id w) in E.
  unfold bind at 1 in E. unfold now at 1 in E. simpl in E.
  unfold bind at 1 in E. unfold Lookup.insert_customer in E.
  rewrite remote_eq in E. simpl in E.
  rewrite (calm_hd _ _ Hcalm) in E. simpl in E. rewrite Hfree in E. simpl in E.
  unfold ret in E. rewrite whole_seconds_idem in E.
  match type of E with _ = (_, ?w0) => set (w1 := w0) in * end.
  assert (Hrow : customers (db w1) !! next_id w
                 = Some (mkCustomerRow (new_name customer) (new_email customer)
                           (new_phone customer) (new_address customer)
                           (Some (JS.whole_seconds (clock w (S (ticks w))))))).
  { subst w1. simpl. apply lookup_insert_eq. }
  assert (Hc1 : calm 2 w1).
  { subst w1. apply calm_after_call.
    unfold calm in *. simpl. exact Hcalm. }
  destruct (fetchCustomerById_found (next_id w) w1 _ Hid Hc1 Hrow)
    as (created & w2 & Ef & _ & Hcreated).
  rewrite (Hcreated _ eq_refl), whole_seconds_idem in Ef. simpl in Ef.
  eexists _, w1, w2. split; [exact E|]. split; [reflexivity|]. exact Ef.
Qed.

Lemma createCustomer_then_fetch_witness :
  let w := Sample.world (Sample.shop 5) [] in
  exists c w1 w2,
    Customers.createCustomer (mkCustomerDraft "Dan" "dan@example.com" "555-0101" "2 Main St") w
    = (Ok (Some c), w1)
    /\ c = mkCustomer (next_id w) "Dan" "dan@example.com" "555-0101" "2 Main St"
                      (JS.whole_seconds (clock w (S (ticks w))))
    /\ Supabase.fetchCustomerById (cust_id c) w1 = (Ok (Some c), w2).
Proof.
  intros w.
  apply (createCustomer_then_fetch w
           (mkCustomerDraft "Dan" "dan@example.com" "555-0101" "2 Main St")).
  - unfold calm. simpl. constructor.
  - vm_compute. reflexivity.
  - vm_compute. reflexivity.
Defined.

(** Extra X9.  After [updateCustomer] on a stored customer, [fetchCustomerById]
    returns the fields of the patch, and the former value of every field
    the patch leaves out.  The customer [updateCustomer] itself returns
    carries the same fields, and the time of the call as its creation
    time. *)
Theorem updateCustomer_then_fetch
  (w : World) (id : string) (patch : CustomerPatch) (row : CustomerRow) :
  calm 3 w ->
  UUID.isValidUUID id = true ->
  customers (db w) !! id = Some row ->
  exists created w1 w2,
    Supabase.updateCustomer id patch w
    = (Ok (Some (mkCustomer id (default (c_name row) (cpatch_name patch))
                            (default (c_email row) (cpatch_email patch))
                            (default (c_phone row) (cpatch_phone patch))
                            (default (c_address row) (cpatch_address patch))
                            (clock w (ticks w)))), w1)
    /\ Supabase.fetchCustomerById id w1
       = (Ok (Some (mkCustomer id (default (c_name row) (cpatch_name patch))
                               (default (c_email row) (cpatch_email patch))
                               (default (c_phone row) (cpatch_phone patch))
                               (default (c_address row) (cpatch_address patch))
                               created)), w2)
    /\ forall other, other <> id ->
         customers (db w2) !! other = customers (db w) !! other.
Proof.
  intros Hcalm Hid Hrow.
  remember (Supabase.updateCustomer id patch w) as res eqn:E.
  unfold Supabase.updateCustomer in E. unfold bind at 1 in E.
  rewrite (ensureUUID_valid _ w Hid) in E.
  unfold bind at 1 in E. unfold Query.update_customer in E.
  rewrite remote_eq in E. simpl in E.
  rewrite (calm_hd _ _ Hcalm) in E. simpl in E. rewrite Hrow in E. simpl in E.
  unfold bind, now, ret in E. simpl in E.
  match type of E with _ = (_, ?w0) => set (w1 := w0) in * end.
  assert (Hrow1 : customers (db w1) !! id = Some (Query.patch_customer patch row)).
  { subst w1. simpl. apply lookup_insert_eq. }
  assert (Hc1 : calm 2 w1).
  { subst w1. unfold calm in *. simpl. 
    destruct (faults w) as [|b f]; simpl in *; [constructor|].
    inversion Hcalm; assumption. }
  destruct (fetchCustomerById_found id w1 _ Hid Hc1 Hrow1)
    as (created & w2 & Ef & Hdb & _).
  exists created, w1, w2. split; [exact E|]. split; [exact Ef|].
  intros other Hne. rewrite Hdb. subst w1. simpl.
  apply lookup_insert_ne. congruence.
Qed.

Lemma updateCustomer_then_fetch_witness :
  let w := Sample.world (Sample.shop 5) [] in
  let patch := mkCustomerPatch (Some "Anna") None None None in
  exists created w1 w2,
    Supabase.updateCustomer Sample.C patch w
    = (Ok (Some (mkCustomer Sample.C "Anna" "ann@example.com" "555-0100" "1 Main St"
                            (clock w (ticks w)))), w1)
    /\ Supabase.fetchCustomerById Sample.C w1
       = (Ok (Some (mkCustomer Sample.C "Anna" "ann@example.com" "555-0100" "1 Main St"
                               created)), w2)
    /\ forall other, other <> Sample.C ->
         customers (db w2) !! other = customers (db w) !! other.
Proof.
  intros w patch.
  apply (updateCustomer_then_fetch w Sample.C patch Sample.ann).
  - unfold calm. simpl. constructor.
  - vm_compute. reflexivity.
  - vm_compute. reflexivity.
Defined.

(** Extra X10.  After a [deleteCustomer] that reports success,
    [fetchCustomerById] returns [null] for the identifier and every other
    customer is as before. *)
Theorem deleteCustomer_then_fetch (w w' : World) (id : string) :
  UUID.isValidUUID id = true ->
  Supabase.deleteCustomer id w = (Ok true, w') ->
  fst (Supabase.fetchCustomerById id w') = Ok None
  /\ customers (db w') !! id = None
  /\ forall other, other <> id ->
       customers (db w') !! other = customers (db w) !! other.
Proof.
  intros Hid. unfold Supabase.deleteCustomer. unfold bind at 1.
  rewrite (ensureUUID_valid _ w Hid).
  unfold bind. unfold Query.delete_customer. rewrite remote_eq. simpl.
  destruct (hd false (faults w)); simpl; [discriminate|].
  intros [= <-]. simpl.
  assert (Habs : delete id (customers (db w)) !! id = None) by apply lookup_delete_eq.
  split; [|split; [exact Habs|]].
  - unfold Supabase.fetchCustomerById, Supabase.isValidUUID.
    rewrite (valid_truthy _ Hid), Hid. simpl.
    unfold bind. unfold Query.count_customers. rewrite remote_eq. simpl.
    destruct (hd false (tl (faults w))); simpl; [reflexivity|].
    rewrite Habs. reflexivity.
  - intros other Hne. apply lookup_delete_ne. congruence.
Qed.

Lemma deleteCustomer_then_fetch_witness :
  let w := Sample.world (Sample.shop 5) [] in
  let w' := snd (Supabase.deleteCustomer Sample.C w) in
  fst (Supabase.fetchCustomerById Sample.C w') = Ok None
  /\ customers (db w') !! Sample.C = None
  /\ forall other, other <> Sample.C ->
       customers (db w') !! other = customers (db w) !! other.
Proof.
  intros w w'. apply (deleteCustomer_then_fetch w w' Sample.C).
  - vm_compute. reflexivity.
  - vm_compute. reflexivity.
Defined.

(** ** Figures after a new order *)

Lemma take_stock_keeps newId item w w' :
  Supabase.take_stock newId item w = (Ok tt, w') ->
  orders (db w') = orders (db w) /\ customers (db w') = customers (db w).
Proof.
  unfold Supabase.take_stock, bind, Query.decrease_stock. rewrite remote_eq. simpl.
  unfold throw, ret.
  destruct (hd false (faults w)); simpl.
  { unfold Query.delete_order. rewrite remote_eq. discriminate. }
  destruct (products (db w) !! productId item); simpl.
  - intros [= <-]. split; reflexivity.
  - unfold Query.delete_order. rewrite remote_eq. discriminate.
Qed.

Lemma after_header_some newId l w4 o w' :
  Supabase.after_header newId l w4 = (Ok (Some o), w') ->
  orders (db w') = orders (db w4) /\ customers (db w') = customers (db w4).
Proof.
  intros E.
  destruct (after_header_cases newId l w4)
    as [[_ Eh]|(_ & rows & n & _ & [(err & w5 & Eh & _)|(w6 & Hdb6 & _ & _ & _ & Eh)])];
    rewrite Eh in E.
  - apply read_back_run in E as (-> & _). split; reflexivity.
  - discriminate.
  - unfold bind in E.
    destruct (for_each _ _ w6) as [[[]|e] w7] eqn:El; [|discriminate].
    apply (for_each_ok (fun a b => orders (db b) = orders (db a)
                                   /\ customers (db b) = customers (db a))) in El.
    + destruct El as [Ho Hc]. apply read_back_run in E as (-> & _).
      rewrite Ho, Hc, Hdb6. split; reflexivity.
    + intros w0. split; reflexivity.
    + intros a b c [H1 H2] [H3 H4]. split; congruence.
    + intros x w0 w0'. apply take_stock_keeps.
Qed.

Lemma createOrder_stored order w o w' :
  Supabase.createOrder order w = (Ok (Some o), w') ->
  exists hdr,
    orders (db w) !! next_id w = None
    /\ orders (db w') = <[next_id w := hdr]> (orders (db w))
    /\ customers (db w') = customers (db w)
    /\ row_total hdr = JS.or_num (draft_total order) 0
    /\ (UUID.isValidUUID (draft_customerId order) = true ->
        customer_id hdr = draft_customerId order)
    /\ (UUID.isValidUUID (draft_employeeId order) = true ->
        employee_id hdr = draft_employeeId order)
    /\ customer_name hdr = draft_customerName order
    /\ employee_name hdr = draft_employeeName order
    /\ (UUID.isValidUUID (draft_customerId order) = false ->
        customer_id hdr = entropy w (S (ticks w))).
Proof.
  intros E.
  unfold Supabase.createOrder in E. unfold bind at 1 in E.
  destruct (check_loop (draft_items order) w)
    as (r & w1 & E1 & Hdb & Ht & He & Hc & _ & _).
  rewrite E1 in E. destruct r as [[]|e]; [|discriminate].
  unfold bind at 1 in E. unfold uuidv4 at 1 in E. rewrite He, Ht in E.
  fold (next_id w) in E.
  unfold bind at 1 in E.
  match type of E with context [Supabase.ensureUUID _ ?w0] =>
    destruct (ensureUUID_run (draft_customerId order) w0) as (n2 & E2 & _) end.
  rewrite E2 in E. unfold bind at 1 in E.
  match type of E with context [Supabase.ensureUUID _ ?w0] =>
    destruct (ensureUUID_run (draft_employeeId order) w0) as (n3 & E3 & _) end.
  rewrite E3 in E. unfold bind at 1 in E. unfold now at 1 in E.
  unfold bind at 1 in E. unfold Query.insert_order in E. rewrite remote_eq in E.
  simpl in E. rewrite Hdb in E.
  destruct (hd false (faults w1)); simpl in E; [discriminate|].
  destruct (orders (db w) !! next_id w) as [h|] eqn:Hh; simpl in E; [discriminate|].
  apply after_header_some in E as [Ho Hcu]. simpl in Ho, Hcu.
  eexists. split; [reflexivity|]. split; [exact Ho|]. split; [exact Hcu|].
  split; [reflexivity|]. simpl.
  split; [intros Hv; apply resolve_valid; exact Hv|].
  split; [intros Hv; apply resolve_valid; exact Hv|].
  split; [reflexivity|]. split; [reflexivity|].
  intros Hv. unfold resolve. rewrite Hv. simpl. rewrite He. reflexivity.
Qed.

Lemma filter_length_perm {A} (f : A -> bool) (l l' : list A) :
  l ≡ₚ l' -> length (List.filter f l) = length (List.filter f l').
Proof.
  induction 1 as [|x l l' _ IH|x y l|l1 l2 l3 _ IH1 _ IH2]; simpl.
  - reflexivity.
  - destruct (f x); simpl; congruence.
  - destruct (f x), (f y); reflexivity.
  - congruence.
Qed.

Lemma filter_totals_perm (f : OrderRow -> bool) (l l' : list OrderRow) :
  l ≡ₚ l' -> map row_total (List.filter f l) ≡ₚ map row_total (List.filter f l').
Proof.
  induction 1 as [|x l l' _ IH|x y l|l1 l2 l3 _ IH1 _ IH2]; simpl.
  - reflexivity.
  - destruct (f x); simpl; [constructor|]; exact IH.
  - destruct (f x), (f y); simpl; try reflexivity. apply perm_swap.
  - etransitivity; eassumption.
Qed.

Lemma getCustomerPurchaseCount_run id w row :
  UUID.isValidUUID id = true -> calm 2 w ->
  customers (db w) !! id = Some row ->
  fst (Metrics.getCustomerPurchaseCount id w)
  = Ok (length (Lookup.orders_of_customer id (db w))).
Proof.
  intros Hid Hcalm Hrow.
  unfold Metrics.getCustomerPurchaseCount, Supabase.isValidUUID.
  rewrite (valid_truthy _ Hid), Hid. simpl.
  unfold bind at 1. unfold Query.count_customers. rewrite remote_eq.
  rewrite (calm_hd _ _ Hcalm). simpl. rewrite Hrow. simpl.
  unfold bind. unfold Lookup.count_orders_of_customer. rewrite remote_eq. simpl.
  assert (H2 : hd false (tl (faults w)) = false).
  { apply (calm_hd 0 (after_call w (db w) (mkCall "customers" Select id) false)).
    apply calm_after_call. exact Hcalm. }
  rewrite H2. reflexivity.
Qed.

Lemma getEmployeeSalesMetrics_run id w :
  calm 2 w ->
  fst (Metrics.getEmployeeSalesMetrics id w)
  = Ok (Metrics.mkSalesMetrics
          (length (Lookup.orders_of_employee id (db w)))
          (Metrics.totalAmount (map row_total (Lookup.orders_of_employee id (db w))))).
Proof.
  intros Hcalm. unfold Metrics.getEmployeeSalesMetrics.
  unfold bind at 1. unfold Lookup.count_orders_of_employee. rewrite remote_eq.
  rewrite (calm_hd _ _ Hcalm). simpl.
  unfold bind. unfold Lookup.select_totals_of_employee. rewrite remote_eq. simpl.
  assert (H2 : hd false (tl (faults w)) = false).
  { apply (calm_hd 0 (after_call w (db w) (mkCall "orders" Select id) false)).
    apply calm_after_call. exact Hcalm. }
  rewrite H2. reflexivity.
Qed.

(** Extra X11.  A new order counts: after a [createOrder] that returns the
    order, [getCustomerPurchaseCount] of its customer is one more than
    before (the customer is stored under a well-formed identifier, and the
    two remote calls of each count go through). *)
Theorem purchase_count_after_createOrder
  (w w1 : World) (order : OrderDraft) (o : Order) (row : CustomerRow) :
  Supabase.createOrder order w = (Ok (Some o), w1) ->
  UUID.isValidUUID (draft_customerId order) = true ->
  customers (db w) !! draft_customerId order = Some row ->
  calm 2 w -> calm 2 w1 ->
  exists n,
    fst (Metrics.getCustomerPurchaseCount (draft_customerId order) w) = Ok n
    /\ fst (Metrics.getCustomerPurchaseCount (draft_customerId order) w1) = Ok (S n).
Proof.
  intros E Hid Hrow Hc Hc1.
  apply createOrder_stored in E as (hdr & Hfree & Ho & Hcu & _ & Hcid & _).
  eexists. split; [apply (getCustomerPurchaseCount_run _ _ row Hid Hc Hrow)|].
  rewrite (getCustomerPurchaseCount_run _ w1 row Hid Hc1) by (rewrite Hcu; exact Hrow).
  f_equal. unfold Lookup.orders_of_customer.
  assert (Hp : Lookup.header_rows (db w1) ≡ₚ hdr :: Lookup.header_rows (db w)).
  { unfold Lookup.header_rows. rewrite Ho.
    rewrite (map_to_list_insert _ _ _ Hfree). reflexivity. }
  rewrite (filter_length_perm _ _ _ Hp). simpl.
  rewrite (Hcid Hid), String.eqb_refl. reflexivity.
Qed.

(** Extra X12.  A new order enters the sales figures of its employee: after a
    [createOrder] that returns the order, [getEmployeeSalesMetrics] counts
    one order more, and the totals it adds up are those it added up before
    (the totals of the employee's stored orders) together with the total
    the order was stored with.  Each amount is the sum of the totals taken
    from the first row read to the last; the rows may come in another order
    the second time (a well-formed employee identifier, and the two remote
    calls of each reading go through). *)
Theorem sales_metrics_after_createOrder
  (w w1 : World) (order : OrderDraft) (o : Order) :
  Supabase.createOrder order w = (Ok (Some o), w1) ->
  UUID.isValidUUID (draft_employeeId order) = true ->
  calm 2 w -> calm 2 w1 ->
  exists totals totals' : list Z,
    totals = map row_total (Lookup.orders_of_employee (draft_employeeId order) (db w))
    /\ totals' ≡ₚ JS.or_num (draft_total order) 0 :: totals
    /\ fst (Metrics.getEmployeeSalesMetrics (draft_employeeId order) w)
       = Ok (Metrics.mkSalesMetrics (length totals) (fold_left Z.add totals 0))
    /\ fst (Metrics.getEmployeeSalesMetrics (draft_employeeId order) w1)
       = Ok (Metrics.mkSalesMetrics (S (length totals)) (fold_left Z.add totals' 0)).
Proof.
  intros E Hid Hc Hc1.
  apply createOrder_stored in E as (hdr & Hfree & Ho & _ & Htot & _ & Heid & _).
  assert (Hp : Lookup.header_rows (db w1) ≡ₚ hdr :: Lookup.header_rows (db w)).
  { unfold Lookup.header_rows. rewrite Ho.
    rewrite (map_to_list_insert _ _ _ Hfree). reflexivity. }
  assert (Hq : map row_total (Lookup.orders_of_employee (draft_employeeId order) (db w1))
               ≡ₚ JS.or_num (draft_total order) 0
                  :: map row_total (Lookup.orders_of_employee (draft_employeeId order) (db w))).
  { unfold Lookup.orders_of_employee.
    rewrite (filter_totals_perm _ _ _ Hp). simpl.
    rewrite (Heid Hid), String.eqb_refl. simpl. rewrite Htot. reflexivity. }
  eexists _, _. split; [reflexivity|]. split; [exact Hq|].
  split.
  - rewrite (getEmployeeSalesMetrics_run _ _ Hc). rewrite length_map. reflexivity.
  - rewrite (getEmployeeSalesMetrics_run _ w1 Hc1).
    pose proof (Permutation_length Hq) as Hl. simpl in Hl.
    rewrite !length_map in Hl. rewrite length_map, Hl. reflexivity.
Qed.

Lemma createOrder_sample_run :
  exists o, Supabase.createOrder Sample.five (Sample.world (Sample.shop 5) [])
            = (Ok (Some o),
               snd (Supabase.createOrder Sample.five (Sample.world (Sample.shop 5) []))).
Proof.
  destruct (Supabase.createOrder Sample.five (Sample.world (Sample.shop 5) []))
    as [r w0] eqn:E.
  assert (Hr : exists o, r = Ok (Some o)).
  { replace r with (fst (Supabase.createOrder Sample.five (Sample.world (Sample.shop 5) [])))
      by (rewrite E; reflexivity).
    vm_compute. eexists. reflexivity. }
  destruct Hr as (o & ->). exists o. reflexivity.
Defined.

Lemma purchase_count_after_createOrder_witness :
  let w := Sample.world (Sample.shop 5) [] in
  let w1 := snd (Supabase.createOrder Sample.five w) in
  exists n,
    fst (Metrics.getCustomerPurchaseCount Sample.C w) = Ok n
    /\ fst (Metrics.getCustomerPurchaseCount Sample.C w1) = Ok (S n).
Proof.
  intros w w1. destruct createOrder_sample_run as (o & E).
  apply (purchase_count_after_createOrder w w1 Sample.five o Sample.ann E).
  - vm_compute. reflexivity.
  - vm_compute. reflexivity.
  - unfold calm. simpl. constructor.
  - unfold calm. replace (faults w1) with (@nil bool) by (vm_compute; reflexivity).
    constructor.
Defined.

Lemma sales_metrics_after_createOrder_witness :
  let w := Sample.world (Sample.shop 5) [] in
  let w1 := snd (Supabase.createOrder Sample.five w) in
  exists totals totals' : list Z,
    totals = map row_total (Lookup.orders_of_employee Sample.E (db w))
    /\ totals' ≡ₚ JS.or_num 250 0 :: totals
    /\ fst (Metrics.getEmployeeSalesMetrics Sample.E w)
       = Ok (Metrics.mkSalesMetrics (length totals) (fold_left Z.add totals 0))
    /\ fst (Metrics.getEmployeeSalesMetrics Sample.E w1)
       = Ok (Metrics.mkSalesMetrics (S (length totals)) (fold_left Z.add totals' 0)).
Proof.
  intros w w1. destruct createOrder_sample_run as (o & E).
  apply (sales_metrics_after_createOrder w w1 Sample.five o E).
  - vm_compute. reflexivity.
  - unfold calm. simpl. constructor.
  - unfold calm. replace (faults w1) with (@nil bool) by (vm_compute; reflexivity).
    constructor.
Defined.

(** ** Products that are gone, customers that are unknown *)

(** Extra X13.  A product [deleteProduct] has removed can no longer be ordered:
    [createOrder] raises for every request with a line for it and writes
    nothing. *)
Theorem deleted_product_cannot_be_ordered
  (w w' : World) (pid : string) (order : OrderDraft) (item : OrderItem) :
  UUID.isValidUUID pid = true ->
  Products.deleteProduct pid w = (Ok true, w') ->
  In item (draft_items order) -> productId item = pid ->
  stock_of w' pid = None
  /\ exists e w2, Supabase.createOrder order w' = (Throw e, w2) /\ db w2 = db w'.
Proof.
  intros Hid E Hin Hp.
  assert (Hgone : stock_of w' pid = None).
  { revert E. unfold Products.deleteProduct. unfold bind at 1.
    rewrite (ensureUUID_valid _ w Hid).
    unfold bind. unfold Lookup.delete_product. rewrite remote_eq. simpl.
    destruct (hd false (faults w)); simpl; [discriminate|].
    intros [= <-]. unfold stock_of. simpl. apply lookup_delete_eq. }
  split; [exact Hgone|].
  unfold Supabase.createOrder. unfold bind at 1.
  destruct (check_loop (draft_items order) w')
    as (r & w1 & -> & Hdb & _ & _ & _ & _ & Hok).
  destruct r as [[]|e].
  - exfalso. specialize (Hok eq_refl). rewrite List.Forall_forall in Hok.
    destruct (Hok item Hin) as (s & Hs & _). rewrite Hp in Hs.
    unfold stock_of in Hgone. rewrite Hgone in Hs. discriminate.
  - exists e, w1. split; [reflexivity|exact Hdb].
Qed.

Lemma deleted_product_cannot_be_ordered_witness :
  let w := Sample.world (Sample.shop 5) [] in
  let w' := snd (Products.deleteProduct Sample.P w) in
  stock_of w' Sample.P = None
  /\ exists e w2, Supabase.createOrder Sample.five w' = (Throw e, w2) /\ db w2 = db w'.
Proof.
  intros w w'.
  apply (deleted_product_cannot_be_ordered w w' Sample.P Sample.five
           (Sample.phone Sample.L1 5)).
  - vm_compute. reflexivity.
  - vm_compute. reflexivity.
  - left. reflexivity.
  - reflexivity.
Defined.

(** Extra X14.  [getCustomerPurchaseCount] never raises and never writes, and
    it is [0] for an identifier that is empty, malformed or not among the
    customers, also when orders are stored under it. *)
Theorem purchase_count_of_unknown_customer (w : World) (id : string) :
  let run := Metrics.getCustomerPurchaseCount id w in
  (exists n, fst run = Ok n)
  /\ db (snd run) = db w
  /\ (UUID.isValidUUID id = false \/ customers (db w) !! id = None -> fst run = Ok 0%nat).
Proof.
  intros run.
  assert (H : exists n w', Metrics.getCustomerPurchaseCount id w = (Ok n, w')
                /\ db w' = db w
                /\ (UUID.isValidUUID id = false \/ customers (db w) !! id = None ->
                    n = 0%nat)).
  { unfold Metrics.getCustomerPurchaseCount, Supabase.isValidUUID.
    destruct (JS.truthy id); simpl;
      [|eexists _, _; split; [reflexivity|split; reflexivity]].
    destruct (UUID.isValidUUID id) eqn:Hid; simpl;
      [|eexists _, _; split; [reflexivity|split; reflexivity]].
    unfold bind at 1. unfold Query.count_customers. rewrite remote_eq. simpl.
    destruct (hd false (faults w)); simpl;
      [eexists _, _; split; [reflexivity|split; reflexivity]|].
    destruct (customers (db w) !! id) as [row|] eqn:Hrow; simpl;
      [|eexists _, _; split; [reflexivity|split; reflexivity]].
    unfold bind. unfold Lookup.count_orders_of_customer. rewrite remote_eq. simpl.
    destruct (hd false (tl (faults w))); simpl;
      (eexists _, _; split; [reflexivity|split; [reflexivity|]]);
      intros [Hbad|Hbad]; discriminate. }
  destruct H as (n & w' & E & Hdb & Hz). subst run. rewrite E. simpl.
  split; [eauto|]. split; [exact Hdb|]. intros Hc. rewrite (Hz Hc). reflexivity.
Qed.

(** Extra X15.  [getEmployeeSalesMetrics] never raises and never writes, and
    its two figures go together: either they are the number of the orders
    stored for the employee and the sum of their totals, or, when a read
    failed, both are zero. *)
Theorem sales_metrics_all_or_nothing (w : World) (employeeId : string) :
  let run := Metrics.getEmployeeSalesMetrics employeeId w in
  let stored := Lookup.orders_of_employee employeeId (db w) in
  db (snd run) = db w
  /\ (fst run = Ok (Metrics.mkSalesMetrics (length stored)
                                           (Metrics.totalAmount (map row_total stored)))
      \/ (fst run = Ok (Metrics.mkSalesMetrics 0 0)
          /\ Exists (fun ev => snd ev = true) (new_events w (snd run)))).
Proof.
  intros run stored. subst stored.
  assert (H : exists m w', Metrics.getEmployeeSalesMetrics employeeId w = (Ok m, w')
      /\ db w' = db w
      /\ (m = Metrics.mkSalesMetrics
                (length (Lookup.orders_of_employee employeeId (db w)))
                (Metrics.totalAmount
                   (map row_total (Lookup.orders_of_employee employeeId (db w))))
          \/ (m = Metrics.mkSalesMetrics 0 0
              /\ Exists (fun ev => snd ev = true) (new_events w w')))).
  { unfold Metrics.getEmployeeSalesMetrics.
    unfold bind at 1. unfold Lookup.count_orders_of_employee. rewrite remote_eq. simpl.
    destruct (hd false (faults w)); simpl.
    { eexists _, _. split; [reflexivity|]. split; [reflexivity|]. right.
      split; [reflexivity|]. erewrite new_events_app by reflexivity.
      constructor. reflexivity. }
    unfold bind. unfold Lookup.select_totals_of_employee. rewrite remote_eq. simpl.
    destruct (hd false (tl (faults w))); simpl.
    - eexists _, _. split; [reflexivity|]. split; [reflexivity|]. right.
      split; [reflexivity|].
      erewrite new_events_app by (simpl; rewrite <- app_assoc; reflexivity).
      apply Exists_cons_tl. constructor. reflexivity.
    - eexists _, _. split; [reflexivity|]. split; [reflexivity|]. left. reflexivity. }
  destruct H as (m & w' & E & Hdb & Hm). subst run. rewrite E. simpl.
  split; [exact Hdb|]. destruct Hm as [->|[-> Hev]]; [left|right; split]; auto.
Qed.

(** ** The customer form *)

Lemma createCustomer_cases formData w :
  (exists w1, Customers.createCustomer formData w = (Ok None, w1) /\ db w1 = db w)
  \/ (exists c w1 stamp,
        Customers.createCustomer formData w = (Ok (Some c), w1)
        /\ customers (db w) !! next_id w = None
        /\ customers (db w1) !! next_id w
           = Some (mkCustomerRow (new_name formData) (new_email formData)
                                 (new_phone formData) (new_address formData)
                                 (Some stamp))).
Proof.
  remember (Customers.createCustomer formData w) as res eqn:E.
  unfold Customers.createCustomer in E. unfold bind at 1 in E.
  unfold uuidv4 at 1 in E. fold (next_id w) in E.
  unfold bind at 1 in E. unfold now at 1 in E. simpl in E.
  unfold bind at 1 in E. unfold Lookup.insert_customer in E.
  rewrite remote_eq in E. simpl in E.
  destruct (hd false (faults w)); simpl in E.
  { left. eexists. split; [exact E|reflexivity]. }
  destruct (customers (db w) !! next_id w) as [taken|] eqn:Hfree; simpl in E.
  { left. eexists. split; [exact E|reflexivity]. }
  right. eexists _, _, _. split; [exact E|]. split; [reflexivity|].
  simpl. apply lookup_insert_eq.
Qed.

Lemma handleSubmit_customer formData local w :
  exists desc local' w',
    CustomerNew.handleSubmit formData local w = (Ok (desc, local'), w')
    /\ ((desc = "The customer has been successfully created."
         /\ local' = local
         /\ exists id row,
              customers (db w) !! id = None
              /\ customers (db w') !! id = Some row
              /\ c_name row = new_name formData /\ c_email row = new_email formData
              /\ c_phone row = new_phone formData
              /\ c_address row = new_address formData)
        \/ (desc = "The customer has been successfully created (local only)."
            /\ db w' = db w
            /\ exists c, local' = c :: local /\ filled_from formData c)).
Proof.
  unfold CustomerNew.handleSubmit, try_catch. unfold bind at 1.
  destruct (createCustomer_cases formData w)
    as [(w1 & -> & Hdb)|(c & w1 & stamp & -> & Hfree & Hrow)].
  - unfold bind, uuidv4, now, ret. simpl.
    eexists _, _, _. split; [reflexivity|]. right.
    split; [reflexivity|]. split; [exact Hdb|].
    eexists. split; [reflexivity|]. repeat split.
  - unfold ret. eexists _, _, _. split; [reflexivity|]. left.
    split; [reflexivity|]. split; [reflexivity|].
    eexists (next_id w), _. split; [exact Hfree|]. split; [exact Hrow|].
    repeat split.
Qed.

(** Extra X16.  The customer form reports a created customer on every
    submission and never shows its error toast.  Either the customer was
    inserted in the store under a new identifier, or the insertion failed,
    the store is as before, and the customer was only put in front of the
    local list, still with the toast of a creation. *)
Theorem customer_form_always_reports_created
  (w : World) (formData : CustomerDraft) (local : list Customer) :
  let run := CustomerNew.handleSubmit formData local w in
  exists desc local',
    fst run = Ok (desc, local')
    /\ ((desc = "The customer has been successfully created."
         /\ local' = local
         /\ exists id row,
              customers (db w) !! id = None
              /\ customers (db (snd run)) !! id = Some row
              /\ c_name row = new_name formData /\ c_email row = new_email formData
              /\ c_phone row = new_phone formData
              /\ c_address row = new_address formData)
        \/ (desc = "The customer has been successfully created (local only)."
            /\ db (snd run) = db w
            /\ exists c, local' = c :: local /\ filled_from formData c)).
Proof.
  intros run. subst run.
  destruct (handleSubmit_customer formData local w) as (desc & local' & w' & E & H).
  rewrite E. simpl. exists desc, local'. split; [reflexivity|exact H].
Qed.

(** ** Reading a new order *)

Lemma createOrder_reads_back order w o w1 :
  Supabase.createOrder order w = (Ok (Some o), w1) ->
  exists w7, Supabase.read_back (next_id w) w7 = (Ok (Some o), w1).
Proof.
  intros E.
  destruct (createOrder_cases order w)
    as [(e & w0 & E0 & _)|[(w0 & E0 & _)|(hdr & w4 & _ & _ & _ & _ & _ & _ & E4)]];
    [rewrite E0 in E; discriminate..|].
  rewrite E4 in E.
  destruct (after_header_cases (next_id w) (draft_items order) w4)
    as [[_ Eh]|(_ & rows & n & _ & [(err & w5 & Eh & _)|(w6 & _ & _ & _ & _ & Eh)])];
    rewrite Eh in E.
  - exists w4. exact E.
  - discriminate.
  - unfold bind in E.
    destruct (for_each _ _ w6) as [[[]|e] w7]; [|discriminate].
    exists w7. exact E.
Qed.

Lemma read_lines rows w :
  Forall canonical_line rows ->
  map_m
    (fun row =>
       bind (Supabase.ensureUUID (product_id row)) (fun pid =>
       ret (mkItem (row_id row) pid (product_name row)
                   (JS.or_num (JS.parseInt (row_quantity row)) 1)
                   (JS.or_num (JS.parseFloat (row_price row)) 0))))
    rows w
  = (Ok (map (fun row => mkItem (row_id row) (product_id row) (product_name row)
                                (JS.or_num (row_quantity row) 1)
                                (JS.or_num (row_price row) 0)) rows), w).
Proof.
  induction 1 as [|r rows [_ Hpid] _ IH]; simpl; [reflexivity|].
  unfold bind at 1. unfold bind at 1. rewrite (ensureUUID_valid _ _ Hpid). simpl.
  unfold bind at 1. rewrite IH. reflexivity.
Qed.

Lemma read_back_canonical newId w o w' :
  UUID.isValidUUID newId = true ->
  canonical_order newId (db w) ->
  Supabase.read_back newId w = (Ok (Some o), w') ->
  exists h,
    orders (db w) !! newId = Some h
    /\ db w' = db w
    /\ o = mkOrder newId (customer_id h) (JS.or_str (customer_name h) "")
                   (employee_id h) (JS.or_str (employee_name h) "") None
                   (map (fun row => mkItem (row_id row) (product_id row) (product_name row)
                                           (JS.or_num (row_quantity row) 1)
                                           (JS.or_num (row_price row) 0))
                        (Query.items_of newId (db w)))
                   (JS.or_num (row_total h) 0)
                   (default 0 (created_at h)).
Proof.
  intros Hid Hcan. unfold Supabase.read_back. unfold bind at 1.
  unfold Query.select_order. rewrite remote_eq. simpl.
  destruct (hd false (faults w)); simpl; [discriminate|].
  unfold Query.order_with_items.
  destruct (orders (db w) !! newId) as [h|] eqn:Hh; simpl; [|discriminate].
  destruct (Hcan h Hh) as ((Hc & He & Hs) & Hlines).
  unfold bind at 1. rewrite (ensureUUID_valid _ _ Hid).
  unfold bind at 1. rewrite (ensureUUID_valid _ _ Hc).
  unfold bind at 1. rewrite (ensureUUID_valid _ _ He).
  unfold bind at 1. rewrite (read_lines _ _ Hlines).
  destruct (created_at h) as [t|] eqn:Hst; [|contradiction].
  unfold bind, Supabase.date_or_now, ret.
  intros [= <- <-]. exists h. split; [reflexivity|]. split; [reflexivity|].
  rewrite Hst. reflexivity.
Qed.

Lemma fetchOrderById_found id w h :
  UUID.isValidUUID id = true ->
  canonical_order id (db w) ->
  calm 2 w ->
  orders (db w) !! id = Some h ->
  exists w', Supabase.fetchOrderById id w
             = (Ok (Some (shown id h (Query.items_of id (db w)))), w').
Proof.
  intros Hid Hcan Hcalm Hh.
  destruct (Supabase.fetchOrderById id w) as [r w'] eqn:E. exists w'.
  revert E. unfold Supabase.fetchOrderById.
  rewrite (valid_truthy _ Hid). simpl.
  unfold bind at 1. rewrite (ensureUUID_valid _ _ Hid).
  unfold bind at 1. unfold Query.count_orders. rewrite remote_eq.
  rewrite (calm_hd _ _ Hcalm). simpl. rewrite Hh. simpl.
  unfold bind at 1. unfold Query.select_order_maybe. rewrite remote_eq. simpl.
  assert (H2 : hd false (tl (faults w)) = false).
  { apply (calm_hd 0 (after_call w (db w) (mkCall "orders" Select id) false)).
    apply calm_after_call. exact Hcalm. }
  rewrite H2. simpl.
  unfold Query.order_with_items. rewrite Hh. simpl.
  destruct (Hcan h Hh) as ((Hc & He & Hs) & Hlines).
  unfold bind at 1. rewrite (ensureUUID_valid _ _ Hid).
  unfold bind at 1. rewrite (ensureUUID_valid _ _ Hc).
  unfold bind at 1. rewrite (ensureUUID_valid _ _ He).
  unfold bind at 1. rewrite (shown_lines _ _ Hlines).
  destruct (created_at h) as [t|] eqn:Hst; [|contradiction].
  unfold bind, Supabase.date_or_now, ret.
  intros [= <- <-]. unfold shown. rewrite Hst. reflexivity.
Qed.

(** Extra X17.  The order [createOrder] returns is the order a following
    [fetchOrderById] returns for its identifier: same identifiers, names,
    total, creation time and lines, but for the status a read adds and the
    name a read gives to unnamed products.  (The generated identifier is
    well formed, the stored header and lines need no substitute, and the two
    reads go through.) *)
Theorem createOrder_then_fetch (w w1 : World) (order : OrderDraft) (o : Order) :
  Supabase.createOrder order w = (Ok (Some o), w1) ->
  UUID.isValidUUID (next_id w) = true ->
  canonical_order (next_id w) (db w1) ->
  calm 2 w1 ->
  exists o' w2,
    Supabase.fetchOrderById (order_id o) w1 = (Ok (Some o'), w2)
    /\ same_order_read o o'.
Proof.
  intros E Hid Hcan Hcalm.
  apply createOrder_reads_back in E as (w7 & E).
  pose proof (read_back_run _ _ _ _ E) as (Hdb & _).
  rewrite Hdb in Hcan.
  destruct (read_back_canonical _ _ _ _ Hid Hcan E) as (h & Hh & _ & ->).
  simpl. rewrite <- Hdb in Hcan, Hh.
  destruct (fetchOrderById_found _ _ h Hid Hcan Hcalm Hh) as (w2 & Ef).
  eexists _, w2. split; [exact Ef|].
  rewrite Hdb. unfold same_order_read, shown. simpl.
  repeat (split; [reflexivity|]).
  rewrite map_map. reflexivity.
Qed.

Lemma createOrder_then_fetch_witness :
  let w := Sample.world (Sample.shop 5) [] in
  let w1 := snd (Supabase.createOrder Sample.five w) in
  exists o o' w2,
    fst (Supabase.createOrder Sample.five w) = Ok (Some o)
    /\ Supabase.fetchOrderById (order_id o) w1 = (Ok (Some o'), w2)
    /\ same_order_read o o'.
Proof.
  intros w w1. destruct createOrder_sample_run as (o & E).
  assert (Hh1 : orders (db w1) !! Sample.uuid_of 0
                = Some (mkOrderRow Sample.C "Ann" Sample.E "Bob" "" 250 (Some 1001)))
    by (vm_compute; reflexivity).
  assert (Hi1 : Query.items_of (Sample.uuid_of 0) (db w1)
                = [mkItemRow Sample.L1 (Sample.uuid_of 0) Sample.P "Phone" 5 50])
    by (vm_compute; reflexivity).
  destruct (createOrder_then_fetch w w1 Sample.five o E) as (o' & w2 & Ef & Hsame).
  - vm_compute. reflexivity.
  - intros h Hh. change (next_id w) with (Sample.uuid_of 0) in *.
    rewrite Hh1 in Hh. injection Hh as <-. rewrite Hi1.
    split; [repeat split; try (vm_compute; reflexivity); discriminate|].
    repeat constructor.
  - unfold calm. replace (faults w1) with (@nil bool) by (vm_compute; reflexivity).
    constructor.
  - exists o, o', w2. split; [|split; assumption].
    change w with (Sample.world (Sample.shop 5) []). rewrite E. reflexivity.
Defined.

(** ** Identifiers and headers written *)

(** Extra X18.  [createOrder] does not turn down a malformed customer
    identifier: the order is stored with the customer name passed, under a
    customer identifier drawn from the generator, which is not the one
    passed. *)
Theorem createOrder_substitutes_malformed_customer
  (w w1 : World) (order : OrderDraft) (o : Order) :
  Supabase.createOrder order w = (Ok (Some o), w1) ->
  UUID.isValidUUID (draft_customerId order) = false ->
  exists hdr,
    orders (db w1) !! next_id w = Some hdr
    /\ customer_name hdr = draft_customerName order
    /\ customer_id hdr = entropy w (S (ticks w))
    /\ (UUID.isValidUUID (entropy w (S (ticks w))) = true ->
        customer_id hdr <> draft_customerId order).
Proof.
  intros E Hbad.
  apply createOrder_stored in E as (hdr & _ & Ho & _ & _ & _ & _ & Hn & _ & Hc).
  exists hdr. rewrite Ho. split; [apply lookup_insert_eq|].
  split; [exact Hn|]. split; [exact (Hc Hbad)|].
  intros Hgood Heq. rewrite (Hc Hbad) in Heq. rewrite Heq in Hgood. congruence.
Qed.

Lemma createOrder_substitutes_malformed_customer_witness :
  let w := Sample.world (Sample.shop 5) [] in
  let order := mkDraft "ann" "Ann" Sample.E "Bob" [Sample.phone Sample.L1 5] 250 in
  let w1 := snd (Supabase.createOrder order w) in
  exists hdr,
    orders (db w1) !! next_id w = Some hdr
    /\ customer_name hdr = "Ann"
    /\ customer_id hdr = entropy w (S (ticks w))
    /\ (UUID.isValidUUID (entropy w (S (ticks w))) = true -> customer_id hdr <> "ann").
Proof.
  intros w order w1.
  assert (H : exists o, Supabase.createOrder order w = (Ok (Some o), w1)).
  { subst w1. destruct (Supabase.createOrder order w) as [r w0] eqn:E.
    assert (Hr : exists o, r = Ok (Some o)).
    { replace r with (fst (Supabase.createOrder order w)) by (rewrite E; reflexivity).
      vm_compute. eexists. reflexivity. }
    destruct Hr as (o & ->). exists o. reflexivity. }
  destruct H as (o & E).
  apply (createOrder_substitutes_malformed_customer w w1 order o E).
  vm_compute. reflexivity.
Defined.

Lemma same_headers_refl d : same_headers d d.
Proof. reflexivity. Qed.

Lemma same_headers_trans a b c : same_headers a b -> same_headers b c -> same_headers a c.
Proof. unfold same_headers. congruence. Qed.

Lemma frame_weaken (K1 K2 : Database -> Database -> Prop) w w' :
  (forall d d', K1 d d' -> K2 d d') -> frame K1 w w' -> frame K2 w w'.
Proof. intros H (Hk & Hrest). split; [apply H; exact Hk|exact Hrest]. Qed.

Lemma replace_items_keeps_headers uuid rows l :
  preserves (frame same_headers) (Supabase.replace_items uuid rows l).
Proof.
  assert (Hw : forall w w', frame same_orders w w' -> frame same_headers w w').
  { intros w w'. apply frame_weaken. intros d d' (H & _). exact H. }
  unfold Supabase.replace_items.
  apply preserves_bind; [apply frame_trans; exact same_headers_trans| |intros _].
  { apply preserves_for_each;
      [apply frame_refl; exact same_headers_refl
      |apply frame_trans; exact same_headers_trans|].
    intros entry. eapply preserves_weaken; [exact Hw|].
    apply restock_removed_keeps_orders. }
  apply preserves_bind; [apply frame_trans; exact same_headers_trans| |intros _].
  { apply preserves_for_each;
      [apply frame_refl; exact same_headers_refl
      |apply frame_trans; exact same_headers_trans|].
    intros item. eapply preserves_weaken; [exact Hw|].
    apply adjust_stock_keeps_orders. }
  apply preserves_bind; [apply frame_trans; exact same_headers_trans| |intros _].
  { apply frame_remote; [exact same_headers_refl|]. intros d. reflexivity. }
  apply preserves_bind; [apply frame_trans; exact same_headers_trans| |intros new_rows].
  { apply frame_draws; [exact same_headers_refl|].
    apply draws_map_m. intros x. apply draws_item_row. }
  apply preserves_bind; [apply frame_trans; exact same_headers_trans| |intros ri].
  { apply frame_remote; [exact same_headers_refl|]. intros d. simpl.
    destruct (Query.clashes (order_items d) new_rows); reflexivity. }
  destruct (errored ri); [apply preserves_throw, frame_refl, same_headers_refl|].
  destruct (data ri);
    [apply preserves_ret|apply preserves_throw]; apply frame_refl, same_headers_refl.
Qed.



(** ** Figures after a deletion *)

(** Extra X20.  A deleted order no longer counts: after a [deleteOrder] that
    reports success, [getCustomerPurchaseCount] of the customer of the order
    is one less than before (well-formed identifiers, the customer is
    stored, and the two reads of each count go through). *)
Theorem purchase_count_after_deleteOrder
  (w w1 : World) (id : string) (out : Supabase.Outcome) (h : OrderRow) (row : CustomerRow) :
  Supabase.deleteOrder id w = (Ok out, w1) ->
  Supabase.success out = true ->
  UUID.isValidUUID id = true ->
  orders (db w) !! id = Some h ->
  UUID.isValidUUID (customer_id h) = true ->
  customers (db w) !! customer_id h = Some row ->
  calm 2 w -> calm 2 w1 ->
  exists n,
    fst (Metrics.getCustomerPurchaseCount (customer_id h) w) = Ok (S n)
    /\ fst (Metrics.getCustomerPurchaseCount (customer_id h) w1) = Ok n.
Proof.
  intros E Hs Hid Hh Hcid Hrow Hc Hc1.
  destruct (deleteOrder_cases id w) as (w0 & [(E0 & _)|[(E0 & _)|(E0 & Hdb & _)]]);
    rewrite E0 in E; injection E as <- <-; try discriminate Hs.
  rewrite (resolve_valid _ _ Hid) in Hdb.
  exists (length (Lookup.orders_of_customer (customer_id h) (db w0))).
  rewrite (getCustomerPurchaseCount_run _ w row Hcid Hc Hrow).
  rewrite (getCustomerPurchaseCount_run _ w0 row Hcid Hc1)
    by (rewrite Hdb; exact Hrow).
  split; [|reflexivity]. f_equal. unfold Lookup.orders_of_customer.
  assert (Hp : Lookup.header_rows (db w) ≡ₚ h :: Lookup.header_rows (db w0)).
  { unfold Lookup.header_rows. rewrite Hdb. simpl.
    rewrite <- (map_to_list_delete _ _ _ Hh). reflexivity. }
  rewrite (filter_length_perm _ _ _ Hp). simpl.
  rewrite String.eqb_refl. reflexivity.
Qed.

Lemma purchase_count_after_deleteOrder_witness :
  let w := Sample.world (Sample.stocked 1) [] in
  let w1 := snd (Supabase.deleteOrder Sample.O1 w) in
  exists n,
    fst (Metrics.getCustomerPurchaseCount (customer_id Sample.header) w) = Ok (S n)
    /\ fst (Metrics.getCustomerPurchaseCount (customer_id Sample.header) w1) = Ok n.
Proof.
  intros w w1.
  apply (purchase_count_after_deleteOrder w w1 Sample.O1 (Supabase.mkOutcome true None)
           Sample.header Sample.ann).
  - vm_compute. reflexivity.
  - reflexivity.
  - vm_compute. reflexivity.
  - vm_compute. reflexivity.
  - vm_compute. reflexivity.
  - vm_compute. reflexivity.
  - unfold calm. simpl. constructor.
  - unfold calm. replace (faults w1) with (@nil bool) by (vm_compute; reflexivity).
    constructor.
Defined.

(** ** The identifier format *)

Lemma one_inv p s r : UUID.one p s = Some r -> exists c, s = String c r /\ p c = true.
Proof.
  destruct s as [|c s]; simpl; [discriminate|].
  destruct (p c) eqn:E; [|discriminate]. intros [= <-]. eauto.
Qed.

Lemma rep_inv n p : forall s r,
  UUID.rep n p s = Some r ->
  exists pre, s = (pre +:+ r)%string /\ String.length pre = n.
Proof.
  induction n as [|n IH]; simpl; intros s r.
  - intros [= <-]. exists EmptyString. split; reflexivity.
  - destruct (UUID.one p s) as [s'|] eqn:E; [|discriminate].
    intros H. apply one_inv in E as (c & -> & _).
    destruct (IH _ _ H) as (pre & -> & <-).
    exists (String c pre). split; reflexivity.
Qed.

Lemma lit_inv c s r : UUID.lit c s = Some r -> s = String c r.
Proof.
  unfold UUID.lit. intros H. apply one_inv in H as (c' & -> & E).
  apply Ascii.eqb_eq in E. subst. reflexivity.
Qed.

Lemma andThen_inv f g s r :
  UUID.andThen f g s = Some r -> exists m, f s = Some m /\ g m = Some r.
Proof. unfold UUID.andThen. destruct (f s); [eauto|discriminate]. Qed.

Ltac exactly_long p :=
  repeat (destruct p as [|? p]; simpl in *; try discriminate).



(** ** Revenue figures *)

Lemma totalRevenue_from (l : list Order) : forall acc,
  fold_left (fun sum order => sum + total order) l acc
  = acc + Dashboard.totalRevenue l.
Proof.
  induction l as [|o l IH]; intros acc.
  - unfold Dashboard.totalRevenue. simpl. lia.
  - simpl. rewrite IH. unfold Dashboard.totalRevenue at 2. simpl.
    rewrite IH. lia.
Qed.

Lemma totalRevenue_cons o l :
  Dashboard.totalRevenue (o :: l) = total o + Dashboard.totalRevenue l.
Proof.
  unfold Dashboard.totalRevenue at 1. simpl. rewrite totalRevenue_from. lia.
Qed.

Lemma totalRevenue_nil : Dashboard.totalRevenue [] = 0.
Proof. reflexivity. Qed.

Section Buckets.
Variables startOfDay endOfDay startOfWeek startOfMonth : Z.
Hypothesis month_week : startOfMonth <= startOfWeek.
Hypothesis week_day : startOfWeek <= startOfDay.
Hypothesis day_end : startOfDay <= endOfDay.

(** What the loop adds to frames that hold any figures *)
Lemma place_all (orders : list Order) : forall acc,
  let tf := fold_left (Revenue.place startOfDay endOfDay startOfWeek startOfMonth)
                      orders acc in
  (Revenue.revenue (Revenue.today tf)
     = Revenue.revenue (Revenue.today acc)
       + Dashboard.totalRevenue (dated startOfDay endOfDay orders)
   /\ Revenue.orderCount (Revenue.today tf)
      = (Revenue.orderCount (Revenue.today acc)
         + length (dated startOfDay endOfDay orders))%nat)
  /\ (Revenue.revenue (Revenue.thisWeek tf)
        = Revenue.revenue (Revenue.thisWeek acc)
          + Dashboard.totalRevenue (dated startOfWeek endOfDay orders)
      /\ Revenue.orderCount (Revenue.thisWeek tf)
         = (Revenue.orderCount (Revenue.thisWeek acc)
            + length (dated startOfWeek endOfDay orders))%nat)
  /\ (Revenue.revenue (Revenue.thisMonth tf)
        = Revenue.revenue (Revenue.thisMonth acc)
          + Dashboard.totalRevenue (dated startOfMonth endOfDay orders)
      /\ Revenue.orderCount (Revenue.thisMonth tf)
         = (Revenue.orderCount (Revenue.thisMonth acc)
            + length (dated startOfMonth endOfDay orders))%nat)
  /\ (Revenue.revenue (Revenue.older tf)
        = Revenue.revenue (Revenue.older acc)
          + Dashboard.totalRevenue (dated_before startOfMonth orders)
      /\ Revenue.orderCount (Revenue.older tf)
         = (Revenue.orderCount (Revenue.older acc)
            + length (dated_before startOfMonth orders))%nat).
Proof.
  induction orders as [|o l IH]; intros acc; simpl.
  - rewrite !totalRevenue_nil. repeat split; lia.
  - specialize (IH (Revenue.place startOfDay endOfDay startOfWeek startOfMonth acc o)).
    simpl in IH.
    destruct IH as ((T1 & T2) & (W1 & W2) & (M1 & M2) & (O1 & O2)).
    rewrite T1, T2, W1, W2, M1, M2, O1, O2. clear T1 T2 W1 W2 M1 M2 O1 O2.
    unfold dated, dated_before, Revenue.place. simpl.
    destruct (Z.leb_spec startOfDay (createdAt o));
      destruct (Z.leb_spec (createdAt o) endOfDay);
      destruct (Z.leb_spec startOfWeek (createdAt o));
      destruct (Z.leb_spec startOfMonth (createdAt o));
      destruct (Z.ltb_spec (createdAt o) startOfDay);
      destruct (Z.ltb_spec (createdAt o) startOfWeek);
      destruct (Z.ltb_spec (createdAt o) startOfMonth);
      try lia; simpl; rewrite ?totalRevenue_cons; simpl;
      repeat split; lia.
Qed.
End Buckets.

(** Extra X22.  With the four instants in their calendar order, each frame of
    the revenue hook holds the revenue and the number of the orders of one
    interval of dates: the day, the week and the month each run to the end
    of the day, [older] holds what is before the month.  An order dated
    after the end of the day is in no frame. *)
Theorem timeFrames_are_intervals
  (startOfDay endOfDay startOfWeek startOfMonth : Z) (orders : list Order) :
  startOfMonth <= startOfWeek -> startOfWeek <= startOfDay ->
  startOfDay <= endOfDay ->
  let tf := Revenue.timeFrames startOfDay endOfDay startOfWeek startOfMonth orders in
  figures_of (dated startOfDay endOfDay orders) (Revenue.today tf)
  /\ figures_of (dated startOfWeek endOfDay orders) (Revenue.thisWeek tf)
  /\ figures_of (dated startOfMonth endOfDay orders) (Revenue.thisMonth tf)
  /\ figures_of (dated_before startOfMonth orders) (Revenue.older tf).
Proof.
  intros H1 H2 H3 tf. subst tf. unfold Revenue.timeFrames, figures_of.
  pose proof (place_all startOfDay endOfDay startOfWeek startOfMonth H1 H2 H3
                orders Revenue.initial) as H.
  simpl in H. exact H.
Qed.

Lemma timeFrames_are_intervals_witness :
  let o t amount := mkOrder Sample.O1 Sample.C "Ann" Sample.E "Bob" None [] amount t in
  let orders := [o 1741500000000 10; o 1741000000000 20; o 1740800000000 30;
                 o 1740000000000 40; o 1741600000000 50] in
  let tf := Revenue.timeFrames 1741478400000 1741564799999 1740960000000
                               1740787200000 orders in
  figures_of (dated 1741478400000 1741564799999 orders) (Revenue.today tf)
  /\ figures_of (dated 1740960000000 1741564799999 orders) (Revenue.thisWeek tf)
  /\ figures_of (dated 1740787200000 1741564799999 orders) (Revenue.thisMonth tf)
  /\ figures_of (dated_before 1740787200000 orders) (Revenue.older tf).
Proof. intros o orders. apply timeFrames_are_intervals; lia. Defined.

(** Extra X23.  The revenue hook counts every order dated up to the end of the
    reference day once in the month or in the older frame: the two counts
    and the number of the orders dated after the end of the day add up to
    the number of orders.  (Nothing is said of the revenues: sums of amounts
    taken over other groupings need not agree to the last digit.) *)
Theorem frames_count_orders_once
  (startOfDay endOfDay startOfWeek startOfMonth : Z) (orders : list Order) :
  startOfMonth <= startOfWeek -> startOfWeek <= startOfDay ->
  startOfDay <= endOfDay ->
  let tf := Revenue.timeFrames startOfDay endOfDay startOfWeek startOfMonth orders in
  (Revenue.orderCount (Revenue.thisMonth tf) + Revenue.orderCount (Revenue.older tf)
   + length (dated_after endOfDay orders))%nat = length orders.
Proof.
  intros H1 H2 H3 tf. subst tf. unfold Revenue.timeFrames.
  pose proof (place_all startOfDay endOfDay startOfWeek startOfMonth H1 H2 H3
                orders Revenue.initial) as (_ & _ & (_ & M2) & (_ & O2)).
  simpl in M2, O2. rewrite M2, O2.
  clear M2 O2. unfold dated, dated_before, dated_after.
  induction orders as [|o l IH]; [reflexivity|]. simpl.
  destruct (Z.leb_spec startOfMonth (createdAt o));
    destruct (Z.leb_spec (createdAt o) endOfDay);
    destruct (Z.ltb_spec (createdAt o) startOfMonth);
    destruct (Z.ltb_spec endOfDay (createdAt o)); simpl; lia.
Qed.

Lemma frames_count_orders_once_witness :
  let o t amount := mkOrder Sample.O1 Sample.C "Ann" Sample.E "Bob" None [] amount t in
  let orders := [o 1741500000000 10; o 1740000000000 40; o 1741600000000 50] in
  let tf := Revenue.timeFrames 1741478400000 1741564799999 1740960000000
                               1740787200000 orders in
  (Revenue.orderCount (Revenue.thisMonth tf) + Revenue.orderCount (Revenue.older tf)
   + length (dated_after 1741564799999 orders))%nat = length orders.
Proof. intros o orders. apply frames_count_orders_once; lia. Defined.

(** ** The dashboard *)

Lemma insert_recent_perm o s : Dashboard.insert_recent o s ≡ₚ o :: s.
Proof.
  induction s as [|x s IH]; simpl; [reflexivity|].
  destruct (Z.leb (createdAt x) (createdAt o)); [reflexivity|].
  rewrite IH. apply Permutation_swap.
Qed.

Lemma sort_recent_perm l : Dashboard.sort_recent l ≡ₚ l.
Proof.
  induction l as [|o l IH]; simpl; [reflexivity|].
  rewrite insert_recent_perm, IH. reflexivity.
Qed.

Lemma recent_cons x s :
  Forall (fun y => createdAt y <= createdAt x) s -> most_recent_first s ->
  most_recent_first (x :: s).
Proof.
  intros Hx Hs i j a b Hij Ha Hb.
  destruct j as [|j]; [lia|]. simpl in Hb.
  destruct i as [|i]; simpl in Ha.
  - injection Ha as <-. rewrite List.Forall_forall in Hx. apply Hx.
    apply list_elem_of_In. eapply list_elem_of_lookup_2. exact Hb.
  - eapply (Hs i j); [lia|exact Ha|exact Hb].
Qed.

Lemma recent_tail x s :
  most_recent_first (x :: s) ->
  Forall (fun y => createdAt y <= createdAt x) s /\ most_recent_first s.
Proof.
  intros H. split.
  - apply List.Forall_forall. intros y Hy.
    apply list_elem_of_In, list_elem_of_lookup_1 in Hy as [j Hj].
    eapply (H 0%nat (S j)); [lia|reflexivity|exact Hj].
  - intros i j a b Hij Ha Hb. eapply (H (S i) (S j)); [lia|exact Ha|exact Hb].
Qed.

Lemma insert_recent_sorted o s :
  most_recent_first s -> most_recent_first (Dashboard.insert_recent o s).
Proof.
  induction s as [|x s IH]; simpl; intros H.
  - apply recent_cons; [constructor|exact H].
  - apply recent_tail in H as H'. destruct H' as [Hx Hs].
    destruct (Z.leb_spec (createdAt x) (createdAt o)).
    + apply recent_cons; [|exact H].
      constructor; [assumption|].
      eapply Forall_impl; [exact Hx|]. simpl. intros y Hy. lia.
    + apply recent_cons; [|exact (IH Hs)].
      rewrite insert_recent_perm. constructor; [lia|exact Hx].
Qed.

Lemma sort_recent_sorted l : most_recent_first (Dashboard.sort_recent l).
Proof.
  induction l as [|o l IH]; simpl.
  - intros i j a b _ Ha. rewrite lookup_nil in Ha. discriminate.
  - apply insert_recent_sorted, IH.
Qed.

(** Extra X24.  The dashboard shows the five most recent orders, most recent
    first: all orders when there are fewer, and no order left out is more
    recent than one shown. *)
Theorem recentOrders_most_recent (orders : list Order) :
  let shown := Dashboard.recentOrders orders in
  length shown = Nat.min 5 (length orders)
  /\ most_recent_first shown
  /\ exists rest, shown ++ rest ≡ₚ orders
       /\ forall o x, In o shown -> In x rest -> createdAt x <= createdAt o.
Proof.
  intros shown. subst shown. unfold Dashboard.recentOrders.
  pose proof (sort_recent_sorted orders) as Hs.
  pose proof (sort_recent_perm orders) as Hp.
  split; [|split].
  - rewrite length_take, (Permutation_length Hp). reflexivity.
  - intros i j a b Hij Ha Hb.
    apply lookup_take_Some in Ha as [Ha _]. apply lookup_take_Some in Hb as [Hb _].
    eapply Hs; eassumption.
  - exists (drop 5 (Dashboard.sort_recent orders)). split.
    + rewrite take_drop. exact Hp.
    + intros o x Ho Hx.
      apply list_elem_of_In, list_elem_of_lookup_1 in Ho as [i Hi].
      apply list_elem_of_In, list_elem_of_lookup_1 in Hx as [j Hj].
      apply lookup_take_Some in Hi as [Hi Hlt]. rewrite lookup_drop in Hj.
      eapply (Hs i (5 + j)%nat); [lia|exact Hi|exact Hj].
Qed.

(** ** Line editing *)

Lemma find_line id (l : list OrderItem) item :
  NoDup (map item_id l) -> In item l -> item_id item = id ->
  List.find (fun i => String.eqb (item_id i) id) l = Some item.
Proof.
  induction l as [|x l IH]; simpl; intros Hn Hin Hid; [contradiction|].
  apply NoDup_cons in Hn as [Hx Hn].
  destruct (String.eqb_spec (item_id x) id) as [E|E].
  - destruct Hin as [->|Hin]; [reflexivity|].
    exfalso. apply Hx. rewrite E, <- Hid.
    apply list_elem_of_In, in_map, Hin.
  - destruct Hin as [->|Hin]; [contradiction|]. apply IH; assumption.
Qed.

Lemma find_product_id productId products p :
  find_product productId products = Some p -> prod_id p = productId.
Proof.
  unfold find_product. intros H. apply find_some in H as [_ H].
  apply String.eqb_eq in H. exact H.
Qed.

(** Extra X25.  In the new-order form, lines that hold between one unit and the
    stock of their product still do after any handler of the lines has
    run: adding a line, removing one, choosing a product, setting a
    quantity (lines with distinct identifiers, an integer quantity). *)
Theorem new_form_keeps_quantities_within_stock
  (products : list Product) (l : list OrderItem) :
  NoDup (map item_id l) -> within_stock products l ->
  (forall w, exists l' w',
      NewOrderLines.addItem l w = (Ok l', w') /\ within_stock products l')
  /\ (forall id l', OrderNew.removeItem id l = Some l' -> within_stock products l')
  /\ (forall id productId l',
        NewOrderLines.updateItemPrice products id productId l = SetItems l' ->
        within_stock products l')
  /\ (forall id qty l',
        NewOrderLines.updateItemQuantity products id qty l = SetItems l' ->
        within_stock products l').
Proof.
  intros Hn H. unfold within_stock in *. split; [|split; [|split]].
  - intros w. eexists _, _. split; [reflexivity|].
    apply Forall_app. split; [exact H|].
    constructor; [|constructor]. simpl. intros p _ Hp. lia.
  - intros id l'. unfold OrderNew.removeItem.
    destruct (Nat.ltb 1 (length l)); [|discriminate]. intros [= <-].
    apply List.Forall_forall. intros item Hin. apply filter_In in Hin as [Hin _].
    rewrite List.Forall_forall in H. apply H, Hin.
  - intros id productId0 l'. unfold NewOrderLines.updateItemPrice.
    destruct (find_product productId0 products) as [product|] eqn:Hp; [|discriminate].
    intros [= <-]. apply List.Forall_forall. intros item Hin.
    apply in_map_iff in Hin as (x & <- & Hx).
    destruct (String.eqb (item_id x) id).
    + simpl. intros p Hp'. rewrite Hp in Hp'. injection Hp' as <-. lia.
    + rewrite List.Forall_forall in H. apply H, Hx.
  - intros id qty l'. unfold NewOrderLines.updateItemQuantity.
    destruct (List.find (fun i => String.eqb (item_id i) id) l) as [line|] eqn:Hl;
      [|discriminate].
    destruct (find_product (productId line) products) as [product|] eqn:Hp;
      [|discriminate].
    destruct (Z.ltb_spec (prod_stock product) qty); [discriminate|].
    intros [= <-]. apply List.Forall_forall. intros item Hin.
    apply in_map_iff in Hin as (x & <- & Hx).
    destruct (String.eqb_spec (item_id x) id) as [E|E].
    + simpl. intros p Hp'.
      rewrite (find_line id l x Hn Hx E) in Hl. injection Hl as <-.
      rewrite Hp in Hp'. injection Hp' as <-. lia.
    + rewrite List.Forall_forall in H. apply H, Hx.
Qed.

Lemma new_form_keeps_quantities_within_stock_witness :
  let products := [mkProduct Sample.P "Phone" 50 3 "available"] in
  let l := [Sample.phone Sample.L1 2; blank_line Sample.L2] in
  (forall w, exists l' w',
      NewOrderLines.addItem l w = (Ok l', w') /\ within_stock products l')
  /\ (forall id l', OrderNew.removeItem id l = Some l' -> within_stock products l')
  /\ (forall id productId l',
        NewOrderLines.updateItemPrice products id productId l = SetItems l' ->
        within_stock products l')
  /\ (forall id qty l',
        NewOrderLines.updateItemQuantity products id qty l = SetItems l' ->
        within_stock products l').
Proof.
  intros products l. apply new_form_keeps_quantities_within_stock.
  - apply (bool_decide_unpack _). vm_compute. reflexivity.
  - unfold within_stock.
    constructor.
    { intros p Hp. vm_compute in Hp. injection Hp as <-. simpl. lia. }
    constructor; [|constructor].
    intros p Hp. vm_compute in Hp. discriminate.
Defined.

(** Extra X26.  In the new-order form, lines that carry the name and the price
    of the catalogue for their product still do after any handler of the
    lines has run: no handler sets a price the catalogue does not have. *)
Theorem new_form_keeps_catalogue_prices
  (products : list Product) (l : list OrderItem) :
  catalogue_priced products l ->
  (forall w, exists l' w',
      NewOrderLines.addItem l w = (Ok l', w') /\ catalogue_priced products l')
  /\ (forall id l', OrderNew.removeItem id l = Some l' -> catalogue_priced products l')
  /\ (forall id productId l',
        NewOrderLines.updateItemPrice products id productId l = SetItems l' ->
        catalogue_priced products l')
  /\ (forall id qty l',
        NewOrderLines.updateItemQuantity products id qty l = SetItems l' ->
        catalogue_priced products l').
Proof.
  intros H. unfold catalogue_priced in *. split; [|split; [|split]].
  - intros w. eexists _, _. split; [reflexivity|].
    apply Forall_app. split; [exact H|].
    constructor; [|constructor]. simpl. discriminate.
  - intros id l'. unfold OrderNew.removeItem.
    destruct (Nat.ltb 1 (length l)); [|discriminate]. intros [= <-].
    apply List.Forall_forall. intros item Hin. apply filter_In in Hin as [Hin _].
    rewrite List.Forall_forall in H. apply H, Hin.
  - intros id productId0 l'. unfold NewOrderLines.updateItemPrice.
    destruct (find_product productId0 products) as [product|] eqn:Hp; [|discriminate].
    intros [= <-]. apply List.Forall_forall. intros item Hin.
    apply in_map_iff in Hin as (x & <- & Hx).
    destruct (String.eqb (item_id x) id).
    + simpl. intros _. exists product. repeat split. exact Hp.
    + rewrite List.Forall_forall in H. apply H, Hx.
  - intros id qty l'. unfold NewOrderLines.updateItemQuantity.
    destruct (List.find (fun i => String.eqb (item_id i) id) l) as [line|];
      [|discriminate].
    destruct (find_product (productId line) products) as [product|];
      [|discriminate].
    destruct (Z.ltb (prod_stock product) qty); [discriminate|].
    intros [= <-]. apply List.Forall_forall. intros item Hin.
    apply in_map_iff in Hin as (x & <- & Hx).
    rewrite List.Forall_forall in H.
    destruct (String.eqb (item_id x) id); [simpl|]; apply H, Hx.
Qed.

Lemma new_form_keeps_catalogue_prices_witness :
  let products := [mkProduct Sample.P "Phone" 50 3 "available"] in
  let l := [Sample.phone Sample.L1 2; blank_line Sample.L2] in
  (forall w, exists l' w',
      NewOrderLines.addItem l w = (Ok l', w') /\ catalogue_priced products l')
  /\ (forall id l', OrderNew.removeItem id l = Some l' -> catalogue_priced products l')
  /\ (forall id productId l',
        NewOrderLines.updateItemPrice products id productId l = SetItems l' ->
        catalogue_priced products l')
  /\ (forall id qty l',
        NewOrderLines.updateItemQuantity products id qty l = SetItems l' ->
        catalogue_priced products l').
Proof.
  intros products l. apply new_form_keeps_catalogue_prices.
  unfold catalogue_priced. constructor.
  { intros _. eexists. split; [vm_compute; reflexivity|]. split; reflexivity. }
  constructor; [|constructor]. simpl. discriminate.
Defined.

Lemma filter_others id (l : list OrderItem) :
  NoDup (map item_id l) ->
  (length l <= S (length (List.filter (fun item => negb (String.eqb (item_id item) id)) l)))%nat.
Proof.
  induction l as [|x l IH]; simpl; intros Hn; [lia|].
  apply NoDup_cons in Hn as [Hx Hn].
  destruct (String.eqb_spec (item_id x) id) as [E|E]; simpl.
  - assert (Hall : List.filter (fun item => negb (String.eqb (item_id item) id)) l = l).
    { apply forallb_filter_id, forallb_forall. intros y Hy.
      destruct (String.eqb_spec (item_id y) id) as [E'|E']; [|reflexivity].
      exfalso. apply Hx. rewrite E, <- E'. apply list_elem_of_In, in_map, Hy. }
    rewrite Hall. lia.
  - specialize (IH Hn). lia.
Qed.

(** Extra X27.  Removing a line, in either form, takes out the line with the
    identifier and nothing else, and leaves at least one line, when the
    lines have distinct identifiers. *)
Theorem removal_leaves_a_line (id : string) (l l' : list OrderItem) :
  NoDup (map item_id l) ->
  OrderNew.removeItem id l = Some l' \/ OrderEdit.confirmDelete id l = Some l' ->
  l' <> []
  /\ (length l <= S (length l'))%nat
  /\ Forall (fun item => item_id item <> id) l'
  /\ forall item, In item l -> item_id item <> id -> In item l'.
Proof.
  intros Hn H.
  assert (Hl : (1 < length l)%nat
               /\ l' = List.filter (fun item => negb (String.eqb (item_id item) id)) l).
  { destruct H as [H|H].
    - unfold OrderNew.removeItem in H.
      destruct (Nat.ltb_spec 1 (length l)); [|discriminate].
      injection H as <-. split; [assumption|reflexivity].
    - unfold OrderEdit.confirmDelete in H.
      destruct (JS.truthy id); simpl in H; [|discriminate].
      destruct (Nat.ltb_spec 1 (length l)); [|discriminate].
      injection H as <-. split; [assumption|reflexivity]. }
  destruct Hl as [Hlen ->]. pose proof (filter_others id l Hn) as Hf.
  split; [|split; [exact Hf|split]].
  - intros E. rewrite E in Hf. simpl in Hf. lia.
  - apply List.Forall_forall. intros item Hin. apply filter_In in Hin as [_ Hin].
    destruct (String.eqb_spec (item_id item) id); [discriminate|assumption].
  - intros item Hin Hne. apply filter_In. split; [exact Hin|].
    destruct (String.eqb_spec (item_id item) id); [contradiction|reflexivity].
Qed.

Lemma removal_leaves_a_line_witness :
  let l := [Sample.phone Sample.L1 2; blank_line Sample.L2] in
  let l' := [blank_line Sample.L2] in
  l' <> []
  /\ (length l <= S (length l'))%nat
  /\ Forall (fun item => item_id item <> Sample.L1) l'
  /\ forall item, In item l -> item_id item <> Sample.L1 -> In item l'.
Proof.
  intros l l'. apply removal_leaves_a_line.
  - apply (bool_decide_unpack _). vm_compute. reflexivity.
  - left. vm_compute. reflexivity.
Defined.

(** Extra X28.  In the edit form, lines that hold at least one unit each still
    do after any handler of the lines has run; a quantity is never refused
    there, whatever the stock. *)
Theorem edit_form_keeps_positive_quantities
  (products : list Product) (l : list OrderItem) :
  positive_quantities l ->
  (forall w, exists l' w',
      EditOrderLines.addItem l w = (Ok l', w') /\ positive_quantities l')
  /\ (forall id l', OrderEdit.confirmDelete id l = Some l' -> positive_quantities l')
  /\ (forall id productId l',
        EditOrderLines.updateItemPrice products id productId l = SetItems l' ->
        positive_quantities l')
  /\ (forall id qty, exists l',
        EditOrderLines.updateItemQuantity id qty l = SetItems l'
        /\ positive_quantities l').
Proof.
  intros H. unfold positive_quantities in *. split; [|split; [|split]].
  - intros w. eexists _, _. split; [reflexivity|].
    apply Forall_app. split; [exact H|].
    constructor; [|constructor]. simpl. lia.
  - intros id l'. unfold OrderEdit.confirmDelete.
    destruct (JS.truthy id && Nat.ltb 1 (length l)); [|discriminate]. intros [= <-].
    apply List.Forall_forall. intros item Hin. apply filter_In in Hin as [Hin _].
    rewrite List.Forall_forall in H. apply H, Hin.
  - intros id productId0 l'. unfold EditOrderLines.updateItemPrice.
    destruct (find_product productId0 products) as [product|]; [|discriminate].
    intros [= <-]. apply List.Forall_forall. intros item Hin.
    apply in_map_iff in Hin as (x & <- & Hx).
    destruct (String.eqb (item_id x) id); [simpl; lia|].
    rewrite List.Forall_forall in H. apply H, Hx.
  - intros id qty. eexists. split; [reflexivity|].
    apply List.Forall_forall. intros item Hin.
    apply in_map_iff in Hin as (x & <- & Hx).
    destruct (String.eqb (item_id x) id); [simpl; lia|].
    rewrite List.Forall_forall in H. apply H, Hx.
Qed.

Lemma edit_form_keeps_positive_quantities_witness :
  let products := [mkProduct Sample.P "Phone" 50 3 "available"] in
  let l := [Sample.phone Sample.L1 2; blank_line Sample.L2] in
  (forall w, exists l' w',
      EditOrderLines.addItem l w = (Ok l', w') /\ positive_quantities l')
  /\ (forall id l', OrderEdit.confirmDelete id l = Some l' -> positive_quantities l')
  /\ (forall id productId l',
        EditOrderLines.updateItemPrice products id productId l = SetItems l' ->
        positive_quantities l')
  /\ (forall id qty, exists l',
        EditOrderLines.updateItemQuantity id qty l = SetItems l'
        /\ positive_quantities l').
Proof.
  intros products l. apply edit_form_keeps_positive_quantities.
  unfold positive_quantities. repeat constructor; simpl; lia.
Defined.
